(** * Offer Index and offers resolver: a shallow embedding and its properties

    The development follows the TypeScript sources of the repository:

    - [packages/shared/src/customerTypes.ts]     (module [CustomerTypes])
    - [apps/api/src/jobs/eligibility/recompute.ts] (module [Recompute])
    - [apps/api/src/graphql/resolvers/user/helpers/offers/filters.ts]
      (modules [Filters] and [Resolver])
    - [apps/api/src/loaders/offerLoaders.ts]     (module [Loaders])
    - [apps/api/src/jobs/eligibility/queue.ts]   (module [Queue])

    The JavaScript values and built-ins those files rely on ([Number],
    the [<] operator, [Buffer] with the base64 and utf8 encodings,
    [String.prototype.split], property lookup on an object literal) are
    collected in module [Js]; [Map] and [Set] are in module [JsMap], the
    32-bit integer operators and [charCodeAt] in module [Js32].  Numbers
    are binary64 values: [Js.roundNumber] rounds a rational to the nearest
    one.  The Redis client in which the resolver keeps first pages is
    module [Redis]. *)

From Stdlib Require Import ZArith NArith QArith Bool List String Ascii Lia.
From Stdlib Require Import Sorted Permutation.
From Stdlib Require Decimal DecimalString DecimalPos DecimalZ OrderedTypeEx.
From Stdlib Require Hexadecimal HexadecimalString HexadecimalN.
Import ListNotations.

#[local] Open Scope Z_scope.

(* ================================================================== *)
(** * JavaScript values and built-ins                                   *)
(* ================================================================== *)

Module Js.

(** A number: a double, read as the rational it denotes, with the three
    special values.  [-0] is not told from [+0]: the code at hand never
    divides by a number nor prints a zero with its sign. *)
Inductive JsNumber : Type :=
| NaN
| NegInfinity
| Finite (q : Q)
| PosInfinity.

(** An abrupt completion carries the thrown error. *)
Inductive JsError : Type :=
| TypeError                     (* a conversion the language refuses *)
| ValidationError               (* the ORM refuses an argument of the wrong type *)
| UniqueConstraintViolation     (* the store refuses a duplicate key *)
| QueryError                    (* the store refuses the text of a statement *)
| SyntaxError.                  (* [JSON.parse] refuses a text *)

(** The outcome of evaluating an expression or a statement list. *)
Inductive Completion (A : Type) : Type :=
| Normal (a : A)
| Throw (e : JsError).

Arguments Normal {A} a.
Arguments Throw {A} e.

Definition bind {A B : Type} (c : Completion A) (k : A -> Completion B)
  : Completion B :=
  match c with
  | Normal a => k a
  | Throw e => Throw e
  end.

(** [try { c } catch { h }] *)
Definition tryCatch {A : Type} (c : Completion A) (h : A) : A :=
  match c with
  | Normal a => a
  | Throw _ => h
  end.

(** The values a budget field of type [any] may hold. *)
Inductive JsValue : Type :=
| JsUndefined
| JsNull
| JsBoolean (b : bool)
| JsNum (n : JsNumber)
| JsString (s : string)
| JsBigInt (z : Z)
| JsSymbol
| JsDecimal (d : Q)      (* a Prisma.Decimal column value *)
| JsPlainObject.         (* an object literal without valueOf/toString overrides *)

Definition Qltb (p q : Q) : bool := negb (Qle_bool q p).

(** The relational operator [x < y] on numbers: false when either side is NaN. *)
Definition lt (x y : JsNumber) : bool :=
  match x, y with
  | NaN, _ => false
  | _, NaN => false
  | NegInfinity, NegInfinity => false
  | NegInfinity, _ => true
  | Finite _, NegInfinity => false
  | Finite p, Finite q => Qltb p q
  | Finite _, PosInfinity => true
  | PosInfinity, _ => false
  end.

(** Strict equality [x === y] on numbers. *)
Definition strictEq (x y : JsNumber) : bool :=
  match x, y with
  | NegInfinity, NegInfinity => true
  | PosInfinity, PosInfinity => true
  | Finite p, Finite q => Qeq_bool p q
  | _, _ => false
  end.

(** [x >= y]: [!(x < y)] unless a side is NaN, in which case false. *)
Definition ge (x y : JsNumber) : bool :=
  match x, y with
  | NaN, _ => false
  | _, NaN => false
  | _, _ => negb (lt x y)
  end.

Definition isFinite (x : JsNumber) : bool :=
  match x with
  | Finite _ => true
  | _ => false
  end.

(** ** Strings

    A string is represented by the bytes of its UTF-8 encoding. *)

Definition code (c : ascii) : N := N_of_ascii c.
Definition chr (n : N) : ascii := ascii_of_N n.

Definition inRange (lo hi : N) (c : ascii) : bool :=
  ((lo <=? code c) && (code c <=? hi))%N.

Definition isDecimalDigit (c : ascii) : bool := inRange 48 57 c.

(** One-byte members of StrWhiteSpaceChar: TAB, LF, VT, FF, CR, SP. *)
Definition isWhiteSpace1 (c : ascii) : bool :=
  inRange 9 13 c || (code c =? 32)%N.

(** Two-byte member: U+00A0. *)
Definition isWhiteSpace2 (c0 c1 : ascii) : bool :=
  ((code c0 =? 194) && (code c1 =? 160))%N.

(** Three-byte members: U+1680, U+2000..U+200A, U+2028, U+2029, U+202F,
    U+205F, U+3000, U+FEFF. *)
Definition isWhiteSpace3 (c0 c1 c2 : ascii) : bool :=
  let a := code c0 in
  let b := code c1 in
  let c := code c2 in
  (((a =? 225) && (b =? 154) && (c =? 128))
   || ((a =? 226) && (b =? 128)
         && (((128 <=? c) && (c <=? 138)) || (c =? 168) || (c =? 169) || (c =? 175)))
   || ((a =? 226) && (b =? 129) && (c =? 159))
   || ((a =? 227) && (b =? 128) && (c =? 128))
   || ((a =? 239) && (b =? 187) && (c =? 191)))%N.

Fixpoint trimStart (s : list ascii) : list ascii :=
  match s with
  | [] => []
  | c0 :: r0 =>
      if isWhiteSpace1 c0 then trimStart r0
      else
        match r0 with
        | [] => s
        | c1 :: r1 =>
            if isWhiteSpace2 c0 c1 then trimStart r1
            else
              match r1 with
              | [] => s
              | c2 :: r2 => if isWhiteSpace3 c0 c1 c2 then trimStart r2 else s
              end
        end
  end.

(** The same scan from the end: the bytes arrive in reverse order. *)
Fixpoint trimStartRev (s : list ascii) : list ascii :=
  match s with
  | [] => []
  | c0 :: r0 =>
      if isWhiteSpace1 c0 then trimStartRev r0
      else
        match r0 with
        | [] => s
        | c1 :: r1 =>
            if isWhiteSpace2 c1 c0 then trimStartRev r1
            else
              match r1 with
              | [] => s
              | c2 :: r2 => if isWhiteSpace3 c2 c1 c0 then trimStartRev r2 else s
              end
        end
  end.

Definition trim (s : string) : string :=
  string_of_list_ascii
    (rev (trimStartRev (rev (trimStart (list_ascii_of_string s))))).

(** [span p s]: the longest prefix of [s] whose characters satisfy [p], and the rest. *)
Fixpoint span (p : ascii -> bool) (s : string) : string * string :=
  match s with
  | EmptyString => (EmptyString, EmptyString)
  | String c r =>
      if p c then let '(a, b) := span p r in (String c a, b)
      else (EmptyString, s)
  end.

(** The value of a run of decimal digits. *)
Definition digitsValue (ds : string) : Z :=
  match DecimalString.NilEmpty.uint_of_string ds with
  | Some u => Z.of_uint u
  | None => 0
  end.

(** [m * 10^e] as a rational. *)
Definition scale10 (m e : Z) : Q :=
  if 0 <=? e then inject_Z (m * 10 ^ e)
  else Qmake m (Z.to_pos (10 ^ (- e))).

Definition negate (x : JsNumber) : JsNumber :=
  match x with
  | NaN => NaN
  | NegInfinity => PosInfinity
  | Finite q => Finite (- q)
  | PosInfinity => NegInfinity
  end.

(** [floor (log2 (n / d))] for positive [n] and [d]. *)
Definition floorLog2 (n d : Z) : Z :=
  let k := Z.log2 n - Z.log2 d in
  if (if 0 <=? k then d * 2 ^ k <=? n else d <=? n * 2 ^ (- k)) then k else k - 1.

(** The integer nearest to [n / d] for a positive [d]; a tie goes to the
    even one. *)
Definition roundHalfEven (n d : Z) : Z :=
  let q := n / d in
  match 2 * (n mod d) ?= d with
  | Lt => q
  | Gt => q + 1
  | Eq => if Z.even q then q else q + 1
  end.

(** The double nearest to [n / d] for positive [n] and [d]: [m * 2^e] with
    a significand [m] of at most 53 bits and an exponent [e] from [-1074]
    on; what rounds to [2^1024] or beyond is an infinity. *)
Definition roundPositive (n d : Z) : JsNumber :=
  let e := Z.max (floorLog2 n d - 52) (-1074) in
  if 0 <=? e then
    let v := roundHalfEven n (d * 2 ^ e) * 2 ^ e in
    if 2 ^ 1024 <=? v then PosInfinity else Finite (inject_Z v)
  else
    Finite (Qred (Qmake (roundHalfEven (n * 2 ^ (- e)) d) (Z.to_pos (2 ^ (- e))))).

(** The number a mathematical value denotes: round to nearest, ties to
    even.  A finite result is kept in lowest terms. *)
Definition roundNumber (q : Q) : JsNumber :=
  match Qnum q with
  | 0 => Finite 0
  | Zpos p => roundPositive (Zpos p) (Zpos (Qden q))
  | Zneg p => negate (roundPositive (Zpos p) (Zpos (Qden q)))
  end.

(** ExponentPart_opt at the end of a decimal literal: [Some e], or [None]
    when the text is not an exponent part. *)
Definition exponentPart (s : string) : option Z :=
  match s with
  | EmptyString => Some 0
  | String c r =>
      if Ascii.eqb c "e" || Ascii.eqb c "E" then
        let '(neg, r') :=
          match r with
          | String "+" t => (false, t)
          | String "-" t => (true, t)
          | _ => (false, r)
          end in
        let '(ds, rest) := span isDecimalDigit r' in
        match ds, rest with
        | String _ _, EmptyString =>
            Some (if neg : bool then - digitsValue ds else digitsValue ds)
        | _, _ => None
        end
      else None
  end.

(** StrUnsignedDecimalLiteral *)
Definition strUnsignedDecimalLiteral (s : string) : JsNumber :=
  if String.eqb s "Infinity" then PosInfinity
  else
    let '(ip, r1) := span isDecimalDigit s in
    let '(fp, r2) :=
      match r1 with
      | String "." t => span isDecimalDigit t
      | _ => (EmptyString, r1)
      end in
    match ip, fp with
    | EmptyString, EmptyString => NaN
    | _, _ =>
        match exponentPart r2 with
        | Some e =>
            roundNumber
              (scale10 (digitsValue (ip ++ fp)) (e - Z.of_nat (String.length fp)))
        | None => NaN
        end
    end.

(** StrDecimalLiteral *)
Definition strDecimalLiteral (s : string) : JsNumber :=
  match s with
  | String "+" t => strUnsignedDecimalLiteral t
  | String "-" t => negate (strUnsignedDecimalLiteral t)
  | _ => strUnsignedDecimalLiteral s
  end.

Definition digitOfBase (base : N) (c : ascii) : option N :=
  let v :=
    if inRange 48 57 c then Some (code c - 48)%N
    else if inRange 97 102 c then Some (code c - 87)%N
    else if inRange 65 70 c then Some (code c - 55)%N
    else None in
  match v with
  | Some d => if (d <? base)%N then Some d else None
  | None => None
  end.

Fixpoint radixValue (base : N) (acc : N) (s : string) : option N :=
  match s with
  | EmptyString => Some acc
  | String c r =>
      match digitOfBase base c with
      | Some d => radixValue base (acc * base + d)%N r
      | None => None
      end
  end.

(** NonDecimalIntegerLiteral: [0b], [0o] and [0x] prefixes, at least one digit, no sign. *)
Definition nonDecimalIntegerLiteral (s : string) : option JsNumber :=
  match s with
  | String "0" (String p (String d ds)) =>
      let base :=
        if Ascii.eqb p "b" || Ascii.eqb p "B" then Some 2%N
        else if Ascii.eqb p "o" || Ascii.eqb p "O" then Some 8%N
        else if Ascii.eqb p "x" || Ascii.eqb p "X" then Some 16%N
        else None in
      match base with
      | Some b =>
          Some match radixValue b 0 (String d ds) with
               | Some v => roundNumber (inject_Z (Z.of_N v))
               | None => NaN
               end
      | None => None
      end
  | _ => None
  end.

(** StringToNumber: the empty or all-blank string is [+0]; text outside the
    StringNumericLiteral grammar is [NaN]. *)
Definition StringToNumber (s : string) : JsNumber :=
  let t := trim s in
  match t with
  | EmptyString => Finite 0
  | _ =>
      match nonDecimalIntegerLiteral t with
      | Some n => n
      | None => strDecimalLiteral t
      end
  end.

(** [Number(v)] *)
Definition Number (v : JsValue) : Completion JsNumber :=
  match v with
  | JsUndefined => Normal NaN
  | JsNull => Normal (Finite 0)
  | JsBoolean b => Normal (Finite (if b then 1 else 0))
  | JsNum n => Normal n
  | JsString s => Normal (StringToNumber s)
  | JsBigInt z => Normal (roundNumber (inject_Z z))
  | JsSymbol => Throw TypeError
  | JsDecimal d => Normal (roundNumber d)
  | JsPlainObject => Normal NaN
  end.

(** A value is non-numeric when [Number] throws on it or produces NaN. *)
Definition nonNumeric (v : JsValue) : bool :=
  match Number v with
  | Throw _ => true
  | Normal NaN => true
  | Normal _ => false
  end.

(** An integer is the value of a number when rounding keeps it. *)
Definition isInteger (z : Z) : Prop := roundNumber (inject_Z z) = Finite (inject_Z z).

(** The decimal digits of a non-negative integer. *)
Definition digits (z : Z) : string :=
  DecimalString.NilZero.string_of_uint (N.to_uint (Z.to_N z)).

(** Whether the number nearest to the integer [v] is the integer [z]. *)
Definition rounds (v z : Z) : bool :=
  match roundNumber (inject_Z v) with
  | Finite (Qmake a 1) => a =? z
  | _ => false
  end.

(** The texts of [k] digits next to a positive integer [z] of [n0] digits:
    its two neighbours among the multiples of [10^(n0-k)], the nearer one
    first, each as a pair [(s, e)] that stands for [s * 10^e]. *)
Definition neighbours (z n0 k : Z) : list (Z * Z) :=
  let p := 10 ^ (n0 - k) in
  let lo := (z / p, n0 - k) in
  let hi :=
    if z / p + 1 <? 10 ^ k then (z / p + 1, n0 - k) else (10 ^ (k - 1), n0 - k + 1) in
  if 2 * (z mod p) <=? p then [lo; hi] else [hi; lo].

(** Number::toString, step 5: integers [n], [k] and [s] with [k >= 1],
    [10^(k-1) <= s < 10^k], such that [s * 10^(n-k)] rounds to [z], and [k]
    as small as possible.  The texts are tried by growing [k]; the result
    is [s] with [e = n - k].  With as many digits as [z] has, [z] itself
    does. *)
Fixpoint shortest (z n0 k : Z) (fuel : nat) : Z * Z :=
  match fuel with
  | O => (z, 0)
  | S fuel' =>
      match find (fun c => rounds (fst c * 10 ^ snd c) z) (neighbours z n0 k) with
      | Some c => c
      | None => shortest z n0 (k + 1) fuel'
      end
  end.

(** Number::toString for a positive integer, steps 6 to 10: [k] is the
    number of digits of [s] and [n] is [e + k]; up to [n = 21] the text is
    the digits of [s] followed by [n - k] zeros, that is, the digits of
    [s * 10^e]; beyond, the first digit, the other digits after a point if
    there are any, and the exponent [n - 1]. *)
Definition NumberToStringPositive (z : Z) : string :=
  let n0 := Z.of_nat (String.length (digits z)) in
  let '(s, e) := shortest z n0 1 (Z.to_nat (n0 - 1)) in
  let k := Z.of_nat (String.length (digits s)) in
  let n := e + k in
  if n <=? 21 then digits (s * 10 ^ e)
  else
    match digits s with
    | String d EmptyString => String d ("e+" ++ digits (n - 1))%string
    | String d r => String d ("." ++ r ++ "e+" ++ digits (n - 1))%string
    | EmptyString => EmptyString
    end.

(** [`${z}`] for a number whose value is the integer [z]. *)
Definition NumberToString (z : Z) : string :=
  match z with
  | 0 => "0"
  | Zpos _ => NumberToStringPositive z
  | Zneg _ => String "-" (NumberToStringPositive (- z))
  end.

(** ** [String.prototype.split] with a one-character separator *)

Fixpoint split (sep : ascii) (s : string) : list string :=
  match s with
  | EmptyString => [EmptyString]
  | String c r =>
      if Ascii.eqb c sep then EmptyString :: split sep r
      else
        match split sep r with
        | h :: t => String c h :: t
        | [] => [String c EmptyString]
        end
  end.

(** ** [Buffer]: the utf8 and base64 encodings *)

(** [Buffer.from(s, "utf8")]: the bytes of the string, which is how a
    string is represented. *)
Definition utf8Bytes (s : string) : string := s.

(** U+FFFD, as UTF-8. *)
Definition replacement (rest : string) : string :=
  String (chr 239) (String (chr 191) (String (chr 189) rest)).

(** The range allowed for the byte after the lead byte [b0] of a
    three-byte or four-byte sequence. *)
Definition secondByteOk (b0 b1 : ascii) : bool :=
  let a := code b0 in
  if (a =? 224)%N then inRange 160 191 b1
  else if (a =? 237)%N then inRange 128 159 b1
  else if (a =? 240)%N then inRange 144 191 b1
  else if (a =? 244)%N then inRange 128 143 b1
  else inRange 128 191 b1.

Definition isContinuation (b : ascii) : bool := inRange 128 191 b.

(** [buf.toString("utf8")]: well-formed sequences are kept, every maximal
    ill-formed part becomes U+FFFD and decoding resumes at the byte that
    broke the sequence. *)
Fixpoint utf8ToString (bs : string) : string :=
  match bs with
  | EmptyString => EmptyString
  | String b0 r0 =>
      if inRange 0 127 b0 then String b0 (utf8ToString r0)
      else if inRange 194 223 b0 then
        match r0 with
        | EmptyString => replacement EmptyString
        | String b1 r1 =>
            if isContinuation b1 then String b0 (String b1 (utf8ToString r1))
            else replacement (utf8ToString r0)
        end
      else if inRange 224 239 b0 then
        match r0 with
        | EmptyString => replacement EmptyString
        | String b1 r1 =>
            if secondByteOk b0 b1 then
              match r1 with
              | EmptyString => replacement EmptyString
              | String b2 r2 =>
                  if isContinuation b2
                  then String b0 (String b1 (String b2 (utf8ToString r2)))
                  else replacement (utf8ToString r1)
              end
            else replacement (utf8ToString r0)
        end
      else if inRange 240 244 b0 then
        match r0 with
        | EmptyString => replacement EmptyString
        | String b1 r1 =>
            if secondByteOk b0 b1 then
              match r1 with
              | EmptyString => replacement EmptyString
              | String b2 r2 =>
                  if isContinuation b2 then
                    match r2 with
                    | EmptyString => replacement EmptyString
                    | String b3 r3 =>
                        if isContinuation b3
                        then String b0 (String b1 (String b2 (String b3 (utf8ToString r3))))
                        else replacement (utf8ToString r2)
                    end
                  else replacement (utf8ToString r1)
              end
            else replacement (utf8ToString r0)
        end
      else replacement (utf8ToString r0)
  end.

(** A byte string is the representation of a string when decoding keeps it. *)
Definition wellFormed (s : string) : Prop := utf8ToString s = s.

#[local] Open Scope string_scope.

Definition base64Alphabet : string :=
  "ABCDEFGHIJKLMNOPQRSTUVWXYZabcdefghijklmnopqrstuvwxyz0123456789+/".

Definition base64Char (v : N) : ascii :=
  match String.get (N.to_nat v) base64Alphabet with
  | Some c => c
  | None => "="%char
  end.

(** [buf.toString("base64")] *)
Fixpoint base64Encode (bs : string) : string :=
  match bs with
  | EmptyString => EmptyString
  | String a EmptyString =>
      let x := code a in
      String (base64Char (x / 4))
        (String (base64Char ((x mod 4) * 16)) "==")
  | String a (String b EmptyString) =>
      let x := code a in
      let y := code b in
      String (base64Char (x / 4))
        (String (base64Char ((x mod 4) * 16 + y / 16))
           (String (base64Char ((y mod 16) * 4)) "="))
  | String a (String b (String c r)) =>
      let x := code a in
      let y := code b in
      let z := code c in
      String (base64Char (x / 4))
        (String (base64Char ((x mod 4) * 16 + y / 16))
           (String (base64Char ((y mod 16) * 4 + z / 64))
              (String (base64Char (z mod 64)) (base64Encode r))))
  end%N.

(** The six-bit value of a base64 character; both the standard and the
    URL-safe alphabet are accepted. *)
Definition unbase64 (c : ascii) : option N :=
  if inRange 65 90 c then Some (code c - 65)%N
  else if inRange 97 122 c then Some (code c - 71)%N
  else if inRange 48 57 c then Some (code c + 4)%N
  else if Ascii.eqb c "+" || Ascii.eqb c "-" then Some 62%N
  else if Ascii.eqb c "/" || Ascii.eqb c "_" then Some 63%N
  else None.

(** Characters outside the alphabet are skipped; decoding stops at the first [=]. *)
Fixpoint sextets (s : string) : list N :=
  match s with
  | EmptyString => []
  | String c r =>
      if Ascii.eqb c "=" then []
      else
        match unbase64 c with
        | Some v => v :: sextets r
        | None => sextets r
        end
  end.

Fixpoint packSextets (vs : list N) : string :=
  match vs with
  | s0 :: s1 :: s2 :: s3 :: r =>
      String (chr (s0 * 4 + s1 / 16))
        (String (chr ((s1 mod 16) * 16 + s2 / 4))
           (String (chr ((s2 mod 4) * 64 + s3)) (packSextets r)))
  | [s0; s1; s2] =>
      String (chr (s0 * 4 + s1 / 16))
        (String (chr ((s1 mod 16) * 16 + s2 / 4)) EmptyString)
  | [s0; s1] => String (chr (s0 * 4 + s1 / 16)) EmptyString
  | _ => EmptyString
  end%N.

(** [Buffer.from(s, "base64")] *)
Definition base64Decode (s : string) : string := packSextets (sextets s).

End Js.

(* ================================================================== *)
(** * packages/shared/src/customerTypes.ts                              *)
(* ================================================================== *)

Module CustomerTypes.

#[local] Open Scope string_scope.

(** What a property read [obj[key]] on an object literal can produce. *)
Inductive PropertyValue : Type :=
| PNumber (n : Z)                 (* an own data property of the literal *)
| PInherited (name : string)      (* a member of Object.prototype, found on the prototype chain *)
| PUndefined.

(** The own properties of the literal, in source order. *)
Definition ORDERED_CUSTOMER_TYPES : list (string * Z) :=
  [ ("NonCustomer", 0);
    ("New", 1);
    ("Infrequent", 2);
    ("Occasional", 3);
    ("Regular", 4);
    ("Vip", 5) ].

(** The properties every object literal inherits from [Object.prototype]. *)
Definition objectPrototypeKeys : list string :=
  [ "constructor"; "hasOwnProperty"; "isPrototypeOf"; "propertyIsEnumerable";
    "toLocaleString"; "toString"; "valueOf"; "__proto__";
    "__defineGetter__"; "__defineSetter__"; "__lookupGetter__"; "__lookupSetter__" ].

Fixpoint ownProperty (o : list (string * Z)) (key : string) : option Z :=
  match o with
  | [] => None
  | (k, v) :: rest => if String.eqb k key then Some v else ownProperty rest key
  end.

(** [ORDERED_CUSTOMER_TYPES[key]]: own properties first, then the prototype. *)
Definition getProperty (o : list (string * Z)) (key : string) : PropertyValue :=
  match ownProperty o key with
  | Some v => PNumber v
  | None =>
      if existsb (String.eqb key) objectPrototypeKeys then PInherited key
      else PUndefined
  end.

(** [a ?? b]: [b] only when [a] is null or undefined. *)
Definition nullish (a : PropertyValue) (b : PropertyValue) : PropertyValue :=
  match a with
  | PUndefined => b
  | _ => a
  end.

(** [customerTypeRank(type)]; [None] stands for [null] and [undefined].
    [!type] holds for those and for the empty string. *)
Definition customerTypeRank (type : option string) : PropertyValue :=
  match type with
  | None => getProperty ORDERED_CUSTOMER_TYPES "NonCustomer"
  | Some "" => getProperty ORDERED_CUSTOMER_TYPES "NonCustomer"
  | Some t =>
      nullish (getProperty ORDERED_CUSTOMER_TYPES t)
              (getProperty ORDERED_CUSTOMER_TYPES "NonCustomer")
  end.

(** [isTierEligible(userRank, tierMinRank)] *)
Definition isTierEligible (userRank tierMinRank : Z) : bool :=
  userRank >=? tierMinRank.

(** The rank as the integer the index tables store, for the types whose
    lookup yields a number. *)
Definition rankNumber (type : option string) : option Z :=
  match customerTypeRank type with
  | PNumber n => Some n
  | _ => None
  end.

End CustomerTypes.

(* ================================================================== *)
(** * filters.ts: page size and cursor                                  *)
(* ================================================================== *)

Module Filters.

#[local] Open Scope string_scope.

(** [normalizeTake(take)]; [None] stands for [null] and [undefined]. *)
Definition normalizeTake (take : option Z) : Z :=
  let n := match take with Some t => t | None => 20 end in
  Z.max 1 (Z.min n 50).

(** [escapeLike(input)]: a backslash before every backslash, [%] and [_]. *)
Fixpoint escapeLike (input : string) : string :=
  match input with
  | EmptyString => EmptyString
  | String c r =>
      if Ascii.eqb c "\" || Ascii.eqb c "%" || Ascii.eqb c "_"
      then String "\" (String c (escapeLike r))
      else String c (escapeLike r)
  end.

(** A decoded cursor.  [sortKey] is a number that passed [Number.isFinite]. *)
Record Cursor : Type := mkCursor {
  sortKey : Q;
  outletId : string
}.

(** [decodeCursor(cursor)]; [None] stands for [null] and [undefined] on
    both sides.  None of the built-ins it calls throws on a string, so the
    result needs no abrupt completion. *)
Definition decodeCursor (cursor : option string) : option Cursor :=
  match cursor with
  | None => None
  | Some "" => None
  | Some c =>
      let raw := Js.utf8ToString (Js.base64Decode c) in
      let parts := Js.split ":" raw in
      let sortKeyStr := nth 0 parts "" in
      let outletId := nth_error parts 1 in
      match Js.StringToNumber sortKeyStr, outletId with
      | Js.Finite q, Some (String a r) => Some (mkCursor q (String a r))
      | _, _ => None
      end
  end.

(** [encodeCursor(sortKey, outletId)] *)
Definition encodeCursor (sortKey : Z) (outletId : string) : string :=
  Js.base64Encode (Js.utf8Bytes (Js.NumberToString sortKey ++ ":" ++ outletId)).

End Filters.

(* ================================================================== *)
(** * The tables                                                        *)
(* ================================================================== *)

(** Source entities are owned by other parts of the system and only read
    here; the index tables are those of the hand-written migration.
    Timestamps are milliseconds since the epoch.  The surrogate [id]
    column of the child tables is never read and is left out, as is the
    storage-maintained [updatedAt]. *)
Module Schema.

Inductive OfferKind : Type := CASHBACK | EXCLUSIVE | LOYALTY.

Definition OfferKind_eqb (a b : OfferKind) : bool :=
  match a, b with
  | CASHBACK, CASHBACK | EXCLUSIVE, EXCLUSIVE | LOYALTY, LOYALTY => true
  | _, _ => false
  end.

(** ** Source entities *)

Record Review : Type := mkReview {
  r_id : string;
  r_status : string
}.

Record CashbackConfigurationTier : Type := mkCashbackConfigurationTier {
  cct_isActive : bool;
  cct_deletedAt : option Z;
  cct_Review : option Review;
  cct_percentage : Z
}.

Record CashbackConfiguration : Type := mkCashbackConfiguration {
  cc_id : string;
  cc_merchantId : string;
  cc_isActive : bool;
  cc_deletedAt : option Z;
  cc_startDate : option Z;
  cc_endDate : option Z;
  cc_eligibleCustomerTypes : list string;
  cc_netCashbackBudget : Js.JsValue;
  cc_usedCashbackBudget : Js.JsValue;
  cc_Review : option Review;
  cc_Outlets : list string;                       (* ids of the connected outlets *)
  cc_CashbackConfigurationTiers : list CashbackConfigurationTier
}.

Record ExclusiveOffer : Type := mkExclusiveOffer {
  eo_id : string;
  eo_merchantId : option string;
  eo_Merchant : option string;                    (* id of the related merchant *)
  eo_isActive : bool;
  eo_deletedAt : option Z;
  eo_startDate : option Z;
  eo_endDate : option Z;
  eo_eligibleCustomerTypes : list string;
  eo_netOfferBudget : Js.JsValue;
  eo_usedOfferBudget : Js.JsValue;
  eo_Review : option Review;
  eo_Outlets : list string
}.

Record LoyaltyTier : Type := mkLoyaltyTier {
  lt_isActive : bool;
  lt_deletedAt : option Z;
  lt_Review : option Review;
  lt_minCustomerType : option string
}.

Record MerchantLoyaltyReward : Type := mkMerchantLoyaltyReward {
  mlr_isActive : bool;
  mlr_Review : option Review
}.

Record LoyaltyProgram : Type := mkLoyaltyProgram {
  lp_id : string;
  lp_isActive : bool;
  lp_Review : option Review;
  lp_pointsIssuedLimit : Js.JsValue;
  lp_pointsUsedInPeriod : Js.JsValue;
  lp_LoyaltyTiers : list LoyaltyTier;
  lp_MerchantLoyaltyRewards : list MerchantLoyaltyReward
}.

Record Merchant : Type := mkMerchant {
  m_id : string;
  m_status : string;
  m_category : string;
  m_businessName : string;
  m_LoyaltyProgram : option LoyaltyProgram
}.

Record Outlet : Type := mkOutlet {
  o_id : string;
  o_merchantId : string;
  o_isActive : bool;
  o_reviewId : option string;
  o_name : string;
  o_description : option string
}.

Record PaybillOrTill : Type := mkPaybillOrTill {
  pt_outletId : string;
  pt_isActive : bool;
  pt_deletedAt : option Z;
  pt_reviewId : option string
}.

Record CustomerType : Type := mkCustomerType {
  ct_userId : string;
  ct_merchantId : string;
  ct_type : string
}.

Record Source : Type := mkSource {
  cashbackConfigurations : list CashbackConfiguration;
  exclusiveOffers : list ExclusiveOffer;
  merchants : list Merchant;
  outlets : list Outlet;
  reviews : list Review;
  paybillOrTills : list PaybillOrTill;
  customerTypes : list CustomerType
}.

(** ** Index tables *)

Record OfferIndex : Type := mkOfferIndex {
  oi_id : string;
  oi_kind : OfferKind;
  oi_merchantId : string;
  oi_cashbackConfigurationId : option string;
  oi_exclusiveOfferId : option string;
  oi_loyaltyProgramId : option string;
  oi_isActiveSnapshot : bool;
  oi_isApprovedSnapshot : bool;
  oi_deletedAtSnapshot : option Z;
  oi_budgetExhausted : bool;
  oi_startDate : option Z;
  oi_endDate : option Z;
  oi_maxCashbackPercentBps : option Z;
  oi_computedAt : Z
}.

Record OfferIndexCustomerType : Type := mkOfferIndexCustomerType {
  oict_offerIndexId : string;
  oict_customerType : string
}.

Record OfferIndexOutlet : Type := mkOfferIndexOutlet {
  oio_offerIndexId : string;
  oio_outletId : string
}.

Record LoyaltyTierIndex : Type := mkLoyaltyTierIndex {
  lti_offerIndexId : string;
  lti_tierRank : Z;
  lti_isActiveSnapshot : bool;
  lti_isApprovedSnapshot : bool;
  lti_deletedAtSnapshot : option Z
}.

Record UserMerchantProfile : Type := mkUserMerchantProfile {
  ump_userId : string;
  ump_merchantId : string;
  ump_customerType : string;
  ump_rank : Z
}.

Record Index : Type := mkIndex {
  offerIndex : list OfferIndex;
  offerIndexCustomerType : list OfferIndexCustomerType;
  offerIndexOutlet : list OfferIndexOutlet;
  loyaltyTierIndex : list LoyaltyTierIndex;
  userMerchantProfile : list UserMerchantProfile
}.

Definition option_eqb {A : Type} (eqb : A -> A -> bool) (a b : option A) : bool :=
  match a, b with
  | Some x, Some y => eqb x y
  | None, None => true
  | _, _ => false
  end.

End Schema.

(* ================================================================== *)
(** * apps/api/src/jobs/eligibility/recompute.ts                        *)
(* ================================================================== *)

Module Recompute.

Import Schema.
#[local] Open Scope string_scope.

(** What an invocation reads from outside the store: the clock behind
    [new Date()] and the identifier a newly created [OfferIndex] row gets. *)
Record Env : Type := mkEnv {
  now : Z;
  newId : string
}.

(** ** Store operations: state passing with abrupt completion *)

Definition DbM (A : Type) : Type := Index -> Js.Completion A * Index.

Definition ret {A : Type} (a : A) : DbM A := fun db => (Js.Normal a, db).

Definition raise {A : Type} (e : Js.JsError) : DbM A := fun db => (Js.Throw e, db).

Definition bindM {A B : Type} (m : DbM A) (k : A -> DbM B) : DbM B :=
  fun db =>
    match m db with
    | (Js.Normal a, db') => k a db'
    | (Js.Throw e, db') => (Js.Throw e, db')
    end.

Notation "x <- m ;; k" := (bindM m (fun x => k))
  (at level 61, m at next level, right associativity).
Notation "m ;;; k" := (bindM m (fun _ => k))
  (at level 61, right associativity).

(** [prisma.$transaction([...])]: the statements run in order; when one
    throws, none of their writes is kept. *)
Definition transaction {A : Type} (m : DbM A) : DbM A :=
  fun db =>
    match m db with
    | (Js.Normal a, db') => (Js.Normal a, db')
    | (Js.Throw e, _) => (Js.Throw e, db)
    end.

(** [createMany] into a table with a unique key: a duplicate throws. *)
Fixpoint insertAllUnique {A : Type} (same : A -> A -> bool)
         (rows table : list A) : Js.Completion (list A) :=
  match rows with
  | [] => Js.Normal table
  | r :: rest =>
      if existsb (same r) table then Js.Throw Js.UniqueConstraintViolation
      else insertAllUnique same rest (table ++ [r])
  end.

(** [createMany] with [skipDuplicates: true]: a duplicate is dropped. *)
Fixpoint insertAllSkipDuplicates {A : Type} (same : A -> A -> bool)
         (rows table : list A) : list A :=
  match rows with
  | [] => table
  | r :: rest =>
      if existsb (same r) table then insertAllSkipDuplicates same rest table
      else insertAllSkipDuplicates same rest (table ++ [r])
  end.

(** Replace the first row satisfying [p]. *)
Fixpoint updateFirst {A : Type} (p : A -> bool) (f : A -> A) (l : list A) : list A :=
  match l with
  | [] => []
  | x :: r => if p x then f x :: r else x :: updateFirst p f r
  end.

Definition setOfferIndex (t : list OfferIndex) (db : Index) : Index :=
  mkIndex t (offerIndexCustomerType db) (offerIndexOutlet db)
          (loyaltyTierIndex db) (userMerchantProfile db).

Definition setOfferIndexCustomerType (t : list OfferIndexCustomerType) (db : Index) : Index :=
  mkIndex (offerIndex db) t (offerIndexOutlet db)
          (loyaltyTierIndex db) (userMerchantProfile db).

Definition setOfferIndexOutlet (t : list OfferIndexOutlet) (db : Index) : Index :=
  mkIndex (offerIndex db) (offerIndexCustomerType db) t
          (loyaltyTierIndex db) (userMerchantProfile db).

Definition setLoyaltyTierIndex (t : list LoyaltyTierIndex) (db : Index) : Index :=
  mkIndex (offerIndex db) (offerIndexCustomerType db) (offerIndexOutlet db)
          t (userMerchantProfile db).

Definition setUserMerchantProfile (t : list UserMerchantProfile) (db : Index) : Index :=
  mkIndex (offerIndex db) (offerIndexCustomerType db) (offerIndexOutlet db)
          (loyaltyTierIndex db) t.

(** [prisma.offerIndex.upsert({ where, update, create, select: { id: true } })] *)
Definition offerIndex_upsert (where_ : OfferIndex -> bool)
           (update : OfferIndex -> OfferIndex) (create : OfferIndex) : DbM string :=
  fun db =>
    match find where_ (offerIndex db) with
    | Some row =>
        (Js.Normal (oi_id row),
         setOfferIndex (updateFirst where_ update (offerIndex db)) db)
    | None =>
        (Js.Normal (oi_id create), setOfferIndex (offerIndex db ++ [create]) db)
    end.

Definition offerIndexCustomerType_deleteMany (offerIndexId : string) : DbM unit :=
  fun db =>
    (Js.Normal tt,
     setOfferIndexCustomerType
       (filter (fun r => negb (oict_offerIndexId r =? offerIndexId))
               (offerIndexCustomerType db)) db).

Definition offerIndexOutlet_deleteMany (offerIndexId : string) : DbM unit :=
  fun db =>
    (Js.Normal tt,
     setOfferIndexOutlet
       (filter (fun r => negb (oio_offerIndexId r =? offerIndexId))
               (offerIndexOutlet db)) db).

Definition loyaltyTierIndex_deleteMany (offerIndexId : string) : DbM unit :=
  fun db =>
    (Js.Normal tt,
     setLoyaltyTierIndex
       (filter (fun r => negb (lti_offerIndexId r =? offerIndexId))
               (loyaltyTierIndex db)) db).

Definition userMerchantProfile_deleteMany (userId : string) : DbM unit :=
  fun db =>
    (Js.Normal tt,
     setUserMerchantProfile
       (filter (fun r => negb (ump_userId r =? userId))
               (userMerchantProfile db)) db).

(** Unique on (offerIndexId, customerType). *)
Definition sameCustomerTypeKey (a b : OfferIndexCustomerType) : bool :=
  (oict_offerIndexId a =? oict_offerIndexId b)
  && (oict_customerType a =? oict_customerType b).

(** Unique on (offerIndexId, outletId). *)
Definition sameOutletKey (a b : OfferIndexOutlet) : bool :=
  (oio_offerIndexId a =? oio_offerIndexId b)
  && (oio_outletId a =? oio_outletId b).

(** Unique on (userId, merchantId). *)
Definition sameProfileKey (a b : UserMerchantProfile) : bool :=
  (ump_userId a =? ump_userId b) && (ump_merchantId a =? ump_merchantId b).

Definition offerIndexCustomerType_createMany (data : list OfferIndexCustomerType)
  : DbM unit :=
  fun db =>
    match insertAllUnique sameCustomerTypeKey data (offerIndexCustomerType db) with
    | Js.Normal t => (Js.Normal tt, setOfferIndexCustomerType t db)
    | Js.Throw e => (Js.Throw e, db)
    end.

Definition offerIndexOutlet_createMany_skipDuplicates (data : list OfferIndexOutlet)
  : DbM unit :=
  fun db =>
    (Js.Normal tt,
     setOfferIndexOutlet
       (insertAllSkipDuplicates sameOutletKey data (offerIndexOutlet db)) db).

(** The table has no unique key besides its surrogate id: every row is inserted. *)
Definition loyaltyTierIndex_createMany_skipDuplicates (data : list LoyaltyTierIndex)
  : DbM unit :=
  fun db => (Js.Normal tt, setLoyaltyTierIndex (loyaltyTierIndex db ++ data) db).

Definition userMerchantProfile_createMany (data : list UserMerchantProfile) : DbM unit :=
  fun db =>
    match insertAllUnique sameProfileKey data (userMerchantProfile db) with
    | Js.Normal t => (Js.Normal tt, setUserMerchantProfile t db)
    | Js.Throw e => (Js.Throw e, db)
    end.

(** An integer column accepts a rank only when the lookup produced a number. *)
Fixpoint intColumn (ranks : list CustomerTypes.PropertyValue) : Js.Completion (list Z) :=
  match ranks with
  | [] => Js.Normal []
  | CustomerTypes.PNumber n :: rest =>
      Js.bind (intColumn rest) (fun ns => Js.Normal (n :: ns))
  | _ :: _ => Js.Throw Js.ValidationError
  end.

(** ** The helpers of the file *)

Definition isApproved (review : option Review) : bool :=
  match review with
  | Some r => r_status r =? "Approved"
  | None => false
  end.

Definition cashbackBudgetExhausted (net used : Js.JsValue) : bool :=
  Js.tryCatch
    (Js.bind (Js.Number net) (fun netNum =>
     Js.bind (Js.Number used) (fun usedNum =>
     Js.Normal (negb (Js.lt usedNum netNum)))))
    true.

Definition offerBudgetExhausted (net used : Js.JsValue) : bool :=
  Js.tryCatch
    (Js.bind (Js.Number net) (fun netNum =>
     Js.bind (Js.Number used) (fun usedNum =>
     Js.Normal (negb (Js.lt usedNum netNum)))))
    true.

Definition pointsLimitExhausted (limit used : Js.JsValue) : bool :=
  match limit with
  | Js.JsNull | Js.JsUndefined => false
  | _ =>
      Js.tryCatch
        (Js.bind (Js.Number limit) (fun limitNum =>
         Js.bind (Js.Number used) (fun usedNum =>
         Js.Normal (Js.ge usedNum limitNum))))
        true
  end.

Definition isNull {A : Type} (a : option A) : bool :=
  match a with
  | None => true
  | Some _ => false
  end.

(** ** The four operations *)

Definition rebuildUserMerchantProfilesForUser (src : Source) (userId : string)
  : DbM unit :=
  let rows := filter (fun r => ct_userId r =? userId) (customerTypes src) in
  userMerchantProfile_deleteMany userId ;;;
  match rows with
  | [] => ret tt
  | _ =>
      match intColumn (map (fun r => CustomerTypes.customerTypeRank (Some (ct_type r))) rows) with
      | Js.Throw e => raise e
      | Js.Normal ranks =>
          userMerchantProfile_createMany
            (map (fun '(r, rank) =>
                    mkUserMerchantProfile userId (ct_merchantId r) (ct_type r) rank)
                 (combine rows ranks))
      end
  end.

Definition rebuildCashbackIndex (env : Env) (src : Source)
           (cashbackConfigurationId : string) : DbM unit :=
  match find (fun c => cc_id c =? cashbackConfigurationId) (cashbackConfigurations src) with
  | None => ret tt
  | Some cc =>
      let tiers :=
        filter (fun t => cct_isActive t && isNull (cct_deletedAt t)
                           && isApproved (cct_Review t))
               (cc_CashbackConfigurationTiers cc) in
      let maxBps := fold_left (fun max t => Z.max max (cct_percentage t)) tiers 0 in
      let exhausted :=
        cashbackBudgetExhausted (cc_netCashbackBudget cc) (cc_usedCashbackBudget cc) in
      index <- offerIndex_upsert
          (fun r => option_eqb String.eqb (oi_cashbackConfigurationId r)
                               (Some cashbackConfigurationId))
          (fun r =>
             mkOfferIndex (oi_id r) CASHBACK (cc_merchantId cc)
               (oi_cashbackConfigurationId r) (oi_exclusiveOfferId r) (oi_loyaltyProgramId r)
               (cc_isActive cc) (isApproved (cc_Review cc)) (cc_deletedAt cc) exhausted
               (cc_startDate cc) (cc_endDate cc) (Some maxBps) (now env))
          (mkOfferIndex (newId env) CASHBACK (cc_merchantId cc)
               (Some (cc_id cc)) None None
               (cc_isActive cc) (isApproved (cc_Review cc)) (cc_deletedAt cc) exhausted
               (cc_startDate cc) (cc_endDate cc) (Some maxBps) (now env)) ;;
      transaction
        (offerIndexCustomerType_deleteMany index ;;;
         offerIndexOutlet_deleteMany index ;;;
         offerIndexCustomerType_createMany
           (map (fun ct => mkOfferIndexCustomerType index ct) (cc_eligibleCustomerTypes cc)) ;;;
         offerIndexOutlet_createMany_skipDuplicates
           (map (fun o => mkOfferIndexOutlet index o) (cc_Outlets cc)))
  end.

Definition rebuildExclusiveIndex (env : Env) (src : Source)
           (exclusiveOfferId : string) : DbM unit :=
  match find (fun e => eo_id e =? exclusiveOfferId) (exclusiveOffers src) with
  | None => ret tt
  | Some eo =>
      let merchantId :=
        match eo_merchantId eo with
        | Some m => Some m
        | None => eo_Merchant eo
        end in
      match merchantId with
      | None => ret tt
      | Some "" => ret tt
      | Some merchantId =>
          let exhausted :=
            offerBudgetExhausted (eo_netOfferBudget eo) (eo_usedOfferBudget eo) in
          index <- offerIndex_upsert
              (fun r => option_eqb String.eqb (oi_exclusiveOfferId r) (Some exclusiveOfferId))
              (fun r =>
                 mkOfferIndex (oi_id r) EXCLUSIVE merchantId
                   (oi_cashbackConfigurationId r) (oi_exclusiveOfferId r) (oi_loyaltyProgramId r)
                   (eo_isActive eo) (isApproved (eo_Review eo)) (eo_deletedAt eo) exhausted
                   (eo_startDate eo) (eo_endDate eo) None (now env))
              (mkOfferIndex (newId env) EXCLUSIVE merchantId
                   None (Some (eo_id eo)) None
                   (eo_isActive eo) (isApproved (eo_Review eo)) (eo_deletedAt eo) exhausted
                   (eo_startDate eo) (eo_endDate eo) None (now env)) ;;
          transaction
            (offerIndexCustomerType_deleteMany index ;;;
             offerIndexOutlet_deleteMany index ;;;
             offerIndexCustomerType_createMany
               (map (fun ct => mkOfferIndexCustomerType index ct) (eo_eligibleCustomerTypes eo)) ;;;
             offerIndexOutlet_createMany_skipDuplicates
               (map (fun o => mkOfferIndexOutlet index o) (eo_Outlets eo)))
      end
  end.

(** The tiers that count: active, not soft-deleted, approved. *)
Definition qualifyingTier (t : LoyaltyTier) : bool :=
  lt_isActive t && isNull (lt_deletedAt t) && isApproved (lt_Review t).

Definition qualifyingReward (r : MerchantLoyaltyReward) : bool :=
  mlr_isActive r && isApproved (mlr_Review r).

Definition rebuildLoyaltyIndexByMerchant (env : Env) (src : Source)
           (merchantId : string) : DbM unit :=
  match find (fun m => m_id m =? merchantId) (merchants src) with
  | None => ret tt
  | Some merchant =>
      match m_LoyaltyProgram merchant with
      | None => ret tt
      | Some lp =>
          let Outlets :=
            map o_id (filter (fun o => o_merchantId o =? merchantId) (outlets src)) in
          let exhausted :=
            pointsLimitExhausted (lp_pointsIssuedLimit lp) (lp_pointsUsedInPeriod lp) in
          let activeApprovedTierRanks :=
            map (fun t => CustomerTypes.customerTypeRank (lt_minCustomerType t))
                (filter qualifyingTier (lp_LoyaltyTiers lp)) in
          let hasRewards := existsb qualifyingReward (lp_MerchantLoyaltyRewards lp) in
          let isApprovedSnapshot :=
            isApproved (lp_Review lp) && hasRewards
            && (0 <? List.length activeApprovedTierRanks)%nat in
          index <- offerIndex_upsert
              (fun r => option_eqb String.eqb (oi_loyaltyProgramId r) (Some (lp_id lp)))
              (fun r =>
                 mkOfferIndex (oi_id r) LOYALTY merchantId
                   (oi_cashbackConfigurationId r) (oi_exclusiveOfferId r) (oi_loyaltyProgramId r)
                   (lp_isActive lp) isApprovedSnapshot None exhausted
                   None None None (now env))
              (mkOfferIndex (newId env) LOYALTY merchantId
                   None None (Some (lp_id lp))
                   (lp_isActive lp) isApprovedSnapshot None exhausted
                   None None None (now env)) ;;
          transaction
            (offerIndexOutlet_deleteMany index ;;;
             loyaltyTierIndex_deleteMany index ;;;
             offerIndexOutlet_createMany_skipDuplicates
               (map (fun o => mkOfferIndexOutlet index o) Outlets) ;;;
             match intColumn activeApprovedTierRanks with
             | Js.Throw e => raise e
             | Js.Normal ranks =>
                 loyaltyTierIndex_createMany_skipDuplicates
                   (map (fun rank => mkLoyaltyTierIndex index rank true true None) ranks)
             end)
      end
  end.

End Recompute.

(* ================================================================== *)
(** * SQL: three-valued conditions and the joins the queries use        *)
(* ================================================================== *)

Module Sql.

(** The value of a condition: [None] is the unknown that a comparison with
    NULL produces.  A WHERE clause keeps a row only when its condition is true. *)
Definition cond : Type := option bool.

Definition TRUE : cond := Some true.
Definition FALSE : cond := Some false.

Definition and (a b : cond) : cond :=
  match a, b with
  | Some false, _ | _, Some false => Some false
  | Some true, Some true => Some true
  | _, _ => None
  end.

Definition or (a b : cond) : cond :=
  match a, b with
  | Some true, _ | _, Some true => Some true
  | Some false, Some false => Some false
  | _, _ => None
  end.

Definition isTrue (a : cond) : bool :=
  match a with
  | Some true => true
  | _ => false
  end.

Definition lift (b : bool) : cond := Some b.

Definition IS_NULL {A : Type} (a : option A) : cond :=
  match a with
  | None => TRUE
  | Some _ => FALSE
  end.

Definition IS_NOT_NULL {A : Type} (a : option A) : cond :=
  match a with
  | None => FALSE
  | Some _ => TRUE
  end.

Definition le (a b : option Z) : cond :=
  match a, b with
  | Some x, Some y => Some (x <=? y)
  | _, _ => None
  end.

Definition ge (a b : option Z) : cond := le b a.

Definition eqString (a b : option string) : cond :=
  match a, b with
  | Some x, Some y => Some (String.eqb x y)
  | _, _ => None
  end.

Definition COALESCE {A : Type} (a : option A) (d : A) : A :=
  match a with
  | Some x => x
  | None => d
  end.

(** [a LEFT JOIN t ON on]: the matching rows of [t], or one all-NULL row. *)
Definition leftJoin {A : Type} (on : A -> bool) (t : list A) : list (option A) :=
  match filter on t with
  | [] => [None]
  | rows => map Some rows
  end.

Definition lower (c : ascii) : ascii :=
  if Js.inRange 65 90 c then Js.chr (Js.code c + 32)%N else c.

Definition sameChar (caseInsensitive : bool) (a b : ascii) : bool :=
  if caseInsensitive then Ascii.eqb (lower a) (lower b) else Ascii.eqb a b.

(** [s LIKE pat ESCAPE '\'] ([ILIKE] when [ci]): [%] matches any run, [_] one
    position, a backslash makes the next pattern character literal.  Letters
    are folded in the ASCII range only. *)
Fixpoint like (ci : bool) (pat : string) (s : string) {struct pat} : bool :=
  match pat with
  | EmptyString =>
      match s with
      | EmptyString => true
      | _ => false
      end
  | String "%" p =>
      (fix any (t : string) : bool :=
         like ci p t
         || match t with
            | EmptyString => false
            | String _ r => any r
            end) s
  | String "_" p =>
      match s with
      | String _ r => like ci p r
      | EmptyString => false
      end
  | String "\" EmptyString => false
  | String "\" (String c p) =>
      match s with
      | String d r => sameChar ci c d && like ci p r
      | EmptyString => false
      end
  | String c p =>
      match s with
      | String d r => sameChar ci c d && like ci p r
      | EmptyString => false
      end
  end.

End Sql.

(* ================================================================== *)
(** * The cache: [ctx.redis]                                            *)
(* ================================================================== *)

Module Redis.

#[local] Open Scope string_scope.

(** A key with its text and the time, in milliseconds, at which it expires. *)
Record Entry : Type := mkEntry {
  key : string;
  value : string;
  expiresAt : Z
}.

Definition t : Type := list Entry.

(** [redis.get(key)] at time [now]: the text of the entry if it has not
    expired; [None] stands for [null]. *)
Definition get (r : t) (now : Z) (k : string) : option string :=
  match find (fun e => key e =? k) r with
  | Some e => if (now <? expiresAt e)%Z then Some (value e) else None
  | None => None
  end.

(** [redis.set(key, value, "EX", seconds)] at time [now] *)
Definition setEX (r : t) (now : Z) (k v : string) (seconds : Z) : t :=
  mkEntry k v (now + seconds * 1000) :: filter (fun e => negb (key e =? k)) r.

End Redis.

(* ================================================================== *)
(** * filters.ts: the offers resolver                                   *)
(* ================================================================== *)

Module Resolver.

Import Schema.
#[local] Open Scope string_scope.

Record CashbackPercentageFilters : Type := mkCashbackPercentageFilters {
  minBps : option Z;
  maxBps : option Z
}.

Record OffersInput : Type := mkOffersInput {
  search : option string;
  category : option string;
  percentage : option CashbackPercentageFilters;
  take : option Z;
  cursor : option string
}.

(** A row of a CTE and of the final SELECT. *)
Record Row : Type := mkRow {
  outletId : string;
  sortKey : Z
}.

Definition Row_eq_dec (a b : Row) : {a = b} + {a <> b}.
Proof.
  decide equality; [apply Z.eq_dec | apply string_dec].
Defined.

(** ** The customer-type rule *)

(** [EXISTS (SELECT 1 FROM "OfferIndexCustomerType" ect
            WHERE ect."offerIndexId" = oi."id" AND ect."customerType" = t)];
    [t] is NULL when it is the column of an unmatched LEFT JOIN. *)
Definition existsCustomerType (db : Index) (oi : OfferIndex) (t : option string) : bool :=
  existsb (fun ect =>
             Sql.isTrue (Sql.and (Sql.lift (oict_offerIndexId ect =? oi_id oi))
                                 (Sql.eqString (Some (oict_customerType ect)) t)))
          (offerIndexCustomerType db).

Definition customerTypeOf (p : option UserMerchantProfile) : option string :=
  option_map ump_customerType p.

(** 1) Offer allows All *)
Definition allowsAll (db : Index) (oi : OfferIndex) : Sql.cond :=
  Sql.lift (existsCustomerType db oi (Some "All")).

(** 2) User is a customer of merchant with matching type *)
Definition matchesType (db : Index) (oi : OfferIndex) (p : option UserMerchantProfile)
  : Sql.cond :=
  Sql.and (Sql.IS_NOT_NULL (customerTypeOf p))
          (Sql.lift (existsCustomerType db oi (customerTypeOf p))).

(** 3) Offer allows NonCustomer and user has no profile for merchant *)
Definition nonCustomerDefault (db : Index) (oi : OfferIndex) (p : option UserMerchantProfile)
  : Sql.cond :=
  Sql.and (Sql.IS_NULL (customerTypeOf p))
          (Sql.lift (existsCustomerType db oi (Some "NonCustomer"))).

Definition customerTypeRule (db : Index) (oi : OfferIndex) (p : option UserMerchantProfile)
  : Sql.cond :=
  Sql.or (allowsAll db oi) (Sql.or (matchesType db oi p) (nonCustomerDefault db oi p)).

(** ** The date window *)

Definition dateWindow (oi : OfferIndex) (now : Z) : Sql.cond :=
  Sql.or (Sql.and (Sql.IS_NULL (oi_startDate oi)) (Sql.IS_NULL (oi_endDate oi)))
         (Sql.and (Sql.le (oi_startDate oi) (Some now))
                  (Sql.ge (oi_endDate oi) (Some now))).

(** ** The loyalty tier condition *)

Definition rankOf (p : option UserMerchantProfile) : option Z :=
  option_map ump_rank p.

Definition existsEligibleTier (db : Index) (oi : OfferIndex) (p : option UserMerchantProfile)
  : bool :=
  existsb (fun lti =>
             (lti_offerIndexId lti =? oi_id oi)
             && lti_isActiveSnapshot lti
             && lti_isApprovedSnapshot lti
             && Recompute.isNull (lti_deletedAtSnapshot lti)
             && (lti_tierRank lti <=? Sql.COALESCE (rankOf p) 0)%Z)
          (loyaltyTierIndex db).

(** ** The common table expressions *)

Definition profile (db : Index) (userId : string) : list UserMerchantProfile :=
  filter (fun p => ump_userId p =? userId) (userMerchantProfile db).

Definition percentageFilter (oi : OfferIndex) (minBps maxBps : option Z) : Sql.cond :=
  Sql.and
    (Sql.or (Sql.IS_NULL minBps)
            (Sql.ge (Some (Sql.COALESCE (oi_maxCashbackPercentBps oi) 0)) minBps))
    (Sql.or (Sql.IS_NULL maxBps)
            (Sql.le (Some (Sql.COALESCE (oi_maxCashbackPercentBps oi) 0)) maxBps)).

Definition cashbackOrExclusiveWhere (db : Index) (now : Z) (minBps maxBps : option Z)
           (oi : OfferIndex) (p : option UserMerchantProfile) : Sql.cond :=
  Sql.and (Sql.lift (OfferKind_eqb (oi_kind oi) CASHBACK || OfferKind_eqb (oi_kind oi) EXCLUSIVE))
  (Sql.and (Sql.lift (oi_isActiveSnapshot oi))
  (Sql.and (Sql.lift (oi_isApprovedSnapshot oi))
  (Sql.and (Sql.IS_NULL (oi_deletedAtSnapshot oi))
  (Sql.and (Sql.lift (negb (oi_budgetExhausted oi)))
  (Sql.and (dateWindow oi now)
  (Sql.and (percentageFilter oi minBps maxBps)
           (customerTypeRule db oi p))))))).

Definition loyaltyWhere (db : Index) (oi : OfferIndex) (p : option UserMerchantProfile)
  : Sql.cond :=
  Sql.and (Sql.lift (OfferKind_eqb (oi_kind oi) LOYALTY))
  (Sql.and (Sql.lift (oi_isActiveSnapshot oi))
  (Sql.and (Sql.lift (oi_isApprovedSnapshot oi))
  (Sql.and (Sql.IS_NULL (oi_deletedAtSnapshot oi))
  (Sql.and (Sql.lift (negb (oi_budgetExhausted oi)))
           (Sql.lift (existsEligibleTier db oi p)))))).

(** The rows one [OfferIndex] row yields through
    [JOIN "OfferIndexOutlet"] and [LEFT JOIN profile], under [where_]. *)
Definition rowsOf (db : Index) (userId : string)
           (where_ : OfferIndex -> option UserMerchantProfile -> Sql.cond)
           (sortKeyOf : OfferIndex -> Z) (oi : OfferIndex) : list Row :=
  flat_map
    (fun oio =>
       flat_map
         (fun p =>
            if Sql.isTrue (where_ oi p)
            then [mkRow (oio_outletId oio) (sortKeyOf oi)]
            else [])
         (Sql.leftJoin (fun p => ump_merchantId p =? oi_merchantId oi) (profile db userId)))
    (filter (fun oio => oio_offerIndexId oio =? oi_id oi) (offerIndexOutlet db)).

Definition cashbackOrExclusiveRowsOf (db : Index) (userId : string) (now : Z)
           (minBps maxBps : option Z) (oi : OfferIndex) : list Row :=
  rowsOf db userId (cashbackOrExclusiveWhere db now minBps maxBps)
         (fun oi => Sql.COALESCE (oi_maxCashbackPercentBps oi) 0) oi.

Definition loyaltyRowsOf (db : Index) (userId : string) (oi : OfferIndex) : list Row :=
  rowsOf db userId (loyaltyWhere db) (fun _ => 0) oi.

(** [SELECT DISTINCT ...] *)
Definition eligible_cashback_or_exclusive (db : Index) (userId : string) (now : Z)
           (minBps maxBps : option Z) : list Row :=
  nodup Row_eq_dec
        (flat_map (cashbackOrExclusiveRowsOf db userId now minBps maxBps) (offerIndex db)).

Definition eligible_loyalty (db : Index) (userId : string) : list Row :=
  nodup Row_eq_dec (flat_map (loyaltyRowsOf db userId) (offerIndex db)).

(** [... UNION ...] *)
Definition eligible_outlets (db : Index) (userId : string) (now : Z)
           (minBps maxBps : option Z) : list Row :=
  nodup Row_eq_dec
        (eligible_cashback_or_exclusive db userId now minBps maxBps
         ++ eligible_loyalty db userId).

(** ** The final SELECT *)

Definition reviewStatus (src : Source) (reviewId : option string) : option string :=
  match reviewId with
  | None => None
  | Some rid => option_map r_status (find (fun r => r_id r =? rid) (reviews src))
  end.

Definition hasPaybillOrTill (src : Source) (o : Outlet) : bool :=
  existsb (fun p =>
             Sql.isTrue
               (Sql.and (Sql.lift (pt_outletId p =? o_id o))
               (Sql.and (Sql.lift (pt_isActive p))
               (Sql.and (Sql.IS_NULL (pt_deletedAt p))
                        (Sql.eqString (reviewStatus src (pt_reviewId p)) (Some "Approved"))))))
          (paybillOrTills src).

(** A [null], [undefined] or empty value is falsy and adds no fragment. *)
Definition truthy (s : option string) : option string :=
  match s with
  | Some (String a r) => Some (String a r)
  | _ => None
  end.

(** The conditions on the outlet and its merchant.  The fragments the
    template adds for a category and a search text are read as the SQL text
    they hold. *)
Definition staticWhere (src : Source) (category search : option string)
           (o : Outlet) (m : Merchant) : Sql.cond :=
  Sql.and (Sql.lift (o_isActive o))
  (Sql.and (Sql.eqString (reviewStatus src (o_reviewId o)) (Some "Approved"))
  (Sql.and (Sql.lift (m_status m =? "Active"))
  (Sql.and (match truthy category with
            | Some c => Sql.lift (m_category m =? c)
            | None => Sql.TRUE
            end)
  (Sql.and (match truthy search with
            | Some s =>
                let pat := "%" ++ Filters.escapeLike s ++ "%" in
                Sql.lift (Sql.like true pat (o_name o)
                          || Sql.like true pat (Sql.COALESCE (o_description o) "")
                          || Sql.like true pat (m_businessName m))
            | None => Sql.TRUE
            end)
           (Sql.lift (hasPaybillOrTill src o)))))).

(** The rows of [eligible_outlets eo JOIN "Outlet" o JOIN "Merchant" m] that
    pass the static conditions, as the [eo] row that produced them. *)
Definition joined (src : Source) (category search : option string) (eo : list Row)
  : list Row :=
  flat_map
    (fun e =>
       flat_map
         (fun o =>
            flat_map
              (fun m => if Sql.isTrue (staticWhere src category search o m) then [e] else [])
              (filter (fun m => m_id m =? o_merchantId o) (merchants src)))
         (filter (fun o => o_id o =? outletId e) (outlets src)))
    eo.

(** [MAX(eo."sortKey")] over the rows of one group. *)
Definition maxSortKey (rows : list Row) (id : string) : Z :=
  match map sortKey (filter (fun r => outletId r =? id) rows) with
  | [] => 0
  | k :: ks => fold_left Z.max ks k
  end.

(** [SELECT eo."outletId", MAX(eo."sortKey") ... GROUP BY eo."outletId"] *)
Definition grouped (rows : list Row) : list Row :=
  map (fun id => mkRow id (maxSortKey rows id))
      (nodup string_dec (map outletId rows)).

(** [ORDER BY "sortKey" DESC, eo."outletId" ASC]; text is compared
    bytewise (the C collation). *)
Definition before (a b : Row) : bool :=
  (sortKey b <? sortKey a)%Z
  || ((sortKey a =? sortKey b)%Z && String.leb (outletId a) (outletId b)).

Fixpoint insertSorted (r : Row) (l : list Row) : list Row :=
  match l with
  | [] => [r]
  | x :: rest => if before r x then r :: l else x :: insertSorted r rest
  end.

Definition orderBy (l : list Row) : list Row := fold_right insertSorted [] l.

(** The statement sent through [$queryRaw].  For a cursor the template adds
    [AND (MAX(eo."sortKey") < ${cursor.sortKey}
          OR (MAX(eo."sortKey") = ${cursor.sortKey}
              AND eo."outletId" > ${cursor.outletId}))]
    to the WHERE clause, in front of GROUP BY.  PostgreSQL does not allow an
    aggregate function in WHERE, so the statement with a cursor is refused
    whatever the tables hold. *)
Definition offersQuery (src : Source) (db : Index) (userId : string) (now : Z)
           (category search : option string) (minBps maxBps : option Z)
           (cursor : option Filters.Cursor) (take : Z) : Js.Completion (list Row) :=
  match cursor with
  | Some _ => Js.Throw Js.QueryError
  | None =>
      Js.Normal
        (firstn (Z.to_nat (take + 1))
           (orderBy
              (grouped
                 (joined src category search
                    (eligible_outlets db userId now minBps maxBps)))))
  end.

(** ** [offersResolver] *)

Record Node : Type := mkNode {
  outlet : Outlet;
  Merchant_ : option Merchant;
  __sortKey : Z
}.

Record Connection : Type := mkConnection {
  nodes : list Node;
  nextCursor : option string;
  hasNextPage : bool
}.

Definition emptyInput : OffersInput := mkOffersInput None None None None None.

(** From the rows of the statement to [result]: the page, the outlets
    fetched by id and put back in the order of the rows, the hints, the
    next cursor. *)
Definition resultOf (src : Source) (take : Z) (rows : list Row) : Connection :=
  let pageRows := firstn (Z.to_nat take) rows in
  let hasNextPage := (Z.to_nat take <? List.length rows)%nat in
  let outletIds := map outletId pageRows in
  let ordered :=
    flat_map (fun id =>
                match find (fun o => o_id o =? id) (outlets src) with
                | Some o => [o]
                | None => []
                end) outletIds in
  let withHints :=
    map (fun o =>
           mkNode o
             (find (fun m => m_id m =? o_merchantId o) (merchants src))
             match find (fun r => outletId r =? o_id o) pageRows with
             | Some r => sortKey r
             | None => 0
             end) ordered in
  let nextCursor :=
    if hasNextPage then
      match last (map Some pageRows) None with
      | Some r => Some (Filters.encodeCursor (sortKey r) (outletId r))
      | None => None
      end
    else None in
  mkConnection withHints nextCursor hasNextPage.

(** [JSON.stringify] on a result and [JSON.parse] on a cached text.  The
    text of a result spells out every column of its outlets and merchants,
    which the sources at hand do not list, so the two functions are
    parameters of the resolver. *)
Record Json : Type := mkJson {
  Value : Type;
  stringify : Connection -> string;
  parse : string -> Js.Completion Value
}.

(** What the resolver returns: the [result] it built, or the value of the
    cached text. *)
Inductive Answer (J : Json) : Type :=
| Built (result : Connection)
| Parsed (value : Value J).

Arguments Built {J} result.
Arguments Parsed {J} value.

(** [`${v ?? ""}`] for a text and for a number. *)
Definition textOrEmpty (v : option string) : string :=
  match v with Some t => t | None => "" end.

Definition numberOrEmpty (v : option Z) : string :=
  match v with Some n => Js.NumberToString n | None => "" end.

(** The key of a first page in the cache; the search text and the category
    enter it as they were sent. *)
Definition cacheKeyOf (userId : string) (take : Z) (input : OffersInput) : string :=
  "offers:v3:user:" ++ userId
  ++ ":take:" ++ Js.NumberToString take
  ++ ":search:" ++ textOrEmpty (search input)
  ++ ":cat:" ++ textOrEmpty (category input)
  ++ ":min:" ++ numberOrEmpty match percentage input with
                              | Some p => minBps p
                              | None => None
                              end
  ++ ":max:" ++ numberOrEmpty match percentage input with
                              | Some p => maxBps p
                              | None => None
                              end.

(** [offersResolver(_parent, { input }, ctx)] for [ctx.auth.userId = userId]
    and [ctx.redis = redis] ([None] when no client was built), called at time
    [now]; the answer, and the store afterwards. *)
Definition offersResolver (J : Json) (src : Source) (db : Index) (redis : option Redis.t)
           (userId : string) (now : Z) (input : option OffersInput)
  : Js.Completion (Answer J) * option Redis.t :=
  let input := match input with Some i => i | None => emptyInput end in
  let take := Filters.normalizeTake (take input) in
  let cacheKey :=
    match redis, truthy (cursor input) with
    | Some _, None => Some (cacheKeyOf userId take input)
    | _, _ => None
    end in
  let cached :=
    match cacheKey, redis with
    | Some k, Some r => truthy (Redis.get r now k)
    | _, _ => None
    end in
  match cached with
  | Some text => (Js.bind (parse J text) (fun v => Js.Normal (Parsed v)), redis)
  | None =>
      let cursor := Filters.decodeCursor (cursor input) in
      let search := option_map Js.trim (search input) in
      let category := option_map Js.trim (category input) in
      let minBps := match percentage input with Some p => minBps p | None => None end in
      let maxBps := match percentage input with Some p => maxBps p | None => None end in
      match offersQuery src db userId now category search minBps maxBps cursor take with
      | Js.Throw e => (Js.Throw e, redis)
      | Js.Normal rows =>
          let result := resultOf src take rows in
          (Js.Normal (Built result),
           match cacheKey, redis with
           | Some k, Some r => Some (Redis.setEX r now k (stringify J result) 20)
           | _, _ => redis
           end)
      end
  end.

End Resolver.

(* ================================================================== *)
(** * JavaScript collections with string keys                           *)
(* ================================================================== *)

Module JsMap.

(** A [Map]: its entries in insertion order, every key once. *)
Definition t (V : Type) : Type := list (string * V).

(** [m.get(k)]; [None] stands for [undefined]. *)
Fixpoint get {V : Type} (m : t V) (k : string) : option V :=
  match m with
  | [] => None
  | (k', v) :: rest => if String.eqb k' k then Some v else get rest k
  end.

(** [m.set(k, v)]: a key that is present keeps its place and takes the new value. *)
Fixpoint set {V : Type} (m : t V) (k : string) (v : V) : t V :=
  match m with
  | [] => [(k, v)]
  | (k', v') :: rest =>
      if String.eqb k' k then (k', v) :: rest else (k', v') :: set rest k v
  end.

(** [new Map(entries)] *)
Definition ofEntries {V : Type} (entries : list (string * V)) : t V :=
  fold_left (fun m e => set m (fst e) (snd e)) entries [].

(** [Array.from(new Set(xs))]: the first occurrence of every value, in order. *)
Definition arrayFromSet (xs : list string) : list string :=
  fold_left (fun seen x => if existsb (String.eqb x) seen then seen else seen ++ [x])
            xs [].

End JsMap.

(* ================================================================== *)
(** * apps/api/src/loaders/offerLoaders.ts                              *)
(* ================================================================== *)

Module Loaders.

Import Schema.
#[local] Open Scope string_scope.

Record LoaderRow : Type := mkLoaderRow {
  outletId : string;
  offerIndexId : string;
  cashbackConfigurationId : option string;
  exclusiveOfferId : option string;
  loyaltyProgramId : option string
}.

Definition loaderWhere (db : Index) (outletIds : list string) (kind : OfferKind) (now : Z)
           (oi : OfferIndex) (oio : OfferIndexOutlet) (p : option UserMerchantProfile)
  : Sql.cond :=
  Sql.and (Sql.lift (OfferKind_eqb (oi_kind oi) kind))
  (Sql.and (Sql.lift (existsb (String.eqb (oio_outletId oio)) outletIds))
  (Sql.and (Sql.lift (oi_isActiveSnapshot oi))
  (Sql.and (Sql.lift (oi_isApprovedSnapshot oi))
  (Sql.and (Sql.IS_NULL (oi_deletedAtSnapshot oi))
  (Sql.and (Sql.lift (negb (oi_budgetExhausted oi)))
  (Sql.and (Resolver.dateWindow oi now)
           (Sql.or
              (Sql.and (Sql.lift (negb (OfferKind_eqb kind LOYALTY)))
                       (Resolver.customerTypeRule db oi p))
              (Sql.and (Sql.lift (OfferKind_eqb kind LOYALTY))
                       (Sql.lift (Resolver.existsEligibleTier db oi p)))))))))).

(** The rows one [OfferIndex] row yields. *)
Definition loaderRowsOf (db : Index) (userId : string)
           (outletIds : list string) (kind : OfferKind) (now : Z) (oi : OfferIndex)
  : list LoaderRow :=
  flat_map
    (fun oio =>
       flat_map
         (fun p =>
            if Sql.isTrue (loaderWhere db outletIds kind now oi oio p)
            then [mkLoaderRow (oio_outletId oio) (oi_id oi)
                              (oi_cashbackConfigurationId oi)
                              (oi_exclusiveOfferId oi)
                              (oi_loyaltyProgramId oi)]
            else [])
         (Sql.leftJoin (fun p => ump_merchantId p =? oi_merchantId oi)
                       (Resolver.profile db userId)))
    (filter (fun oio => oio_offerIndexId oio =? oi_id oi) (offerIndexOutlet db)).

(** [eligibleOfferIndexRowsForOutlets(prisma, userId, outletIds, kind)] at time [now]. *)
Definition eligibleOfferIndexRowsForOutlets (db : Index) (userId : string)
           (outletIds : list string) (kind : OfferKind) (now : Z) : list LoaderRow :=
  flat_map (loaderRowsOf db userId outletIds kind now) (offerIndex db).

(** [groupBy(rows, key)]; [key] stands for [(r) => String(r[key])].  The
    array of a key is extended in place, so a group keeps the order of the rows. *)
Definition groupBy {T : Type} (rows : list T) (key : T -> string) : JsMap.t (list T) :=
  fold_left
    (fun m r =>
       let k := key r in
       let arr := match JsMap.get m k with Some a => a | None => [] end in
       JsMap.set m k (arr ++ [r])%list)
    rows [].

(** The offer tables, by the columns the loaders select:
    [{ id, name }] of a cashback configuration and of a loyalty program,
    [{ id, name, description }] of an exclusive offer. *)
Record IdName : Type := mkIdName {
  in_id : string;
  in_name : string
}.

Record IdNameDescription : Type := mkIdNameDescription {
  ind_id : string;
  ind_name : string;
  ind_description : option string
}.

Record OfferTables : Type := mkOfferTables {
  cashbackConfiguration : list IdName;
  exclusiveOffer : list IdNameDescription;
  loyaltyProgram : list IdName
}.

(** [xs.filter(Boolean)] on a column of nullable ids. *)
Definition truthyIds (xs : list (option string)) : list string :=
  flat_map (fun x => match Resolver.truthy x with Some i => [i] | None => [] end) xs.

(** The batch function of [cashbackByOutlet], called at time [now]. *)
Definition cashbackByOutlet (tables : OfferTables) (db : Index) (userId : string) (now : Z)
           (outletIds : list string) : list (list IdName) :=
  let rows := eligibleOfferIndexRowsForOutlets db userId outletIds CASHBACK now in
  let byOutlet := groupBy rows outletId in
  let cashbackIds := JsMap.arrayFromSet (truthyIds (map cashbackConfigurationId rows)) in
  let offers :=
    match cashbackIds with
    | [] => []
    | _ => filter (fun o => existsb (String.eqb (in_id o)) cashbackIds)
                  (cashbackConfiguration tables)
    end in
  let offerById := JsMap.ofEntries (map (fun o => (in_id o, o)) offers) in
  map (fun oid =>
         flat_map
           (fun r =>
              match cashbackConfigurationId r with
              | Some i => match JsMap.get offerById i with Some o => [o] | None => [] end
              | None => []
              end)
           match JsMap.get byOutlet oid with Some a => a | None => [] end)
      outletIds.

(** The batch function of [exclusiveByOutlet]. *)
Definition exclusiveByOutlet (tables : OfferTables) (db : Index) (userId : string) (now : Z)
           (outletIds : list string) : list (list IdNameDescription) :=
  let rows := eligibleOfferIndexRowsForOutlets db userId outletIds EXCLUSIVE now in
  let byOutlet := groupBy rows outletId in
  let offerIds := JsMap.arrayFromSet (truthyIds (map exclusiveOfferId rows)) in
  let offers :=
    match offerIds with
    | [] => []
    | _ => filter (fun o => existsb (String.eqb (ind_id o)) offerIds)
                  (exclusiveOffer tables)
    end in
  let offerById := JsMap.ofEntries (map (fun o => (ind_id o, o)) offers) in
  map (fun oid =>
         flat_map
           (fun r =>
              match exclusiveOfferId r with
              | Some i => match JsMap.get offerById i with Some o => [o] | None => [] end
              | None => []
              end)
           match JsMap.get byOutlet oid with Some a => a | None => [] end)
      outletIds.

(** The batch function of [loyaltyByOutlet]: the program of the first
    eligible row of the outlet, or [None] for [null]. *)
Definition loyaltyByOutlet (tables : OfferTables) (db : Index) (userId : string) (now : Z)
           (outletIds : list string) : list (option IdName) :=
  let rows := eligibleOfferIndexRowsForOutlets db userId outletIds LOYALTY now in
  let byOutlet := groupBy rows outletId in
  let programIds := JsMap.arrayFromSet (truthyIds (map loyaltyProgramId rows)) in
  let programs :=
    match programIds with
    | [] => []
    | _ => filter (fun p => existsb (String.eqb (in_id p)) programIds)
                  (loyaltyProgram tables)
    end in
  let programById := JsMap.ofEntries (map (fun p => (in_id p, p)) programs) in
  map (fun oid =>
         match match JsMap.get byOutlet oid with Some a => a | None => [] end with
         | [] => None
         | first :: _ =>
             match Resolver.truthy (loyaltyProgramId first) with
             | Some i => JsMap.get programById i
             | None => None
             end
         end)
      outletIds.

End Loaders.

(* ================================================================== *)
(** * 32-bit integer operators, code units and hexadecimal text         *)
(* ================================================================== *)

Module Js32.

(** ToUint32 and ToInt32 of an integer-valued number. *)
Definition ToUint32 (z : Z) : Z := z mod 2 ^ 32.

Definition ToInt32 (z : Z) : Z :=
  let u := z mod 2 ^ 32 in
  if u <? 2 ^ 31 then u else u - 2 ^ 32.

(** [a ^ b]: both operands through ToInt32; the result is again an int32. *)
Definition xor (a b : Z) : Z := Z.lxor (ToInt32 a) (ToInt32 b).

(** [Math.imul(a, b)] *)
Definition imul (a b : Z) : Z := ToInt32 (ToUint32 a * ToUint32 b).

(** [a >>> 0] *)
Definition unsignedShiftRight0 (a : Z) : Z := ToUint32 a.

(** [n.toString(16)] for a non-negative integer: lower-case digits, no leading zero. *)
Definition toString16 (n : Z) : string :=
  HexadecimalString.NilZero.string_of_uint (N.to_hex_uint (Z.to_N n)).

(** The code points of a well-formed byte sequence. *)
Fixpoint codePoints (bs : string) : list N :=
  match bs with
  | EmptyString => []
  | String b0 r0 =>
      let a := Js.code b0 in
      if (a <? 128)%N then a :: codePoints r0
      else if (a <? 224)%N then
        match r0 with
        | String b1 r1 => ((a mod 32) * 64 + Js.code b1 mod 64)%N :: codePoints r1
        | _ => []
        end
      else if (a <? 240)%N then
        match r0 with
        | String b1 (String b2 r2) =>
            ((a mod 16) * 4096 + (Js.code b1 mod 64) * 64 + Js.code b2 mod 64)%N
            :: codePoints r2
        | _ => []
        end
      else
        match r0 with
        | String b1 (String b2 (String b3 r3)) =>
            ((a mod 8) * 262144 + (Js.code b1 mod 64) * 4096
             + (Js.code b2 mod 64) * 64 + Js.code b3 mod 64)%N
            :: codePoints r3
        | _ => []
        end
  end.

(** A code point as UTF-16: itself, or a surrogate pair from U+10000 on. *)
Definition utf16 (cp : N) : list Z :=
  if (cp <? 65536)%N then [Z.of_N cp]
  else
    let v := (cp - 65536)%N in
    [Z.of_N (55296 + v / 1024); Z.of_N (56320 + v mod 1024)].

(** [s.charCodeAt(0)], ..., [s.charCodeAt(s.length - 1)] *)
Definition codeUnits (s : string) : list Z :=
  flat_map utf16 (codePoints (Js.utf8ToString s)).

End Js32.

(* ================================================================== *)
(** * apps/api/src/jobs/eligibility/queue.ts                            *)
(* ================================================================== *)

Module Queue.

Import Schema.
#[local] Open Scope string_scope.

Inductive OfferIndexJob : Type :=
| CASHBACK_CHANGED (cashbackConfigurationId : string)
| EXCLUSIVE_CHANGED (exclusiveOfferId : string)
| LOYALTY_CHANGED (merchantId : string)
| USER_CUSTOMER_TYPES_CHANGED (userId : string)
| FULL_REBUILD (reason : string).

(** [hashish(input)]: the loop over the code units, then [(h >>> 0).toString(16)]. *)
Definition hashish (input : string) : string :=
  let h :=
    fold_left (fun h c => Js32.imul (Js32.xor h c) 16777619)
              (Js32.codeUnits input) 2166136261 in
  Js32.toString16 (Js32.unsignedShiftRight0 h).

Definition jobIdFor (job : OfferIndexJob) : string :=
  match job with
  | CASHBACK_CHANGED cashbackConfigurationId => "cashback:" ++ cashbackConfigurationId
  | EXCLUSIVE_CHANGED exclusiveOfferId => "exclusive:" ++ exclusiveOfferId
  | LOYALTY_CHANGED merchantId => "loyalty:" ++ merchantId
  | USER_CUSTOMER_TYPES_CHANGED userId => "userct:" ++ userId
  | FULL_REBUILD reason => "full:" ++ hashish reason
  end.

Definition entityIdFor (job : OfferIndexJob) : string :=
  match job with
  | CASHBACK_CHANGED cashbackConfigurationId => cashbackConfigurationId
  | EXCLUSIVE_CHANGED exclusiveOfferId => exclusiveOfferId
  | LOYALTY_CHANGED merchantId => merchantId
  | USER_CUSTOMER_TYPES_CHANGED userId => userId
  | FULL_REBUILD reason => reason
  end.

(** [for (const m of merchants) await rebuildLoyaltyIndexByMerchant(prismaClient, m.id)];
    call number [i] reads the clock and the fresh identifier [envs i]. *)
Fixpoint rebuildEachMerchant (envs : nat -> Recompute.Env) (src : Source) (i : nat)
         (ids : list string) : Recompute.DbM unit :=
  match ids with
  | [] => Recompute.ret tt
  | id :: rest =>
      Recompute.bindM (Recompute.rebuildLoyaltyIndexByMerchant (envs i) src id)
                      (fun _ => rebuildEachMerchant envs src (S i) rest)
  end.

(** [handleOfferIndexJob(prismaClient, job)] on the data of the job. *)
Definition handleOfferIndexJob (envs : nat -> Recompute.Env) (src : Source)
           (job : OfferIndexJob) : Recompute.DbM unit :=
  match job with
  | CASHBACK_CHANGED cashbackConfigurationId =>
      Recompute.rebuildCashbackIndex (envs O) src cashbackConfigurationId
  | EXCLUSIVE_CHANGED exclusiveOfferId =>
      Recompute.rebuildExclusiveIndex (envs O) src exclusiveOfferId
  | LOYALTY_CHANGED merchantId =>
      Recompute.rebuildLoyaltyIndexByMerchant (envs O) src merchantId
  | USER_CUSTOMER_TYPES_CHANGED userId =>
      Recompute.rebuildUserMerchantProfilesForUser src userId
  | FULL_REBUILD _ =>
      rebuildEachMerchant envs src O (map m_id (merchants src))
  end.

End Queue.

(* ================================================================== *)
(** * Vocabulary of the statements                                      *)
(* ================================================================== *)

(** An operation that leaves the [OfferIndex] table alone. *)
Definition keepsOfferIndex {A : Type} (m : Recompute.DbM A) : Prop :=
  forall db, Schema.offerIndex (snd (m db)) = Schema.offerIndex db.

(** The condition an upsert of a loyalty program is keyed on. *)
Definition forLoyaltyProgram (id : string) (r : Schema.OfferIndex) : bool :=
  Schema.option_eqb String.eqb (Schema.oi_loyaltyProgramId r) (Some id).

(** A review that is approved: there is one, and its status is the text
    [Approved]. *)
Definition reviewApproved (review : option Schema.Review) : Prop :=
  exists r, review = Some r /\ Schema.r_status r = "Approved"%string.

(** Approval of a loyalty program, in the words of the specification: the
    program's review is approved, some reward is active and approved, and
    some tier is active, not soft-deleted and approved. *)
Definition loyaltyApprovable (lp : Schema.LoyaltyProgram) : Prop :=
  reviewApproved (Schema.lp_Review lp)
  /\ (exists r, In r (Schema.lp_MerchantLoyaltyRewards lp)
                /\ Schema.mlr_isActive r = true
                /\ reviewApproved (Schema.mlr_Review r))
  /\ (exists t, In t (Schema.lp_LoyaltyTiers lp)
                /\ Schema.lt_isActive t = true
                /\ Schema.lt_deletedAt t = None
                /\ reviewApproved (Schema.lt_Review t)).



(** An operation whose outcome and writes do not depend on the
    [OfferIndex] table and that does not write it. *)
Definition childOnly {A : Type} (m : Recompute.DbM A) : Prop :=
  forall t db,
    m (Recompute.setOfferIndex t db)
    = (fst (m db), Recompute.setOfferIndex t (snd (m db))).


(** Every character of [s] satisfies [p]. *)
Fixpoint everyChar (p : ascii -> bool) (s : string) : bool :=
  match s with
  | EmptyString => true
  | String c r => p c && everyChar p r
  end.

(** The string holds no [:]. *)
Definition noColon (s : string) : bool :=
  everyChar (fun c => negb (Ascii.eqb c ":")) s.

(** The characters the text of a number is made of. *)
Definition numeralChar (c : ascii) : bool :=
  Js.isDecimalDigit c || Ascii.eqb c "-" || Ascii.eqb c "." || Ascii.eqb c "e"
  || Ascii.eqb c "+".

(** A one-byte character that is not white space: no white-space sequence
    starts or ends with it. *)
Definition plain (c : ascii) : bool :=
  (Js.code c <? 128)%N && negb (Js.isWhiteSpace1 c).

(** The order the result rows come in, as a relation. *)
Definition beforeP (a b : Resolver.Row) : Prop := Resolver.before a b = true.

(** The eligible outlets of a request, grouped and in result order: what
    the statement yields without cursor and without LIMIT. *)
Definition eligibleRows (src : Schema.Source) (db : Schema.Index) (userId : string)
           (now : Z) (input : Resolver.OffersInput) : list Resolver.Row :=
  Resolver.orderBy
    (Resolver.grouped
       (Resolver.joined src
          (option_map Js.trim (Resolver.category input))
          (option_map Js.trim (Resolver.search input))
          (Resolver.eligible_outlets db userId now
             match Resolver.percentage input with
             | Some p => Resolver.minBps p
             | None => None
             end
             match Resolver.percentage input with
             | Some p => Resolver.maxBps p
             | None => None
             end))).

(** The page size of a request, as a count. *)
Definition pageSize (input : Resolver.OffersInput) : nat :=
  Z.to_nat (Filters.normalizeTake (Resolver.take input)).

(** The result the resolver builds from the statement without cursor. *)
Definition pageOf (src : Schema.Source) (db : Schema.Index) (userId : string)
           (now : Z) (input : Resolver.OffersInput) : Resolver.Connection :=
  Resolver.resultOf src (Filters.normalizeTake (Resolver.take input))
    (firstn (S (pageSize input)) (eligibleRows src db userId now input)).

(** ** Vocabulary for the store operations and the statements they serve *)

#[local] Open Scope string_scope.
#[local] Open Scope list_scope.

(** An operation that leaves one table, or any other reading of the store, alone. *)
Definition leaves {A X : Type} (table : Schema.Index -> X) (m : Recompute.DbM A) : Prop :=
  forall db, table (snd (m db)) = table db.

(** An [OfferIndex] row that belongs to no loyalty program. *)
Definition noLoyaltyProgram (r : Schema.OfferIndex) : bool :=
  Recompute.isNull (Schema.oi_loyaltyProgramId r).

(** The conditions the upserts of a cashback configuration and of an
    exclusive offer are keyed on. *)
Definition forCashback (id : string) (r : Schema.OfferIndex) : bool :=
  Schema.option_eqb String.eqb (Schema.oi_cashbackConfigurationId r) (Some id).

Definition forExclusive (id : string) (r : Schema.OfferIndex) : bool :=
  Schema.option_eqb String.eqb (Schema.oi_exclusiveOfferId r) (Some id).

(** The child rows of an [OfferIndex] row, by the column that matters. *)
Definition customerTypesOf (db : Schema.Index) (idx : string) : list string :=
  map Schema.oict_customerType
      (filter (fun r => Schema.oict_offerIndexId r =? idx) (Schema.offerIndexCustomerType db)).

Definition outletsOf (db : Schema.Index) (idx : string) : list string :=
  map Schema.oio_outletId
      (filter (fun r => Schema.oio_offerIndexId r =? idx) (Schema.offerIndexOutlet db)).

(** The tiers of a cashback configuration that count for its percentage:
    active, not soft-deleted, approved. *)
Definition qualifyingCashbackTier (t : Schema.CashbackConfigurationTier) : bool :=
  Schema.cct_isActive t && Recompute.isNull (Schema.cct_deletedAt t)
  && Recompute.isApproved (Schema.cct_Review t).

(** The transaction that replaces the child rows of a cashback or
    exclusive index row. *)
Definition replaceOfferChildren (idx : string) (cts outs : list string)
  : Recompute.DbM unit :=
  Recompute.transaction
    (Recompute.bindM (Recompute.offerIndexCustomerType_deleteMany idx) (fun _ =>
     Recompute.bindM (Recompute.offerIndexOutlet_deleteMany idx) (fun _ =>
     Recompute.bindM (Recompute.offerIndexCustomerType_createMany
                        (map (fun ct => Schema.mkOfferIndexCustomerType idx ct) cts)) (fun _ =>
     Recompute.offerIndexOutlet_createMany_skipDuplicates
       (map (fun o => Schema.mkOfferIndexOutlet idx o) outs))))).

(** The transaction that replaces the child rows of a loyalty index row. *)
Definition replaceLoyaltyChildren (idx : string) (outs : list string)
           (ranks : list CustomerTypes.PropertyValue) : Recompute.DbM unit :=
  Recompute.transaction
    (Recompute.bindM (Recompute.offerIndexOutlet_deleteMany idx) (fun _ =>
     Recompute.bindM (Recompute.loyaltyTierIndex_deleteMany idx) (fun _ =>
     Recompute.bindM (Recompute.offerIndexOutlet_createMany_skipDuplicates
                        (map (fun o => Schema.mkOfferIndexOutlet idx o) outs)) (fun _ =>
     match Recompute.intColumn ranks with
     | Js.Throw e => Recompute.raise e
     | Js.Normal ns =>
         Recompute.loyaltyTierIndex_createMany_skipDuplicates
           (map (fun rank => Schema.mkLoyaltyTierIndex idx rank true true None) ns)
     end)))).

(** What the rebuild of one offer leaves alone: the [OfferIndex] rows of
    the other offers, the tier and profile tables, and the children of every
    index row but the offer's own. *)
Definition othersKept (where_ : Schema.OfferIndex -> bool) (db db' : Schema.Index) : Prop :=
  filter (fun r => negb (where_ r)) (Schema.offerIndex db')
  = filter (fun r => negb (where_ r)) (Schema.offerIndex db)
  /\ Schema.loyaltyTierIndex db' = Schema.loyaltyTierIndex db
  /\ Schema.userMerchantProfile db' = Schema.userMerchantProfile db
  /\ (forall i,
        (forall row, find where_ (Schema.offerIndex db') = Some row -> Schema.oi_id row <> i) ->
        customerTypesOf db' i = customerTypesOf db i
        /\ outletsOf db' i = outletsOf db i).

(** The merchant id an exclusive offer is indexed under:
    [eo.merchantId ?? eo.Merchant?.id], when it is truthy. *)
Definition exclusiveMerchantId (eo : Schema.ExclusiveOffer) : option string :=
  Resolver.truthy match Schema.eo_merchantId eo with
                  | Some m => Some m
                  | None => Schema.eo_Merchant eo
                  end.

(** The [CustomerType] rows of a user. *)
Definition customerTypesOfUser (src : Schema.Source) (userId : string)
  : list Schema.CustomerType :=
  filter (fun r => Schema.ct_userId r =? userId) (Schema.customerTypes src).

(** A customer type whose rank lookup yields a number. *)
Definition ranked (type : option string) : Prop :=
  exists n, CustomerTypes.customerTypeRank type = CustomerTypes.PNumber n.

(** The rank as a number, 0 where the lookup yields none. *)
Definition rankOr0 (type : option string) : Z :=
  match CustomerTypes.rankNumber type with
  | Some n => n
  | None => 0
  end.

(** The profile row written for a [CustomerType] row. *)
Definition profileRow (userId : string) (r : Schema.CustomerType)
  : Schema.UserMerchantProfile :=
  Schema.mkUserMerchantProfile userId (Schema.ct_merchantId r) (Schema.ct_type r)
    (rankOr0 (Some (Schema.ct_type r))).

(** The ids of the outlets of a merchant. *)
Definition outletsOfMerchant (src : Schema.Source) (merchantId : string) : list string :=
  map Schema.o_id (filter (fun o => Schema.o_merchantId o =? merchantId) (Schema.outlets src)).

(** ** Vocabulary for the two queries *)

(** The profile rows [LEFT JOIN profile p ON p."merchantId" = oi."merchantId"]
    pairs an [OfferIndex] row with. *)
Definition profilesFor (db : Schema.Index) (userId : string) (oi : Schema.OfferIndex)
  : list (option Schema.UserMerchantProfile) :=
  Sql.leftJoin (fun p => Schema.ump_merchantId p =? Schema.oi_merchantId oi)
               (Resolver.profile db userId).

(** An [OfferIndex] row that is mapped to outlet [oid] and whose snapshot
    flags are those of a live offer. *)
Definition liveAt (db : Schema.Index) (oid : string) (oi : Schema.OfferIndex) : Prop :=
  In oi (Schema.offerIndex db)
  /\ (exists oio, In oio (Schema.offerIndexOutlet db)
                  /\ Schema.oio_offerIndexId oio = Schema.oi_id oi
                  /\ Schema.oio_outletId oio = oid)
  /\ Schema.oi_isActiveSnapshot oi = true
  /\ Schema.oi_isApprovedSnapshot oi = true
  /\ Schema.oi_deletedAtSnapshot oi = None
  /\ Schema.oi_budgetExhausted oi = false.

(** The user passes the customer-type rule of the row. *)
Definition typeAdmits (db : Schema.Index) (userId : string) (oi : Schema.OfferIndex) : Prop :=
  exists p, In p (profilesFor db userId oi)
            /\ Sql.isTrue (Resolver.customerTypeRule db oi p) = true.

(** The user reaches some tier of the row. *)
Definition tierAdmits (db : Schema.Index) (userId : string) (oi : Schema.OfferIndex) : Prop :=
  exists p, In p (profilesFor db userId oi) /\ Resolver.existsEligibleTier db oi p = true.

(** Both dates absent, or both present with [now] between them. *)
Definition inWindow (startDate endDate : option Z) (now : Z) : Prop :=
  (startDate = None /\ endDate = None)
  \/ (exists s e, startDate = Some s /\ endDate = Some e /\ s <= now <= e).

(** An [OfferIndex] row of [kind] through which outlet [oid] is offered to
    the user at [now]. *)
Definition offeredThrough (db : Schema.Index) (userId : string) (now : Z)
           (kind : Schema.OfferKind) (oid : string) (oi : Schema.OfferIndex) : Prop :=
  Schema.oi_kind oi = kind
  /\ liveAt db oid oi
  /\ inWindow (Schema.oi_startDate oi) (Schema.oi_endDate oi) now
  /\ match kind with
     | Schema.LOYALTY => tierAdmits db userId oi
     | _ => typeAdmits db userId oi
     end.

(** Every loyalty row of the index has both dates absent, as the rebuild
    of a loyalty program writes them. *)
Definition loyaltyUndated (db : Schema.Index) : Prop :=
  forall oi, In oi (Schema.offerIndex db) -> Schema.oi_kind oi = Schema.LOYALTY ->
             Schema.oi_startDate oi = None /\ Schema.oi_endDate oi = None.

(** The customer-type rule in terms of the user's profile rows: the offer
    is open to all, or the user has a profile at the merchant with one of
    the offer's types, or the user has no profile there and the offer is
    open to non-customers. *)
Definition openTo (db : Schema.Index) (userId merchantId : string)
           (types : list string) : Prop :=
  In "All" types
  \/ (exists prof, In prof (Resolver.profile db userId)
                   /\ Schema.ump_merchantId prof = merchantId
                   /\ In (Schema.ump_customerType prof) types)
  \/ ((forall prof, In prof (Resolver.profile db userId) ->
                    Schema.ump_merchantId prof <> merchantId)
      /\ In "NonCustomer" types).

(** The rank the loyalty condition reads for a user at a merchant: that of
    a profile row, or 0 when there is none. *)
Definition userRankAt (db : Schema.Index) (userId merchantId : string) (rank : Z) : Prop :=
  (exists prof, In prof (Resolver.profile db userId)
                /\ Schema.ump_merchantId prof = merchantId
                /\ Schema.ump_rank prof = rank)
  \/ ((forall prof, In prof (Resolver.profile db userId) ->
                    Schema.ump_merchantId prof <> merchantId)
      /\ rank = 0).

(** The offer a batch function attaches to a row whose id column holds
    [col]: the entry of the table with that id, the last one if several. *)
Definition offerOfRow {T : Type} (id : T -> string) (table : list T) (col : option string)
  : list T :=
  match Resolver.truthy col with
  | Some i =>
      match find (fun o => id o =? i) (rev table) with
      | Some o => [o]
      | None => []
      end
  | None => []
  end.

(** The input a request is served with, and its percentage bounds. *)
Definition inputOf (input : option Resolver.OffersInput) : Resolver.OffersInput :=
  match input with
  | Some i => i
  | None => Resolver.emptyInput
  end.

Definition minBpsOf (i : Resolver.OffersInput) : option Z :=
  match Resolver.percentage i with Some p => Resolver.minBps p | None => None end.

Definition maxBpsOf (i : Resolver.OffersInput) : option Z :=
  match Resolver.percentage i with Some p => Resolver.maxBps p | None => None end.

(** A node as the row it was made from. *)
Definition nodeRow (nd : Resolver.Node) : Resolver.Row :=
  Resolver.mkRow (Schema.o_id (Resolver.outlet nd)) (Resolver.__sortKey nd).

(** [t] starts with [s], and [s] occurs in [t]; characters are compared as
    [LIKE] compares them ([ILIKE] when [ci]). *)
Fixpoint startsWith (ci : bool) (s t : string) : bool :=
  match s, t with
  | EmptyString, _ => true
  | String c s', String d t' => Sql.sameChar ci c d && startsWith ci s' t'
  | String _ _, EmptyString => false
  end.

Fixpoint occursIn (ci : bool) (s t : string) : bool :=
  startsWith ci s t
  || match t with
     | EmptyString => false
     | String _ t' => occursIn ci s t'
     end.

(** ** Vocabulary for the job ids *)

(** FNV-1a on 32 bits, in unsigned arithmetic. *)
Definition fnv1a32 (units : list Z) : Z :=
  fold_left (fun h c => (Z.lxor h c * 16777619) mod 2 ^ 32) units 2166136261.

(** A lower-case hexadecimal digit. *)
Definition hexDigit (c : ascii) : bool := Js.inRange 48 57 c || Js.inRange 97 102 c.

(** ** Sample data, after the seed script *)

Module Sample.

#[local] Open Scope string_scope.

Definition approved (id : string) : option Schema.Review :=
  Some (Schema.mkReview id "Approved").

Definition pending (id : string) : option Schema.Review :=
  Some (Schema.mkReview id "Pending").

Definition env1 : Recompute.Env := Recompute.mkEnv 1000 "oi_1".
Definition env2 : Recompute.Env := Recompute.mkEnv 2000 "oi_2".

Definition emptyIndex : Schema.Index := Schema.mkIndex [] [] [] [] [].

(** A loyalty program that is approved and has an approved reward, but
    whose only tier is pending. *)
Definition lp_no_tier : Schema.LoyaltyProgram :=
  Schema.mkLoyaltyProgram "lp_coffee" true (approved "r_lp_1")
    (Js.JsDecimal 10000) (Js.JsDecimal 100)
    [Schema.mkLoyaltyTier true None (pending "r_lt_new") (Some "New")]
    [Schema.mkMerchantLoyaltyReward true (approved "r_lr_1")].

(** The same program with its tier approved. *)
Definition lp_ok : Schema.LoyaltyProgram :=
  Schema.mkLoyaltyProgram "lp_coffee" true (approved "r_lp_1")
    (Js.JsDecimal 10000) (Js.JsDecimal 100)
    [Schema.mkLoyaltyTier true None (approved "r_lt_new") (Some "New")]
    [Schema.mkMerchantLoyaltyReward true (approved "r_lr_1")].

Definition cb_all_10 : Schema.CashbackConfiguration :=
  Schema.mkCashbackConfiguration "cb_all_10" "m_food_1" true None None None
    ["All"] (Js.JsDecimal 1000) (Js.JsDecimal 100) (approved "r_cb_all")
    ["o_food_1"]
    [Schema.mkCashbackConfigurationTier true None (approved "r_cb_all_t") 1000].

Definition sourceWith (lp : Schema.LoyaltyProgram) : Schema.Source :=
  Schema.mkSource
    [cb_all_10]
    []
    [Schema.mkMerchant "m_food_1" "Active" "Food" "Tasty Bites" None;
     Schema.mkMerchant "m_loyalty_1" "Active" "Cafe" "Coffee Club" (Some lp)]
    [Schema.mkOutlet "o_food_1" "m_food_1" true (Some "r_o_food_1") "Tasty Bites CBD" None;
     Schema.mkOutlet "o_loy_1" "m_loyalty_1" true (Some "r_o_loy_1") "Coffee Club 1" None]
    [Schema.mkReview "r_o_food_1" "Approved"; Schema.mkReview "r_o_loy_1" "Approved";
     Schema.mkReview "r_pay_food_1" "Approved"; Schema.mkReview "r_pay_loy_1" "Approved"]
    [Schema.mkPaybillOrTill "o_food_1" true None (Some "r_pay_food_1");
     Schema.mkPaybillOrTill "o_loy_1" true None (Some "r_pay_loy_1")]
    [].

(** An index in which user [u1] still has a profile row. *)
Definition indexWithProfile : Schema.Index :=
  Schema.mkIndex [] [] [] []
    [Schema.mkUserMerchantProfile "u1" "m_food_1" "Vip" 5].

(** A source with one merchant and the outlets [ids]: each outlet has an
    approved review and an approved till, and one cashback configuration
    open to all covers the lot. *)
Definition pagedOutlets (ids : list string) : Schema.Source :=
  Schema.mkSource
    [Schema.mkCashbackConfiguration "cb_all" "m_1" true None None None
       ["All"] (Js.JsDecimal 1000) (Js.JsDecimal 0) (approved "r_cb")
       ids
       [Schema.mkCashbackConfigurationTier true None (approved "r_cb_t") 1000]]
    []
    [Schema.mkMerchant "m_1" "Active" "Food" "Merchant One" None]
    (map (fun id => Schema.mkOutlet id "m_1" true (Some "r_ok") id None) ids)
    [Schema.mkReview "r_ok" "Approved"]
    (map (fun id => Schema.mkPaybillOrTill id true None (Some "r_ok")) ids)
    [].

(** Outlet ids that hold a colon, and outlet ids that do not. *)
Definition colonIds : list string := ["a:b"; "a:c"].
Definition plainIds : list string := ["o1"; "o2"; "o3"].

Definition indexOf (src : Schema.Source) : Schema.Index :=
  snd (Recompute.rebuildCashbackIndex env1 src "cb_all" emptyIndex).

Definition pageOfOne : Resolver.OffersInput :=
  Resolver.mkOffersInput None None None (Some 1) None.

(** A codec for the samples: the text of a result lists the ids of its
    outlets, and a cached text is its own value. *)
Definition json : Resolver.Json :=
  Resolver.mkJson string
    (fun c => String.concat ","
                (map (fun n => Schema.o_id (Resolver.outlet n)) (Resolver.nodes c)))
    (fun text => Js.Normal text).

(** A store that holds a text for the first page of one outlet of user
    [u1], live until time 9000. *)
Definition storeWithPage : Redis.t :=
  [Redis.mkEntry (Resolver.cacheKeyOf "u1" 1 pageOfOne) "o9" 9000].

(** A configuration whose customer types name [All] twice. *)
Definition cb_twice : Schema.CashbackConfiguration :=
  Schema.mkCashbackConfiguration "cb_twice" "m_food_1" true None None None
    ["All"; "All"] (Js.JsDecimal 1000) (Js.JsDecimal 100) (approved "r_cb_twice")
    ["o_food_1"] [].

(** An exclusive offer for VIP customers that reaches its merchant through
    the relation only. *)
Definition ex_vip : Schema.ExclusiveOffer :=
  Schema.mkExclusiveOffer "ex_vip" None (Some "m_food_1") true None None None
    ["Vip"] (Js.JsDecimal 500) (Js.JsDecimal 20) (approved "r_ex_vip") ["o_food_1"].

(** The source of [sourceWith lp_ok] with these two offers and the customer
    types of user [u1]. *)
Definition sourceOffers : Schema.Source :=
  Schema.mkSource
    [cb_all_10; cb_twice]
    [ex_vip]
    (Schema.merchants (sourceWith lp_ok))
    (Schema.outlets (sourceWith lp_ok))
    (Schema.reviews (sourceWith lp_ok))
    (Schema.paybillOrTills (sourceWith lp_ok))
    [Schema.mkCustomerType "u1" "m_food_1" "Vip";
     Schema.mkCustomerType "u1" "m_loyalty_1" "Regular"].

(** The offer tables, as the loaders read them. *)
Definition tables : Loaders.OfferTables :=
  Loaders.mkOfferTables
    [Loaders.mkIdName "cb_all_10" "Cashback for all"; Loaders.mkIdName "cb_all" "Cashback"]
    [Loaders.mkIdNameDescription "ex_vip" "VIP night" None]
    [Loaders.mkIdName "lp_coffee" "Coffee Club"].

(** The index after the profiles of [u1] and every offer of [sourceOffers]
    but [cb_twice] have been rebuilt. *)
Definition indexOffers : Schema.Index :=
  snd (Recompute.rebuildLoyaltyIndexByMerchant (Recompute.mkEnv 1300 "oi_3") sourceOffers
         "m_loyalty_1"
         (snd (Recompute.rebuildExclusiveIndex env2 sourceOffers "ex_vip"
                 (snd (Recompute.rebuildCashbackIndex env1 sourceOffers "cb_all_10"
                         (snd (Recompute.rebuildUserMerchantProfilesForUser sourceOffers "u1"
                                 emptyIndex))))))).

End Sample.

(* ================================================================== *)
(** * Properties                                                        *)
(* ================================================================== *)

#[local] Open Scope string_scope.
#[local] Open Scope list_scope.

(** ** Page size *)

(** C9: for every [take] (an integer, or null/undefined as [None]) the
    normalized page size lies in [1, 50]; null/undefined gives 20, values
    above 50 give 50, values below 1 give 1, and a value already in range
    is kept. *)
Theorem normalizeTake_in_range (take : option Z) :
  1 <= Filters.normalizeTake take <= 50
  /\ Filters.normalizeTake None = 20
  /\ (forall n, 50 < n -> Filters.normalizeTake (Some n) = 50)
  /\ (forall n, n < 1 -> Filters.normalizeTake (Some n) = 1)
  /\ (forall n, 1 <= n <= 50 -> Filters.normalizeTake (Some n) = n).
Proof.
  unfold Filters.normalizeTake.
  repeat split; try (destruct take); intros; lia.
Qed.

Lemma normalizeTake_in_range_witness :
  1 <= Filters.normalizeTake (Some 75) <= 50 /\ Filters.normalizeTake (Some 75) = 50.
Proof.
  split.
  - exact (proj1 (normalizeTake_in_range (Some 75))).
  - apply (proj1 (proj2 (proj2 (normalizeTake_in_range None)))). lia.
Defined.

Example normalizeTake_samples :
  map Filters.normalizeTake [None; Some 0; Some (-7); Some 1; Some 20; Some 50; Some 51]
  = [20; 1; 1; 1; 20; 50; 50].
Proof. reflexivity. Qed.

(** ** Customer types *)

Lemma isTierEligible_iff (userRank tierMinRank : Z) :
  CustomerTypes.isTierEligible userRank tierMinRank = true <-> userRank >= tierMinRank.
Proof.
  unfold CustomerTypes.isTierEligible. rewrite Z.geb_le. lia.
Qed.

Lemma customerTypeRank_known :
  map (fun t => CustomerTypes.customerTypeRank (Some t))
      ["NonCustomer"; "New"; "Infrequent"; "Occasional"; "Regular"; "Vip"]
  = map CustomerTypes.PNumber [0; 1; 2; 3; 4; 5].
Proof. reflexivity. Qed.

Lemma customerTypeRank_missing :
  CustomerTypes.customerTypeRank None = CustomerTypes.PNumber 0
  /\ CustomerTypes.customerTypeRank (Some "") = CustomerTypes.PNumber 0.
Proof. split; reflexivity. Qed.

(** A string that names neither a customer type nor a member of
    [Object.prototype] ranks 0. *)
Lemma customerTypeRank_unknown (t : string) :
  CustomerTypes.ownProperty CustomerTypes.ORDERED_CUSTOMER_TYPES t = None ->
  existsb (String.eqb t) CustomerTypes.objectPrototypeKeys = false ->
  CustomerTypes.customerTypeRank (Some t) = CustomerTypes.PNumber 0.
Proof.
  intros Hown Hproto.
  destruct t as [|a r]; [reflexivity|].
  change (CustomerTypes.customerTypeRank (Some (String a r)))
    with (CustomerTypes.nullish
            (CustomerTypes.getProperty CustomerTypes.ORDERED_CUSTOMER_TYPES (String a r))
            (CustomerTypes.getProperty CustomerTypes.ORDERED_CUSTOMER_TYPES "NonCustomer")).
  unfold CustomerTypes.getProperty at 1.
  rewrite Hown, Hproto. reflexivity.
Qed.

(** C8: [customerTypeRank] does not send every unknown string to rank 0:
    for ["constructor"] the lookup finds the member that every object
    literal inherits, which is not nullish, so the [?? 0] default is not
    taken and the result is not a number. *)
Theorem customerTypeRank_constructor_not_zero :
  CustomerTypes.ownProperty CustomerTypes.ORDERED_CUSTOMER_TYPES "constructor" = None
  /\ CustomerTypes.customerTypeRank (Some "constructor")
     = CustomerTypes.PInherited "constructor"
  /\ CustomerTypes.customerTypeRank (Some "constructor") <> CustomerTypes.PNumber 0.
Proof.
  repeat split; try reflexivity. discriminate.
Qed.

(** ** Budget exhaustion *)

Lemma Qltb_false_iff (p q : Q) : Js.Qltb p q = false <-> (q <= p)%Q.
Proof.
  unfold Js.Qltb. rewrite negb_false_iff. apply Qle_bool_iff.
Qed.

Lemma Qltb_true_iff (p q : Q) : Js.Qltb p q = true <-> (p < q)%Q.
Proof.
  unfold Js.Qltb. rewrite negb_true_iff. split; intro H.
  - apply Qnot_le_lt. intro Hle. apply Qle_bool_iff in Hle. congruence.
  - destruct (Qle_bool q p) eqn:E; [|reflexivity].
    apply Qle_bool_iff in E. exfalso. exact (Qlt_not_le _ _ H E).
Qed.

Lemma lt_of_strictEq (u n : Js.JsNumber) :
  Js.strictEq u n = true -> Js.lt u n = false.
Proof.
  destruct u, n; simpl; try discriminate; try reflexivity.
  intro H. apply Qeq_bool_iff in H. apply Qltb_false_iff.
  rewrite H. apply Qle_refl.
Qed.

Lemma lt_zero_net (u n : Js.JsNumber) :
  Js.strictEq n (Js.Finite 0) = true ->
  Js.lt u (Js.Finite 0) = false ->
  Js.lt u n = false.
Proof.
  destruct n as [| |q|]; simpl; try discriminate.
  intros Hq. apply Qeq_bool_iff in Hq.
  destruct u as [| |p|]; simpl; try discriminate; try reflexivity.
  intro Hp. apply Qltb_false_iff in Hp. apply Qltb_false_iff.
  rewrite Hq. exact Hp.
Qed.

Lemma lt_NaN_r (u : Js.JsNumber) : Js.lt u Js.NaN = false.
Proof. destruct u; reflexivity. Qed.

(** The exclusive computation is the cashback one, and for budget fields
    that [Number] converts to [n] (net) and [u] (used): [u === n] gives
    exhausted; [u < n] gives not exhausted; a net of 0 gives exhausted
    whenever used is not below 0.  A field on which [Number] throws or
    yields NaN gives exhausted. *)
Theorem budgetExhausted_boundary (net used : Js.JsValue) :
  Recompute.offerBudgetExhausted net used = Recompute.cashbackBudgetExhausted net used
  /\ (forall n u,
         Js.Number net = Js.Normal n -> Js.Number used = Js.Normal u ->
         (Js.strictEq u n = true -> Recompute.cashbackBudgetExhausted net used = true)
         /\ (Js.lt u n = true -> Recompute.cashbackBudgetExhausted net used = false)
         /\ (Js.strictEq n (Js.Finite 0) = true -> Js.lt u (Js.Finite 0) = false ->
             Recompute.cashbackBudgetExhausted net used = true))
  /\ (Js.nonNumeric net = true \/ Js.nonNumeric used = true ->
      Recompute.cashbackBudgetExhausted net used = true).
Proof.
  split; [reflexivity|]. split.
  - intros n u Hn Hu. unfold Recompute.cashbackBudgetExhausted.
    rewrite Hn, Hu. simpl. repeat split.
    + intro H. now rewrite (lt_of_strictEq _ _ H).
    + intro H. now rewrite H.
    + intros H0 Hu0. now rewrite (lt_zero_net _ _ H0 Hu0).
  - unfold Js.nonNumeric, Recompute.cashbackBudgetExhausted.
    destruct (Js.Number net) as [n|e]; simpl; [|reflexivity].
    destruct (Js.Number used) as [u|e]; simpl; [|reflexivity].
    intros [H|H].
    + destruct n; try discriminate. now rewrite lt_NaN_r.
    + destruct u; try discriminate. reflexivity.
Qed.

Lemma budgetExhausted_boundary_witness :
  Recompute.cashbackBudgetExhausted (Js.JsDecimal 100) (Js.JsDecimal 100) = true
  /\ Recompute.cashbackBudgetExhausted (Js.JsDecimal 100) (Js.JsDecimal 99) = false
  /\ Recompute.cashbackBudgetExhausted (Js.JsDecimal 0) (Js.JsDecimal 7) = true
  /\ Recompute.cashbackBudgetExhausted (Js.JsString "n/a") (Js.JsDecimal 7) = true.
Proof.
  split; [|split; [|split]].
  - apply (proj1 (proj1 (proj2 (budgetExhausted_boundary (Js.JsDecimal 100) (Js.JsDecimal 100)))
                        (Js.Finite 100) (Js.Finite 100) eq_refl eq_refl)).
    reflexivity.
  - apply (proj1 (proj2 (proj1 (proj2 (budgetExhausted_boundary (Js.JsDecimal 100)
                                         (Js.JsDecimal 99)))
                               (Js.Finite 100) (Js.Finite 99) eq_refl eq_refl))).
    reflexivity.
  - apply (proj2 (proj2 (proj1 (proj2 (budgetExhausted_boundary (Js.JsDecimal 0)
                                         (Js.JsDecimal 7)))
                               (Js.Finite 0) (Js.Finite 7) eq_refl eq_refl)));
      reflexivity.
  - apply (proj2 (proj2 (budgetExhausted_boundary (Js.JsString "n/a") (Js.JsDecimal 7)))).
    left. reflexivity.
Defined.

(** With a net budget of 0 and a used budget of -1 the comparison
    [usedNum < netNum] holds, so the offer is not exhausted. *)
Lemma zero_net_negative_used_not_exhausted :
  Js.Number (Js.JsDecimal 0) = Js.Normal (Js.Finite 0)
  /\ Js.Number (Js.JsDecimal (-1)) = Js.Normal (Js.Finite (-1))
  /\ Recompute.cashbackBudgetExhausted (Js.JsDecimal 0) (Js.JsDecimal (-1)) = false.
Proof. repeat split; vm_compute; reflexivity. Qed.

(** C1: both computations compare the budget counters after [Number] has
    rounded them to binary64, not as the decimals they are.  Two counters
    with [used < net] that round to the same number are reported as
    exhausted: a net budget of 9007199254740993 with 9007199254740992
    used, and a net budget of 90071992547409.02 with 90071992547409.01
    used.  On the seed values, and on a net budget of 0 with nothing used,
    the answers are the expected ones. *)
Theorem budgetExhausted_rounds_counters :
  let net := Js.JsDecimal (inject_Z 9007199254740993) in
  let used := Js.JsDecimal (inject_Z 9007199254740992) in
  let net' := Js.JsDecimal (9007199254740902 # 100) in
  let used' := Js.JsDecimal (9007199254740901 # 100) in
  ((inject_Z 9007199254740992 < inject_Z 9007199254740993)%Q
   /\ Js.Number net = Js.Normal (Js.Finite (inject_Z 9007199254740992))
   /\ Js.Number used = Js.Normal (Js.Finite (inject_Z 9007199254740992))
   /\ Recompute.cashbackBudgetExhausted net used = true
   /\ Recompute.offerBudgetExhausted net used = true)
  /\ ((9007199254740901 # 100 < 9007199254740902 # 100)%Q
      /\ Js.Number net' = Js.Number used'
      /\ Recompute.cashbackBudgetExhausted net' used' = true
      /\ Recompute.offerBudgetExhausted net' used' = true)
  /\ Recompute.cashbackBudgetExhausted (Js.JsDecimal 100) (Js.JsDecimal 100) = true
  /\ Recompute.cashbackBudgetExhausted (Js.JsDecimal 100) (Js.JsDecimal 99) = false
  /\ Recompute.cashbackBudgetExhausted (Js.JsDecimal 0) (Js.JsDecimal 0) = true.
Proof.
  cbv zeta. repeat split; vm_compute; reflexivity.
Qed.

(** The boundary on the seed values: net 100 with used 100 is exhausted,
    with used 99 it is not. *)
Example budget_boundary_samples :
  Recompute.cashbackBudgetExhausted (Js.JsDecimal 100) (Js.JsDecimal 100) = true
  /\ Recompute.cashbackBudgetExhausted (Js.JsDecimal 100) (Js.JsDecimal 99) = false
  /\ Recompute.cashbackBudgetExhausted (Js.JsDecimal 0) (Js.JsDecimal 0) = true
  /\ Recompute.cashbackBudgetExhausted (Js.JsString "n/a") (Js.JsDecimal 1) = true
  /\ Recompute.cashbackBudgetExhausted (Js.JsDecimal 5) Js.JsUndefined = true
  /\ Recompute.cashbackBudgetExhausted (Js.JsDecimal 5) Js.JsSymbol = true.
Proof. repeat split; vm_compute; reflexivity. Qed.

(** [null] is not treated as non-numeric: [Number(null)] is 0. *)
Example budget_null_used :
  Js.nonNumeric Js.JsNull = false
  /\ Recompute.cashbackBudgetExhausted (Js.JsDecimal 5) Js.JsNull = false.
Proof. split; vm_compute; reflexivity. Qed.

(** ** SQL conditions *)

Lemma isTrue_and (a b : Sql.cond) :
  Sql.isTrue (Sql.and a b) = Sql.isTrue a && Sql.isTrue b.
Proof. destruct a as [[|]|], b as [[|]|]; reflexivity. Qed.

Lemma isTrue_or (a b : Sql.cond) :
  Sql.isTrue (Sql.or a b) = Sql.isTrue a || Sql.isTrue b.
Proof. destruct a as [[|]|], b as [[|]|]; reflexivity. Qed.

Lemma isTrue_lift (b : bool) : Sql.isTrue (Sql.lift b) = b.
Proof. destruct b; reflexivity. Qed.

Lemma flat_map_all_nil {A B : Type} (f : A -> list B) (l : list A) :
  (forall x, In x l -> f x = []) -> flat_map f l = [].
Proof.
  induction l as [|x l IH]; intro H; simpl; [reflexivity|].
  rewrite (H x (or_introl eq_refl)). apply IH.
  intros y Hy. apply H. now right.
Qed.

(** Rows come out of [rowsOf] only where the condition is true. *)
Lemma rowsOf_nil (db : Schema.Index) (userId : string)
      (where_ : Schema.OfferIndex -> option Schema.UserMerchantProfile -> Sql.cond)
      (sortKeyOf : Schema.OfferIndex -> Z) (oi : Schema.OfferIndex) :
  (forall p, Sql.isTrue (where_ oi p) = false) ->
  Resolver.rowsOf db userId where_ sortKeyOf oi = [].
Proof.
  intro H. unfold Resolver.rowsOf.
  apply flat_map_all_nil. intros oio _.
  apply flat_map_all_nil. intros p _.
  now rewrite H.
Qed.

Lemma loaderRowsOf_nil (db : Schema.Index) (userId : string) (outletIds : list string)
      (kind : Schema.OfferKind) (now : Z) (oi : Schema.OfferIndex) :
  (forall oio p, Sql.isTrue (Loaders.loaderWhere db outletIds kind now oi oio p) = false) ->
  Loaders.loaderRowsOf db userId outletIds kind now oi = [].
Proof.
  intro H. unfold Loaders.loaderRowsOf.
  apply flat_map_all_nil. intros oio _.
  apply flat_map_all_nil. intros p _.
  now rewrite H.
Qed.

(** ** The customer-type rule *)

(** C2 (as amended): the exact-type condition needs a profile and the
    NonCustomer-default condition needs its absence, so these two never hold
    together; the rule is true exactly when one of the three conditions is,
    no-match is the case in which none is, and so at least one of the four
    cases applies.  The rule is never unknown. *)
Theorem customerTypeRule_cases (db : Schema.Index) (oi : Schema.OfferIndex)
        (p : option Schema.UserMerchantProfile) :
  let allMatch := Sql.isTrue (Resolver.allowsAll db oi) in
  let typeMatch := Sql.isTrue (Resolver.matchesType db oi p) in
  let defaultMatch := Sql.isTrue (Resolver.nonCustomerDefault db oi p) in
  let noMatch := negb (Sql.isTrue (Resolver.customerTypeRule db oi p)) in
  typeMatch && defaultMatch = false
  /\ Resolver.customerTypeRule db oi p = Some (allMatch || typeMatch || defaultMatch)
  /\ noMatch = negb allMatch && negb typeMatch && negb defaultMatch
  /\ (allMatch = true \/ typeMatch = true \/ defaultMatch = true \/ noMatch = true).
Proof.
  unfold Resolver.customerTypeRule, Resolver.allowsAll, Resolver.matchesType,
    Resolver.nonCustomerDefault, Resolver.customerTypeOf.
  destruct p as [prof|]; simpl;
    destruct (Resolver.existsCustomerType db oi (Some "All"));
    destruct (Resolver.existsCustomerType db oi (Some "NonCustomer"));
    try destruct (Resolver.existsCustomerType db oi (Some (Schema.ump_customerType prof)));
    try destruct (Resolver.existsCustomerType db oi None);
    simpl; intuition.
Qed.

(** C2, the case the claim gets wrong: an offer that lists both ['All'] and
    ['Vip'], seen by a user whose profile at the merchant is ['Vip'],
    satisfies the All condition and the exact-type condition at once. *)
Lemma all_and_type_match_together :
  let db :=
    Schema.mkIndex []
      [Schema.mkOfferIndexCustomerType "oi1" "All";
       Schema.mkOfferIndexCustomerType "oi1" "Vip"] [] [] [] in
  let oi :=
    Schema.mkOfferIndex "oi1" Schema.CASHBACK "m1" (Some "cb1") None None
      true true None false None None (Some 1000) 0 in
  let p := Some (Schema.mkUserMerchantProfile "u1" "m1" "Vip" 5) in
  Sql.isTrue (Resolver.allowsAll db oi) = true
  /\ Sql.isTrue (Resolver.matchesType db oi p) = true.
Proof. split; reflexivity. Qed.

(** ** The date window *)

(** C10: an index row with exactly one of [startDate]/[endDate] set fails
    the date condition at every time, so neither the resolver's
    cashback/exclusive branch nor the per-outlet lookup yields a row from it. *)
Theorem half_open_window_never_eligible
        (db : Schema.Index) (userId : string) (now : Z) (minBps maxBps : option Z)
        (outletIds : list string) (kind : Schema.OfferKind) (oi : Schema.OfferIndex) :
  xorb (Recompute.isNull (Schema.oi_startDate oi))
       (Recompute.isNull (Schema.oi_endDate oi)) = true ->
  Sql.isTrue (Resolver.dateWindow oi now) = false
  /\ Resolver.cashbackOrExclusiveRowsOf db userId now minBps maxBps oi = []
  /\ Loaders.loaderRowsOf db userId outletIds kind now oi = [].
Proof.
  intro Hhalf.
  assert (Hdate : Sql.isTrue (Resolver.dateWindow oi now) = false).
  { unfold Resolver.dateWindow.
    destruct (Schema.oi_startDate oi) as [s|], (Schema.oi_endDate oi) as [e|];
      simpl in *; try discriminate.
    - now destruct (s <=? now)%Z.
    - now destruct (now <=? e)%Z. }
  split; [exact Hdate|]. split.
  - apply rowsOf_nil. intro p.
    unfold Resolver.cashbackOrExclusiveWhere.
    rewrite !isTrue_and, Hdate.
    now rewrite !andb_false_r, ?andb_false_l.
  - apply loaderRowsOf_nil. intros oio p.
    unfold Loaders.loaderWhere.
    rewrite !isTrue_and, Hdate.
    now rewrite !andb_false_r, ?andb_false_l.
Qed.

Lemma half_open_window_never_eligible_witness :
  let oi :=
    Schema.mkOfferIndex "oi1" Schema.CASHBACK "m1" (Some "cb1") None None
      true true None false (Some 5) None (Some 1000) 0 in
  let db :=
    Schema.mkIndex [oi] [Schema.mkOfferIndexCustomerType "oi1" "All"]
      [Schema.mkOfferIndexOutlet "oi1" "o1"] [] [] in
  Sql.isTrue (Resolver.dateWindow oi 7) = false
  /\ Resolver.cashbackOrExclusiveRowsOf db "u1" 7 None None oi = []
  /\ Loaders.loaderRowsOf db "u1" ["o1"] Schema.CASHBACK 7 oi = [].
Proof.
  intros oi db.
  apply (half_open_window_never_eligible db "u1" 7 None None ["o1"] Schema.CASHBACK oi).
  reflexivity.
Defined.

(** The same row with both bounds absent is eligible. *)
Example closed_window_sample :
  let oi :=
    Schema.mkOfferIndex "oi1" Schema.CASHBACK "m1" (Some "cb1") None None
      true true None false None None (Some 1000) 0 in
  let db :=
    Schema.mkIndex [oi] [Schema.mkOfferIndexCustomerType "oi1" "All"]
      [Schema.mkOfferIndexOutlet "oi1" "o1"] [] [] in
  Resolver.cashbackOrExclusiveRowsOf db "u1" 7 None None oi = [Resolver.mkRow "o1" 1000].
Proof. reflexivity. Qed.

(** ** Recompute: store operations *)

Section StoreFacts.

Import Schema.

Lemma keepsOfferIndex_bind {A B : Type} (m : Recompute.DbM A) (k : A -> Recompute.DbM B) :
  keepsOfferIndex m -> (forall a, keepsOfferIndex (k a)) ->
  keepsOfferIndex (Recompute.bindM m k).
Proof.
  intros Hm Hk db. unfold Recompute.bindM.
  specialize (Hm db). destruct (m db) as [[a|e] db1]; simpl in *.
  - rewrite Hk. exact Hm.
  - exact Hm.
Qed.

Lemma keepsOfferIndex_transaction {A : Type} (m : Recompute.DbM A) :
  keepsOfferIndex m -> keepsOfferIndex (Recompute.transaction m).
Proof.
  intros Hm db. unfold Recompute.transaction.
  specialize (Hm db). destruct (m db) as [[a|e] db1]; simpl in *; auto.
Qed.

Lemma keepsOfferIndex_ret {A : Type} (a : A) : keepsOfferIndex (Recompute.ret a).
Proof. intro db. reflexivity. Qed.

Lemma keepsOfferIndex_raise {A : Type} (e : Js.JsError) :
  keepsOfferIndex (@Recompute.raise A e).
Proof. intro db. reflexivity. Qed.

Lemma keepsOfferIndex_ct_delete (i : string) :
  keepsOfferIndex (Recompute.offerIndexCustomerType_deleteMany i).
Proof. intro db. reflexivity. Qed.

Lemma keepsOfferIndex_outlet_delete (i : string) :
  keepsOfferIndex (Recompute.offerIndexOutlet_deleteMany i).
Proof. intro db. reflexivity. Qed.

Lemma keepsOfferIndex_tier_delete (i : string) :
  keepsOfferIndex (Recompute.loyaltyTierIndex_deleteMany i).
Proof. intro db. reflexivity. Qed.

Lemma keepsOfferIndex_ct_create (d : list OfferIndexCustomerType) :
  keepsOfferIndex (Recompute.offerIndexCustomerType_createMany d).
Proof.
  intro db. unfold Recompute.offerIndexCustomerType_createMany.
  destruct (Recompute.insertAllUnique _ _ _); reflexivity.
Qed.

Lemma keepsOfferIndex_outlet_create (d : list OfferIndexOutlet) :
  keepsOfferIndex (Recompute.offerIndexOutlet_createMany_skipDuplicates d).
Proof. intro db. reflexivity. Qed.

Lemma keepsOfferIndex_tier_create (d : list LoyaltyTierIndex) :
  keepsOfferIndex (Recompute.loyaltyTierIndex_createMany_skipDuplicates d).
Proof. intro db. reflexivity. Qed.

Lemma find_updateFirst {A : Type} (p : A -> bool) (f : A -> A) (l : list A) (r : A) :
  find p l = Some r -> p (f r) = true ->
  find p (Recompute.updateFirst p f l) = Some (f r).
Proof.
  induction l as [|x l IH]; simpl; [discriminate|].
  destruct (p x) eqn:Hx; intros Hfind Hp.
  - injection Hfind as <-. simpl. now rewrite Hp.
  - simpl. rewrite Hx. now apply IH.
Qed.

Lemma find_app_last {A : Type} (p : A -> bool) (l : list A) (c : A) :
  find p l = None -> p c = true -> find p (l ++ [c]) = Some c.
Proof.
  induction l as [|x l IH]; simpl; intros Hfind Hp.
  - now rewrite Hp.
  - destruct (p x); [discriminate|]. now apply IH.
Qed.

(** After an upsert whose [update] and [create] rows satisfy [where_], the
    first row satisfying [where_] is the one written, and its id is returned. *)
Lemma offerIndex_upsert_spec (where_ : OfferIndex -> bool)
      (update : OfferIndex -> OfferIndex) (create : OfferIndex) (db : Index) :
  (forall r, where_ r = true -> where_ (update r) = true) ->
  (forall r, oi_id (update r) = oi_id r) ->
  where_ create = true ->
  exists row,
    find where_ (offerIndex (snd (Recompute.offerIndex_upsert where_ update create db)))
    = Some row
    /\ fst (Recompute.offerIndex_upsert where_ update create db) = Js.Normal (oi_id row)
    /\ ((exists old, find where_ (offerIndex db) = Some old /\ row = update old)
        \/ (find where_ (offerIndex db) = None /\ row = create)).
Proof.
  intros Hupd Hid Hcreate. unfold Recompute.offerIndex_upsert.
  destruct (find where_ (offerIndex db)) as [old|] eqn:Hfind; simpl.
  - exists (update old). split; [|split].
    + apply find_updateFirst; [exact Hfind|].
      apply Hupd. now apply find_some in Hfind.
    + now rewrite Hid.
    + left. now exists old.
  - exists create. split; [|split].
    + now apply find_app_last.
    + reflexivity.
    + now right.
Qed.

End StoreFacts.

(** ** Recompute: the loyalty snapshot *)

Section LoyaltySnapshot.

Import Schema.

(** [isApproved(review)] holds exactly of an approved review. *)
Lemma isApproved_iff (review : option Review) :
  Recompute.isApproved review = true <-> reviewApproved review.
Proof.
  unfold Recompute.isApproved, reviewApproved. destruct review as [r|].
  - rewrite String.eqb_eq. split.
    + intro H. now exists r.
    + intros [r' [E H]]. now injection E as ->.
  - split; [discriminate|]. intros [r [E _]]. discriminate.
Qed.

Lemma qualifying_tiers_nonempty (tiers : list LoyaltyTier) :
  (0 <? List.length (map (fun t => CustomerTypes.customerTypeRank (lt_minCustomerType t))
                         (filter Recompute.qualifyingTier tiers)))%nat = true
  <-> exists t, In t tiers /\ lt_isActive t = true /\ lt_deletedAt t = None
                /\ reviewApproved (lt_Review t).
Proof.
  rewrite length_map, Nat.ltb_lt. split.
  - intro Hlen.
    destruct (filter Recompute.qualifyingTier tiers) as [|t rest] eqn:Hf;
      [simpl in Hlen; lia|].
    assert (Hin : In t (filter Recompute.qualifyingTier tiers))
      by (rewrite Hf; now left).
    apply filter_In in Hin. destruct Hin as [Hin Hq].
    unfold Recompute.qualifyingTier in Hq.
    apply andb_prop in Hq. destruct Hq as [Hq Happ].
    apply andb_prop in Hq. destruct Hq as [Hact Hdel].
    exists t. split; [exact Hin|]. split; [exact Hact|]. split.
    + destruct (lt_deletedAt t); [discriminate|reflexivity].
    + now apply isApproved_iff.
  - intros [t [Hin [Hact [Hdel Happ]]]]. apply isApproved_iff in Happ.
    assert (Hq : In t (filter Recompute.qualifyingTier tiers)).
    { apply filter_In. split; [exact Hin|].
      unfold Recompute.qualifyingTier. now rewrite Hact, Hdel, Happ. }
    destruct (filter Recompute.qualifyingTier tiers); [contradiction|simpl; lia].
Qed.

Lemma has_rewards_iff (rewards : list MerchantLoyaltyReward) :
  existsb Recompute.qualifyingReward rewards = true
  <-> exists r, In r rewards /\ mlr_isActive r = true /\ reviewApproved (mlr_Review r).
Proof.
  rewrite existsb_exists. unfold Recompute.qualifyingReward.
  split; intros [r [Hin H]]; exists r.
  - apply andb_prop in H. destruct H as [H1 H2]. apply isApproved_iff in H2. tauto.
  - destruct H as [H1 H2]. apply isApproved_iff in H2. now rewrite H1, H2.
Qed.

(** A row whose approval snapshot is false yields nothing in any of the
    three queries. *)
Lemma not_approved_contributes_nothing (db : Index) (row : OfferIndex) :
  oi_isApprovedSnapshot row = false ->
  forall userId now minBps maxBps outletIds kind,
    Resolver.loyaltyRowsOf db userId row = []
    /\ Resolver.cashbackOrExclusiveRowsOf db userId now minBps maxBps row = []
    /\ Loaders.loaderRowsOf db userId outletIds kind now row = [].
Proof.
  intros Hna userId now minBps maxBps outletIds kind. repeat split.
  - apply rowsOf_nil. intro p. unfold Resolver.loyaltyWhere.
    rewrite !isTrue_and, !isTrue_lift, Hna.
    now rewrite !andb_false_r, ?andb_false_l.
  - apply rowsOf_nil. intro p. unfold Resolver.cashbackOrExclusiveWhere.
    rewrite !isTrue_and, !isTrue_lift, Hna.
    now rewrite !andb_false_r, ?andb_false_l.
  - apply loaderRowsOf_nil. intros oio p. unfold Loaders.loaderWhere.
    rewrite !isTrue_and, !isTrue_lift, Hna.
    now rewrite !andb_false_r, ?andb_false_l.
Qed.

(** C6: after [rebuildLoyaltyIndexByMerchant] for a merchant with a loyalty
    program, the program's [OfferIndex] row is of kind LOYALTY and its
    [isApprovedSnapshot] is true exactly when the program's review is
    approved, some reward is active with an approved review, and some tier
    is active, not soft-deleted and approved; when it is false the row
    yields no outlet in the resolver's two branches nor in the per-outlet
    lookup, for any user, time and filter. *)
Theorem loyalty_isApprovedSnapshot (env : Recompute.Env) (src : Source)
        (merchantId : string) (db : Index) (merchant : Merchant) (lp : LoyaltyProgram) :
  find (fun m => m_id m =? merchantId) (merchants src) = Some merchant ->
  m_LoyaltyProgram merchant = Some lp ->
  let db' := snd (Recompute.rebuildLoyaltyIndexByMerchant env src merchantId db) in
  exists row,
    find (forLoyaltyProgram (lp_id lp)) (offerIndex db') = Some row
    /\ oi_kind row = LOYALTY
    /\ (oi_isApprovedSnapshot row = true <-> loyaltyApprovable lp)
    /\ (oi_isApprovedSnapshot row = false ->
        forall userId now minBps maxBps outletIds kind,
          Resolver.loyaltyRowsOf db' userId row = []
          /\ Resolver.cashbackOrExclusiveRowsOf db' userId now minBps maxBps row = []
          /\ Loaders.loaderRowsOf db' userId outletIds kind now row = []).
Proof.
  intros Hm Hlp db'. subst db'.
  unfold Recompute.rebuildLoyaltyIndexByMerchant. rewrite Hm, Hlp.
  set (approved := Recompute.isApproved (lp_Review lp)
                   && existsb Recompute.qualifyingReward (lp_MerchantLoyaltyRewards lp)
                   && (0 <? List.length
                              (map (fun t => CustomerTypes.customerTypeRank (lt_minCustomerType t))
                                   (filter Recompute.qualifyingTier (lp_LoyaltyTiers lp))))%nat).
  match goal with
  | |- context [Recompute.offerIndex_upsert ?w ?u ?c] =>
      set (where_ := w); set (update := u); set (create := c)
  end.
  destruct (offerIndex_upsert_spec where_ update create db)
    as [row [Hfind [Hret Hrow]]].
  { intros r Hr. exact Hr. }
  { reflexivity. }
  { subst where_ create. simpl. apply String.eqb_refl. }
  unfold Recompute.bindM at 1.
  destruct (Recompute.offerIndex_upsert where_ update create db) as [[idx|e] db1] eqn:Hups;
    simpl in Hret; [|discriminate].
  simpl in Hfind. cbv beta.
  match goal with
  | |- context [Recompute.transaction ?body] => set (tx := Recompute.transaction body)
  end.
  assert (Hkeep : keepsOfferIndex tx).
  { subst tx. apply keepsOfferIndex_transaction.
    repeat (apply keepsOfferIndex_bind; [|intros _]);
      auto using keepsOfferIndex_outlet_delete, keepsOfferIndex_tier_delete,
        keepsOfferIndex_outlet_create.
    destruct (Recompute.intColumn _);
      auto using keepsOfferIndex_tier_create, keepsOfferIndex_raise. }
  exists row. rewrite (Hkeep db1).
  assert (Hk : oi_kind row = LOYALTY)
    by (destruct Hrow as [[old [_ ->]]|[_ ->]]; reflexivity).
  assert (Ha : oi_isApprovedSnapshot row = approved)
    by (destruct Hrow as [[old [_ ->]]|[_ ->]]; reflexivity).
  split; [exact Hfind|]. split; [exact Hk|]. split.
  - rewrite Ha. subst approved. unfold loyaltyApprovable.
    rewrite !andb_true_iff, isApproved_iff, has_rewards_iff, qualifying_tiers_nonempty.
    tauto.
  - intro Hna. now apply not_approved_contributes_nothing.
Qed.

End LoyaltySnapshot.

Lemma loyalty_isApprovedSnapshot_witness :
  (exists row,
      find (forLoyaltyProgram "lp_coffee")
           (Schema.offerIndex
              (snd (Recompute.rebuildLoyaltyIndexByMerchant Sample.env1
                      (Sample.sourceWith Sample.lp_ok) "m_loyalty_1" Sample.emptyIndex)))
      = Some row
      /\ Schema.oi_isApprovedSnapshot row = true)
  /\ (exists row,
        find (forLoyaltyProgram "lp_coffee")
             (Schema.offerIndex
                (snd (Recompute.rebuildLoyaltyIndexByMerchant Sample.env1
                        (Sample.sourceWith Sample.lp_no_tier) "m_loyalty_1"
                        Sample.emptyIndex)))
        = Some row
        /\ Schema.oi_isApprovedSnapshot row = false
        /\ Resolver.loyaltyRowsOf
             (snd (Recompute.rebuildLoyaltyIndexByMerchant Sample.env1
                     (Sample.sourceWith Sample.lp_no_tier) "m_loyalty_1"
                     Sample.emptyIndex))
             "u1" row = []).
Proof.
  split.
  - destruct (loyalty_isApprovedSnapshot Sample.env1 (Sample.sourceWith Sample.lp_ok)
                "m_loyalty_1" Sample.emptyIndex
                (Schema.mkMerchant "m_loyalty_1" "Active" "Cafe" "Coffee Club"
                                   (Some Sample.lp_ok))
                Sample.lp_ok eq_refl eq_refl) as (row & Hf & _ & Hiff & _).
    exists row. split; [exact Hf|]. apply Hiff.
    split; [eexists; split; reflexivity|]. split.
    + eexists. split; [now left|]. split; [reflexivity|]. eexists. split; reflexivity.
    + eexists. split; [now left|]. split; [reflexivity|]. split; [reflexivity|].
      eexists. split; reflexivity.
  - destruct (loyalty_isApprovedSnapshot Sample.env1 (Sample.sourceWith Sample.lp_no_tier)
                "m_loyalty_1" Sample.emptyIndex
                (Schema.mkMerchant "m_loyalty_1" "Active" "Cafe" "Coffee Club"
                                   (Some Sample.lp_no_tier))
                Sample.lp_no_tier eq_refl eq_refl) as (row & Hf & _ & Hiff & Hno).
    exists row. split; [exact Hf|].
    assert (Hfalse : Schema.oi_isApprovedSnapshot row = false).
    { destruct (Schema.oi_isApprovedSnapshot row); [|reflexivity].
      destruct (proj1 Hiff eq_refl) as (_ & _ & t & Hin & _ & _ & r & Hr & Hs).
      destruct Hin as [<-|[]]. injection Hr as <-. discriminate Hs. }
    split; [exact Hfalse|].
    exact (proj1 (Hno Hfalse "u1" 0 None None [] Schema.LOYALTY)).
Defined.

(** Scenario D on the sample: the program without a qualifying tier is
    indexed as not approved, its outlet is mapped, and no user gets the
    outlet; once the tier is approved a user of rank New or above does. *)
Example loyalty_scenario_D :
  let db := snd (Recompute.rebuildLoyaltyIndexByMerchant Sample.env1
                   (Sample.sourceWith Sample.lp_no_tier) "m_loyalty_1" Sample.emptyIndex) in
  let db' := snd (Recompute.rebuildLoyaltyIndexByMerchant Sample.env1
                    (Sample.sourceWith Sample.lp_ok) "m_loyalty_1"
                    (Schema.mkIndex [] [] [] []
                       [Schema.mkUserMerchantProfile "u1" "m_loyalty_1" "Regular" 4])) in
  map Schema.oi_isApprovedSnapshot (Schema.offerIndex db) = [false]
  /\ Schema.offerIndexOutlet db = [Schema.mkOfferIndexOutlet "oi_1" "o_loy_1"]
  /\ Resolver.eligible_outlets db "u1" 5000 None None = []
  /\ map Schema.oi_isApprovedSnapshot (Schema.offerIndex db') = [true]
  /\ Resolver.eligible_outlets db' "u1" 5000 None None = [Resolver.mkRow "o_loy_1" 0]
  /\ Resolver.eligible_outlets db' "u2" 5000 None None = [].
Proof. vm_compute. repeat split. Qed.

(** ** Recompute: a missing source entity *)

(** C7 (as amended): [rebuildCashbackIndex], [rebuildExclusiveIndex] and
    [rebuildLoyaltyIndexByMerchant], invoked with an identifier whose source
    entity does not exist (for the loyalty rebuild: no such merchant, or a
    merchant without a program), complete normally and leave every index
    table as it was.  [rebuildUserMerchantProfilesForUser] for a user
    without customer-type rows completes normally too, but deletes that
    user's profile rows; the other tables are left as they were. *)
Theorem missing_source_entity (env : Recompute.Env) (src : Schema.Source)
        (id : string) (db : Schema.Index) :
  (find (fun c => Schema.cc_id c =? id) (Schema.cashbackConfigurations src) = None ->
   Recompute.rebuildCashbackIndex env src id db = (Js.Normal tt, db))
  /\ (find (fun e => Schema.eo_id e =? id) (Schema.exclusiveOffers src) = None ->
      Recompute.rebuildExclusiveIndex env src id db = (Js.Normal tt, db))
  /\ ((forall m, find (fun m => Schema.m_id m =? id) (Schema.merchants src) = Some m ->
                 Schema.m_LoyaltyProgram m = None) ->
      Recompute.rebuildLoyaltyIndexByMerchant env src id db = (Js.Normal tt, db))
  /\ (filter (fun r => Schema.ct_userId r =? id) (Schema.customerTypes src) = [] ->
      Recompute.rebuildUserMerchantProfilesForUser src id db
      = (Js.Normal tt,
         Recompute.setUserMerchantProfile
           (filter (fun r => negb (Schema.ump_userId r =? id))
                   (Schema.userMerchantProfile db)) db)).
Proof.
  repeat split.
  - intro H. unfold Recompute.rebuildCashbackIndex. now rewrite H.
  - intro H. unfold Recompute.rebuildExclusiveIndex. now rewrite H.
  - intro H. unfold Recompute.rebuildLoyaltyIndexByMerchant.
    destruct (find _ (Schema.merchants src)) as [m|]; [|reflexivity].
    now rewrite (H m eq_refl).
  - intro H. unfold Recompute.rebuildUserMerchantProfilesForUser.
    rewrite H. reflexivity.
Qed.

Lemma missing_source_entity_witness :
  Recompute.rebuildCashbackIndex Sample.env1 (Sample.sourceWith Sample.lp_ok)
    "cb_deleted" Sample.indexWithProfile = (Js.Normal tt, Sample.indexWithProfile)
  /\ Recompute.rebuildLoyaltyIndexByMerchant Sample.env1 (Sample.sourceWith Sample.lp_ok)
       "m_food_1" Sample.indexWithProfile = (Js.Normal tt, Sample.indexWithProfile).
Proof.
  split.
  - apply (proj1 (missing_source_entity Sample.env1 (Sample.sourceWith Sample.lp_ok)
                    "cb_deleted" Sample.indexWithProfile)).
    reflexivity.
  - apply (proj1 (proj2 (proj2 (missing_source_entity Sample.env1
                                  (Sample.sourceWith Sample.lp_ok)
                                  "m_food_1" Sample.indexWithProfile)))).
    intros m H. injection H as <-. reflexivity.
Defined.

(** C7, the case the claim gets wrong: user [u1] has no customer-type rows
    left, and the rebuild deletes the profile row the index still held. *)
Lemma user_rebuild_without_rows_deletes_profiles :
  filter (fun r => Schema.ct_userId r =? "u1")
         (Schema.customerTypes (Sample.sourceWith Sample.lp_ok)) = []
  /\ Recompute.rebuildUserMerchantProfilesForUser
       (Sample.sourceWith Sample.lp_ok) "u1" Sample.indexWithProfile
     = (Js.Normal tt, Sample.emptyIndex)
  /\ Sample.indexWithProfile <> Sample.emptyIndex.
Proof.
  repeat split; try reflexivity. discriminate.
Qed.

Example missing_source_entity_samples :
  Recompute.rebuildCashbackIndex Sample.env1 (Sample.sourceWith Sample.lp_ok)
    "cb_deleted" Sample.indexWithProfile = (Js.Normal tt, Sample.indexWithProfile)
  /\ Recompute.rebuildExclusiveIndex Sample.env1 (Sample.sourceWith Sample.lp_ok)
       "ex_deleted" Sample.indexWithProfile = (Js.Normal tt, Sample.indexWithProfile)
  /\ Recompute.rebuildLoyaltyIndexByMerchant Sample.env1 (Sample.sourceWith Sample.lp_ok)
       "m_food_1" Sample.indexWithProfile = (Js.Normal tt, Sample.indexWithProfile)
  /\ Recompute.rebuildLoyaltyIndexByMerchant Sample.env1 (Sample.sourceWith Sample.lp_ok)
       "m_deleted" Sample.indexWithProfile = (Js.Normal tt, Sample.indexWithProfile).
Proof. repeat split. Qed.

(** ** Recompute: running an operation again *)

Section RunAgain.

Import Schema.

Lemma childOnly_ret {A : Type} (a : A) : childOnly (Recompute.ret a).
Proof. intros t db. reflexivity. Qed.












Lemma filter_idem {A : Type} (p : A -> bool) (l : list A) :
  filter p (filter p l) = filter p l.
Proof.
  induction l as [|x l IH]; simpl; [reflexivity|].
  destruct (p x) eqn:Hx; simpl; [rewrite Hx|]; now rewrite ?IH.
Qed.

Lemma filter_none {A : Type} (p : A -> bool) (l : list A) :
  (forall x, In x l -> p x = false) -> filter p l = [].
Proof.
  induction l as [|x l IH]; simpl; intro H; [reflexivity|].
  rewrite (H x (or_introl eq_refl)). apply IH. intros y Hy. apply H. now right.
Qed.




End RunAgain.

Section RunAgainOperations.

Import Schema.









End RunAgainOperations.

Section RunAgainTheorem.

Import Schema.








(** The index the sample cashback configuration produces, and the second
    run on it. *)
Example rebuildCashbackIndex_sample :
  let src := Sample.sourceWith Sample.lp_ok in
  let r1 := Recompute.rebuildCashbackIndex Sample.env1 src "cb_all_10" Sample.emptyIndex in
  let r2 := Recompute.rebuildCashbackIndex Sample.env2 src "cb_all_10" (snd r1) in
  r1 = (Js.Normal tt,
        mkIndex
          [mkOfferIndex "oi_1" CASHBACK "m_food_1" (Some "cb_all_10") None None
             true true None false None None (Some 1000) 1000]
          [mkOfferIndexCustomerType "oi_1" "All"]
          [mkOfferIndexOutlet "oi_1" "o_food_1"] [] [])
  /\ r2 = (Js.Normal tt,
           mkIndex
             [mkOfferIndex "oi_1" CASHBACK "m_food_1" (Some "cb_all_10") None None
                true true None false None None (Some 1000) 2000]
             [mkOfferIndexCustomerType "oi_1" "All"]
             [mkOfferIndexOutlet "oi_1" "o_food_1"] [] []).
Proof. vm_compute. split; reflexivity. Qed.

End RunAgainTheorem.

(** ** The cursor *)

(** *** base64 *)

Ltac divmod_lia := zify; Z.to_euclidean_division_equations; lia.

Lemma code_lt_256 (c : ascii) : (Js.code c < 256)%N.
Proof. apply N_ascii_bounded. Qed.

Lemma chr_code (c : ascii) : Js.chr (Js.code c) = c.
Proof. apply ascii_N_embedding. Qed.

(** Every six-bit value is written as a character that reads back as that value. *)
Lemma unbase64_base64Char (v : N) :
  (v < 64)%N ->
  Js.unbase64 (Js.base64Char v) = Some v /\ Ascii.eqb (Js.base64Char v) "=" = false.
Proof.
  intro H.
  assert (Hall : forallb (fun n => match Js.unbase64 (Js.base64Char n) with
                                   | Some m => N.eqb m n
                                   | None => false
                                   end && negb (Ascii.eqb (Js.base64Char n) "="))
                         (map N.of_nat (seq 0 64)) = true) by (vm_compute; reflexivity).
  rewrite forallb_forall in Hall.
  specialize (Hall v).
  assert (Hin : In v (map N.of_nat (seq 0 64))).
  { apply in_map_iff. exists (N.to_nat v). split; [apply N2Nat.id|].
    apply in_seq. lia. }
  specialize (Hall Hin). apply andb_prop in Hall. destruct Hall as [H1 H2].
  destruct (Js.unbase64 (Js.base64Char v)) as [m|]; [|discriminate].
  apply N.eqb_eq in H1. subst m. split; [reflexivity|].
  now apply negb_true_iff.
Qed.

Lemma sextets_base64Char (v : N) (r : string) :
  (v < 64)%N -> Js.sextets (String (Js.base64Char v) r) = v :: Js.sextets r.
Proof.
  intro H. destruct (unbase64_base64Char v H) as [H1 H2].
  simpl. now rewrite H2, H1.
Qed.

(** Induction over a byte string three bytes at a time. *)
Lemma string_triples_ind (P : string -> Prop) :
  P "" ->
  (forall a, P (String a "")) ->
  (forall a b, P (String a (String b ""))) ->
  (forall a b c r, P r -> P (String a (String b (String c r)))) ->
  forall s, P s.
Proof.
  intros H0 H1 H2 H3.
  assert (H : forall s, P s /\ (forall a, P (String a s)) /\ (forall a b, P (String a (String b s)))).
  { induction s as [|c r [IH0 [IH1 IH2]]].
    - repeat split; auto.
    - repeat split; auto. }
  intro s. apply H.
Qed.

Lemma chr_of_code (n : N) (c : ascii) : n = Js.code c -> Js.chr n = c.
Proof. intros ->. apply chr_code. Qed.

Lemma base64_round_trip (bs : string) : Js.base64Decode (Js.base64Encode bs) = bs.
Proof.
  unfold Js.base64Decode.
  induction bs as [|a|a b|a b c r IH] using string_triples_ind.
  - reflexivity.
  - pose proof (code_lt_256 a).
    cbn [Js.base64Encode]. do 2 (rewrite sextets_base64Char by divmod_lia).
    cbn [Js.sextets Ascii.eqb Bool.eqb Js.packSextets].
    f_equal. apply chr_of_code. divmod_lia.
  - pose proof (code_lt_256 a). pose proof (code_lt_256 b).
    cbn [Js.base64Encode]. do 3 (rewrite sextets_base64Char by divmod_lia).
    cbn [Js.sextets Ascii.eqb Bool.eqb Js.packSextets].
    f_equal; [|f_equal]; apply chr_of_code; divmod_lia.
  - pose proof (code_lt_256 a). pose proof (code_lt_256 b). pose proof (code_lt_256 c).
    cbn [Js.base64Encode]. do 4 (rewrite sextets_base64Char by divmod_lia).
    cbn [Js.packSextets]. rewrite IH.
    f_equal; [|f_equal; [|f_equal]]; apply chr_of_code; divmod_lia.
Qed.

(** *** Text of a printed integer *)

Lemma everyChar_app (p : ascii -> bool) (s t : string) :
  everyChar p (s ++ t)%string = everyChar p s && everyChar p t.
Proof.
  induction s as [|c s IH]; simpl; [reflexivity|].
  now rewrite IH, andb_assoc.
Qed.

Lemma everyChar_impl (p q : ascii -> bool) (s : string) :
  (forall c, p c = true -> q c = true) -> everyChar p s = true -> everyChar q s = true.
Proof.
  intro H. induction s as [|c s IH]; simpl; [reflexivity|].
  intro Hs. apply andb_prop in Hs. destruct Hs as [Hc Hs].
  now rewrite (H c Hc), IH.
Qed.

Lemma digits_of_uint (u : Decimal.uint) :
  everyChar Js.isDecimalDigit (DecimalString.NilEmpty.string_of_uint u) = true.
Proof. induction u; simpl; auto. Qed.

Lemma span_digits_of_uint (u : Decimal.uint) :
  Js.span Js.isDecimalDigit (DecimalString.NilEmpty.string_of_uint u)
  = (DecimalString.NilEmpty.string_of_uint u, "").
Proof.
  induction u; simpl; try reflexivity;
    change (Js.isDecimalDigit _) with true; cbv iota; now rewrite IHu.
Qed.

Lemma string_app_nil_r (s : string) : (s ++ "")%string = s.
Proof. induction s as [|c s IH]; simpl; [reflexivity|now rewrite IH]. Qed.

Lemma digitsValue_of_uint (u : Decimal.uint) :
  Js.digitsValue (DecimalString.NilEmpty.string_of_uint u) = Z.of_uint u.
Proof. unfold Js.digitsValue. now rewrite DecimalString.NilEmpty.usu. Qed.

(** A non-empty run of digits, read as an unsigned decimal literal. *)
Lemma strUnsignedDecimalLiteral_of_uint (u : Decimal.uint) :
  u <> Decimal.Nil ->
  Js.strUnsignedDecimalLiteral (DecimalString.NilEmpty.string_of_uint u)
  = Js.roundNumber (inject_Z (Z.of_uint u)).
Proof.
  intros Hnil. unfold Js.strUnsignedDecimalLiteral.
  assert (Hinf : String.eqb (DecimalString.NilEmpty.string_of_uint u) "Infinity" = false)
    by (destruct u; [congruence|reflexivity..]).
  rewrite Hinf, span_digits_of_uint.
  cbv iota beta. rewrite span_digits_of_uint || idtac.
  destruct (DecimalString.NilEmpty.string_of_uint u) eqn:Hs.
  - destruct u; [congruence|discriminate..].
  - rewrite <- Hs. cbn [Js.exponentPart String.length]. rewrite string_app_nil_r, digitsValue_of_uint.
    unfold Js.scale10. simpl. now rewrite Z.mul_1_r.
Qed.

(** *** [trim] on text without blanks at either end *)

Lemma plain_not_ws (c : ascii) :
  plain c = true ->
  Js.isWhiteSpace1 c = false
  /\ (forall d, Js.isWhiteSpace2 c d = false)
  /\ (forall d, Js.isWhiteSpace2 d c = false)
  /\ (forall d e, Js.isWhiteSpace3 c d e = false)
  /\ (forall d e, Js.isWhiteSpace3 e d c = false).
Proof.
  unfold plain. intro H. apply andb_prop in H. destruct H as [Hlt Hws].
  apply N.ltb_lt in Hlt. apply negb_true_iff in Hws.
  split; [exact Hws|].
  unfold Js.isWhiteSpace2, Js.isWhiteSpace3.
  repeat split; intros;
    repeat match goal with
           | |- context [(?a =? ?b)%N] =>
               lazymatch a with
               | Js.code c =>
                   replace (a =? b)%N with false by (symmetry; apply N.eqb_neq; lia)
               end
           | |- context [(?a <=? Js.code c)%N] =>
               replace (a <=? Js.code c)%N with false by (symmetry; apply N.leb_gt; lia)
           end;
    rewrite ?andb_false_r, ?andb_false_l, ?orb_false_r; try reflexivity.
Qed.

Lemma trimStart_plain (c : ascii) (r : list ascii) :
  plain c = true -> Js.trimStart (c :: r) = c :: r.
Proof.
  intro H. destruct (plain_not_ws c H) as [H1 [H2 [_ [H3 _]]]].
  cbn [Js.trimStart]. rewrite H1.
  destruct r as [|c1 r1]; [reflexivity|]. rewrite H2.
  destruct r1 as [|c2 r2]; [reflexivity|]. now rewrite H3.
Qed.

Lemma trimStartRev_plain (c : ascii) (r : list ascii) :
  plain c = true -> Js.trimStartRev (c :: r) = c :: r.
Proof.
  intro H. destruct (plain_not_ws c H) as [H1 [_ [H2 [_ H3]]]].
  cbn [Js.trimStartRev]. rewrite H1.
  destruct r as [|c1 r1]; [reflexivity|]. rewrite H2.
  destruct r1 as [|c2 r2]; [reflexivity|]. now rewrite H3.
Qed.

Lemma everyChar_Forall (p : ascii -> bool) (s : string) :
  everyChar p s = true -> Forall (fun c => p c = true) (list_ascii_of_string s).
Proof.
  induction s as [|c s IH]; simpl; intro H; [constructor|].
  apply andb_prop in H. destruct H. constructor; auto.
Qed.

Lemma trim_plain (s : string) : everyChar plain s = true -> Js.trim s = s.
Proof.
  intro H. apply everyChar_Forall in H. unfold Js.trim.
  destruct (list_ascii_of_string s) as [|c r] eqn:Hl.
  - simpl. rewrite <- (string_of_list_ascii_of_string s), Hl. reflexivity.
  - rewrite trimStart_plain by (now inversion H).
    assert (Hrev : Forall (fun c => plain c = true) (rev (c :: r)))
      by (now apply Forall_rev).
    destruct (rev (c :: r)) as [|d t] eqn:Hr.
    + apply (f_equal (@rev ascii)) in Hr. rewrite rev_involutive in Hr. discriminate.
    + rewrite trimStartRev_plain by (now inversion Hrev).
      rewrite <- Hr, rev_involutive, <- Hl. apply string_of_list_ascii_of_string.
Qed.

(** *** The text of a number *)

Lemma numeralChar_plain (c : ascii) : numeralChar c = true -> plain c = true.
Proof.
  destruct c as [[] [] [] [] [] [] [] []]; vm_compute; intro H;
    first [reflexivity | discriminate H].
Qed.

Lemma numeralChar_noColon (c : ascii) :
  numeralChar c = true -> negb (Ascii.eqb c ":") = true.
Proof.
  destruct c as [[] [] [] [] [] [] [] []]; vm_compute; intro H;
    first [reflexivity | discriminate H].
Qed.

Lemma digit_numeralChar (c : ascii) : Js.isDecimalDigit c = true -> numeralChar c = true.
Proof. intro H. unfold numeralChar. now rewrite H. Qed.

(** The digits of a non-negative integer are those of a numeral without
    leading zeros that denotes it. *)
Lemma digits_spec (z : Z) :
  exists u, u <> Decimal.Nil
            /\ Js.digits z = DecimalString.NilEmpty.string_of_uint u
            /\ Z.of_uint u = Z.max 0 z.
Proof.
  unfold Js.digits. destruct z as [|p|p]; cbn [Z.to_N N.to_uint].
  - exists Decimal.zero. split; [discriminate|]. split; reflexivity.
  - exists (Pos.to_uint p). pose proof (DecimalPos.Unsigned.to_uint_nonnil p) as Hn.
    split; [exact Hn|]. split.
    + destruct (Pos.to_uint p); [congruence|reflexivity..].
    + unfold Z.of_uint. rewrite DecimalPos.Unsigned.of_to. lia.
  - exists Decimal.zero. split; [discriminate|]. split; reflexivity.
Qed.

Lemma digits_chars (z : Z) : everyChar Js.isDecimalDigit (Js.digits z) = true.
Proof.
  destruct (digits_spec z) as (u & _ & -> & _). apply digits_of_uint.
Qed.

Lemma digits_nonempty (z : Z) : Js.digits z <> "".
Proof.
  destruct (digits_spec z) as (u & Hn & -> & _).
  destruct u; [congruence|discriminate..].
Qed.

Lemma digitsValue_digits (z : Z) : 0 <= z -> Js.digitsValue (Js.digits z) = z.
Proof.
  intro Hz. destruct (digits_spec z) as (u & _ & -> & Hv).
  rewrite digitsValue_of_uint. lia.
Qed.

Lemma span_app (p : ascii -> bool) (s t : string) :
  everyChar p s = true ->
  match t with
  | EmptyString => True
  | String c _ => p c = false
  end ->
  Js.span p (s ++ t)%string = (s, t).
Proof.
  intros Hs Ht. induction s as [|c s IH]; cbn [String.append Js.span].
  - destruct t as [|c t']; [reflexivity|]. cbn [Js.span]. now rewrite Ht.
  - cbn [everyChar] in Hs. apply andb_prop in Hs. destruct Hs as [Hc Hs].
    rewrite Hc, (IH Hs). reflexivity.
Qed.

Lemma span_digits (z : Z) : Js.span Js.isDecimalDigit (Js.digits z) = (Js.digits z, "").
Proof.
  rewrite <- (string_app_nil_r (Js.digits z)) at 1.
  apply span_app; [apply digits_chars | exact I].
Qed.

(** The digits of a non-negative integer, read as an unsigned literal. *)
Lemma strUnsignedDecimalLiteral_digits (v : Z) :
  0 <= v -> Js.strUnsignedDecimalLiteral (Js.digits v) = Js.roundNumber (inject_Z v).
Proof.
  intro Hv. destruct (digits_spec v) as (u & Hn & -> & Hu).
  rewrite strUnsignedDecimalLiteral_of_uint by exact Hn.
  rewrite Hu. f_equal. f_equal. lia.
Qed.

(** An exponent part written with [e+] and the digits of [x]. *)
Lemma exponentPart_digits (x : Z) :
  0 <= x -> Js.exponentPart (String "e" (String "+" (Js.digits x))) = Some x.
Proof.
  intro Hx. cbn [Js.exponentPart]. change (Ascii.eqb "e" "e") with true. cbn [orb].
  rewrite span_digits.
  destruct (Js.digits x) as [|c r] eqn:E; [now apply digits_nonempty in E|].
  rewrite <- E. now rewrite digitsValue_digits.
Qed.

Lemma digit_not_I (d : ascii) : Js.isDecimalDigit d = true -> Ascii.eqb d "I" = false.
Proof.
  destruct d as [[] [] [] [] [] [] [] []]; vm_compute; intro H;
    first [reflexivity | discriminate H].
Qed.

(** The text with an exponent, read back. *)
Lemma strUnsignedDecimalLiteral_exponent (s x : Z) :
  0 <= s -> 0 <= x ->
  Js.strUnsignedDecimalLiteral
    match Js.digits s with
    | String d EmptyString => String d ("e+" ++ Js.digits x)%string
    | String d r => String d ("." ++ r ++ "e+" ++ Js.digits x)%string
    | EmptyString => EmptyString
    end
  = Js.roundNumber
      (Js.scale10 s (x - (Z.of_nat (String.length (Js.digits s)) - 1))).
Proof.
  intros Hs Hx.
  pose proof (digits_chars s) as Hc. pose proof (digitsValue_digits s Hs) as Hv.
  destruct (Js.digits s) as [|d r] eqn:E; [now apply digits_nonempty in E|].
  cbn [everyChar] in Hc. apply andb_prop in Hc. destruct Hc as [Hd Hr].
  unfold Js.strUnsignedDecimalLiteral.
  destruct r as [|c r'].
  - cbn [String.eqb]. rewrite (digit_not_I d Hd). cbn [andb].
    change (String d ("e+" ++ Js.digits x)%string)
      with (String d "" ++ String "e" (String "+" (Js.digits x)))%string.
    rewrite span_app; [|cbn [everyChar]; now rewrite Hd|reflexivity].
    rewrite exponentPart_digits by exact Hx.
    cbn [String.append String.length]. rewrite Hv.
    replace (x - Z.of_nat 0) with (x - (Z.of_nat 1 - 1)) by lia. reflexivity.
  - cbn [String.eqb]. rewrite (digit_not_I d Hd). cbn [andb].
    change (String d ("." ++ String c r' ++ "e+" ++ Js.digits x)%string)
      with (String d "" ++ String "." (String c r' ++ String "e" (String "+" (Js.digits x))))%string.
    rewrite span_app; [|cbn [everyChar]; now rewrite Hd|reflexivity].
    rewrite span_app; [|exact Hr|reflexivity].
    rewrite exponentPart_digits by exact Hx.
    cbn [String.append]. rewrite Hv.
    replace (x - Z.of_nat (String.length (String c r')))
      with (x - (Z.of_nat (String.length (String d (String c r'))) - 1))
      by (cbn [String.length]; lia).
    reflexivity.
Qed.

Lemma rounds_spec (v z : Z) :
  Js.rounds v z = true -> Js.roundNumber (inject_Z v) = Js.Finite (inject_Z z).
Proof.
  unfold Js.rounds. destruct (Js.roundNumber (inject_Z v)) as [| |[a d]|]; try discriminate.
  destruct d; try discriminate. intro H. apply Z.eqb_eq in H. now subst a.
Qed.

(** What the search for the shortest text returns: a non-negative [s] and
    exponent whose product rounds to [z]. *)
Lemma shortest_spec (z n0 : Z) (fuel : nat) (k : Z) :
  0 < z -> Js.isInteger z -> Z.of_nat fuel <= n0 - k ->
  0 <= fst (Js.shortest z n0 k fuel)
  /\ 0 <= snd (Js.shortest z n0 k fuel)
  /\ Js.roundNumber (inject_Z (fst (Js.shortest z n0 k fuel)
                               * 10 ^ snd (Js.shortest z n0 k fuel)))
     = Js.Finite (inject_Z z).
Proof.
  intros Hz Hint. revert k. induction fuel as [|fuel IH]; intros k Hk.
  - cbn [Js.shortest fst snd]. split; [lia|]. split; [lia|].
    rewrite Z.pow_0_r, Z.mul_1_r. exact Hint.
  - cbn [Js.shortest].
    destruct (find _ (Js.neighbours z n0 k)) as [c|] eqn:Hf.
    + apply find_some in Hf. destruct Hf as [Hin Hr]. apply rounds_spec in Hr.
      assert (Hp : 0 < 10 ^ (n0 - k)) by (apply Z.pow_pos_nonneg; lia).
      assert (Hlo : 0 <= z / 10 ^ (n0 - k)) by (apply Z.div_pos; lia).
      assert (Hten : 0 <= 10 ^ (k - 1)) by (apply Z.pow_nonneg; lia).
      assert (Hc : 0 <= fst c /\ 0 <= snd c).
      { unfold Js.neighbours in Hin.
        destruct (Z.ltb _ _); destruct (Z.leb _ _);
          simpl in Hin; destruct Hin as [<-|[<-|[]]]; simpl; lia. }
      split; [apply Hc|]. split; [apply Hc | exact Hr].
    + apply IH. lia.
Qed.

Lemma NumberToStringPositive_chars (z : Z) :
  everyChar numeralChar (Js.NumberToStringPositive z) = true.
Proof.
  assert (Hd : forall v, everyChar numeralChar (Js.digits v) = true).
  { intro v. eapply everyChar_impl; [apply digit_numeralChar | apply digits_chars]. }
  unfold Js.NumberToStringPositive.
  destruct (Js.shortest _ _ _ _) as [s e].
  destruct (Z.leb _ 21); [apply Hd|].
  pose proof (Hd s) as Hs.
  destruct (Js.digits s) as [|d [|c r]]; [reflexivity| |].
  - cbn [everyChar] in *. apply andb_prop in Hs. destruct Hs as [H1 _].
    rewrite H1. cbn [String.append everyChar]. now rewrite Hd.
  - assert (H1 : numeralChar d = true)
      by (cbn [everyChar] in Hs; apply andb_prop in Hs; tauto).
    assert (H2 : everyChar numeralChar (String c r) = true)
      by (cbn [everyChar] in Hs; apply andb_prop in Hs; destruct Hs as [_ Hs]; exact Hs).
    change (String d ("." ++ String c r ++ "e+" ++ Js.digits ?x)%string)
      with (String d (String "." (String c r ++ ("e+" ++ Js.digits x)))%string).
    cbn [everyChar]. rewrite H1. cbn [andb].
    change (numeralChar "." && ?b) with b.
    rewrite everyChar_app, H2. cbn [String.append everyChar andb]. now rewrite Hd.
Qed.

Lemma NumberToString_chars (z : Z) : everyChar numeralChar (Js.NumberToString z) = true.
Proof.
  destruct z as [|p|p]; cbn [Js.NumberToString].
  - reflexivity.
  - apply NumberToStringPositive_chars.
  - cbn [everyChar]. now rewrite NumberToStringPositive_chars.
Qed.

Lemma NumberToString_noColon (z : Z) : noColon (Js.NumberToString z) = true.
Proof.
  eapply everyChar_impl; [|apply NumberToString_chars]. apply numeralChar_noColon.
Qed.

(** *** Reading back the text of a number *)

Lemma strUnsignedDecimalLiteral_NumberToStringPositive (z : Z) :
  0 < z -> Js.isInteger z ->
  Js.strUnsignedDecimalLiteral (Js.NumberToStringPositive z) = Js.Finite (inject_Z z).
Proof.
  intros Hz Hint. unfold Js.NumberToStringPositive.
  set (n0 := Z.of_nat (String.length (Js.digits z))).
  assert (Hn0 : 1 <= n0).
  { subst n0. pose proof (digits_nonempty z) as Hne.
    destruct (Js.digits z); [congruence|]. cbn [String.length]. lia. }
  pose proof (shortest_spec z n0 (Z.to_nat (n0 - 1)) 1 Hz Hint) as Hsp.
  destruct (Js.shortest z n0 1 (Z.to_nat (n0 - 1))) as [s e].
  cbn [fst snd] in Hsp. destruct Hsp as (Hs & He & Hr); [lia|].
  destruct (Z.leb_spec (e + Z.of_nat (String.length (Js.digits s))) 21) as [Hle|Hgt].
  - rewrite strUnsignedDecimalLiteral_digits; [exact Hr|].
    apply Z.mul_nonneg_nonneg; [exact Hs | apply Z.pow_nonneg; lia].
  - rewrite strUnsignedDecimalLiteral_exponent by lia.
    replace (e + Z.of_nat (String.length (Js.digits s)) - 1
             - (Z.of_nat (String.length (Js.digits s)) - 1)) with e by lia.
    unfold Js.scale10. destruct (Z.leb_spec 0 e); [exact Hr | lia].
Qed.

Lemma numeralChar_radix (c : ascii) :
  numeralChar c = true ->
  Ascii.eqb c "b" || Ascii.eqb c "B" = false
  /\ Ascii.eqb c "o" || Ascii.eqb c "O" = false
  /\ Ascii.eqb c "x" || Ascii.eqb c "X" = false.
Proof.
  destruct c as [[] [] [] [] [] [] [] []]; vm_compute; intro H;
    first [discriminate H | repeat split].
Qed.

Lemma nonDecimal_numeral (s : string) :
  everyChar numeralChar s = true -> Js.nonDecimalIntegerLiteral s = None.
Proof.
  intro H. unfold Js.nonDecimalIntegerLiteral.
  destruct s as [|a [|p [|d ds]]]; try reflexivity;
    try (destruct a as [[] [] [] [] [] [] [] []]; reflexivity).
  cbn [everyChar] in H. apply andb_prop in H. destruct H as [_ H].
  apply andb_prop in H. destruct H as [Hp _].
  destruct (numeralChar_radix p Hp) as (H1 & H2 & H3). rewrite H1, H2, H3.
  destruct a as [[] [] [] [] [] [] [] []]; reflexivity.
Qed.

Lemma digit_not_sign (d : ascii) (t : string) :
  Js.isDecimalDigit d = true ->
  Js.strDecimalLiteral (String d t) = Js.strUnsignedDecimalLiteral (String d t).
Proof.
  destruct d as [[] [] [] [] [] [] [] []]; vm_compute (Js.isDecimalDigit _); intro H;
    first [discriminate H | reflexivity].
Qed.

Lemma NumberToStringPositive_head (z : Z) :
  0 < z -> Js.isInteger z ->
  exists d t, Js.NumberToStringPositive z = String d t /\ Js.isDecimalDigit d = true.
Proof.
  intros Hz Hint.
  pose proof (strUnsignedDecimalLiteral_NumberToStringPositive z Hz Hint) as Hs.
  unfold Js.NumberToStringPositive in *.
  destruct (Js.shortest _ _ _ _) as [s e].
  destruct (Z.leb _ 21).
  - pose proof (digits_chars (s * 10 ^ e)) as Hc.
    destruct (Js.digits (s * 10 ^ e)) as [|d t]; [discriminate Hs|].
    cbn [everyChar] in Hc. apply andb_prop in Hc. exists d, t. tauto.
  - pose proof (digits_chars s) as Hc.
    destruct (Js.digits s) as [|d [|c r]]; [discriminate Hs| |];
      cbn [everyChar] in Hc; apply andb_prop in Hc; destruct Hc as [Hd _];
      eexists; eexists; (split; [reflexivity | exact Hd]).
Qed.

Lemma isInteger_opp (p : positive) : Js.isInteger (Z.neg p) -> Js.isInteger (Z.pos p).
Proof.
  unfold Js.isInteger, Js.roundNumber. cbn [inject_Z Qnum Qden].
  destruct (Js.roundPositive (Z.pos p) 1) as [| |[a d]|]; cbn [Js.negate]; try discriminate.
  intro H. injection H as Ha Hd. f_equal. unfold inject_Z. f_equal; [lia | exact Hd].
Qed.

(** The text of an integer-valued number reads back as the number. *)
Lemma StringToNumber_NumberToString (z : Z) :
  Js.isInteger z -> Js.StringToNumber (Js.NumberToString z) = Js.Finite (inject_Z z).
Proof.
  intro Hint. unfold Js.StringToNumber.
  rewrite trim_plain
    by (eapply everyChar_impl; [apply numeralChar_plain | apply NumberToString_chars]).
  pose proof (NumberToString_chars z) as Hc.
  rewrite (nonDecimal_numeral _ Hc).
  destruct z as [|p|p]; cbn [Js.NumberToString] in *.
  - reflexivity.
  - destruct (NumberToStringPositive_head (Z.pos p)) as (d & t & E & Hd); [lia|exact Hint|].
    pose proof (strUnsignedDecimalLiteral_NumberToStringPositive (Z.pos p) eq_refl Hint) as Hs.
    rewrite E in *. rewrite digit_not_sign by exact Hd. exact Hs.
  - apply isInteger_opp in Hint. cbn [Z.opp].
    change (Js.strDecimalLiteral (String "-" ?t))
      with (Js.negate (Js.strUnsignedDecimalLiteral t)).
    rewrite (strUnsignedDecimalLiteral_NumberToStringPositive (Z.pos p) eq_refl Hint).
    reflexivity.
Qed.

(** *** The utf8 decoding of text that starts with one-byte characters *)

Lemma utf8ToString_ascii (c : ascii) (r : string) :
  (Js.code c < 128)%N ->
  Js.utf8ToString (String c r) = String c (Js.utf8ToString r).
Proof.
  intro H. cbn [Js.utf8ToString].
  replace (Js.inRange 0 127 c) with true; [reflexivity|].
  unfold Js.inRange. symmetry. apply andb_true_intro.
  split; [apply N.leb_le|apply N.leb_le]; lia.
Qed.

Lemma plain_ascii (c : ascii) : plain c = true -> (Js.code c < 128)%N.
Proof.
  unfold plain. intro H. apply andb_prop in H. destruct H as [H _].
  now apply N.ltb_lt.
Qed.

Lemma utf8ToString_app_plain (s t : string) :
  everyChar plain s = true ->
  Js.utf8ToString (s ++ t)%string = (s ++ Js.utf8ToString t)%string.
Proof.
  induction s as [|c s IH]; intro H; [reflexivity|].
  cbn [everyChar] in H. apply andb_prop in H. destruct H as [Hc Hs].
  cbn [String.append].
  rewrite utf8ToString_ascii by (now apply plain_ascii).
  now rewrite IH.
Qed.

(** *** [split] *)

Lemma split_noColon (s : string) : noColon s = true -> Js.split ":" s = [s].
Proof.
  induction s as [|c s IH]; simpl; intro H; [reflexivity|].
  apply andb_prop in H. destruct H as [Hc Hs].
  apply negb_true_iff in Hc. rewrite Hc, (IH Hs). reflexivity.
Qed.

Lemma split_at_first_colon (s t : string) :
  noColon s = true ->
  Js.split ":" (s ++ String ":" t)%string = s :: Js.split ":" t.
Proof.
  induction s as [|c s IH]; simpl; intro H; [reflexivity|].
  apply andb_prop in H. destruct H as [Hc Hs].
  apply negb_true_iff in Hc. rewrite Hc, (IH Hs). reflexivity.
Qed.

(** *** The round trip *)

Lemma decodeCursor_encodeCursor (sortKey : Z) (outletId : string) :
  Js.isInteger sortKey ->
  outletId <> "" ->
  noColon outletId = true ->
  Js.wellFormed outletId ->
  Filters.decodeCursor (Some (Filters.encodeCursor sortKey outletId))
  = Some (Filters.mkCursor (inject_Z sortKey) outletId).
Proof.
  intros Hz Hne Hcolon Hwf.
  unfold Filters.decodeCursor.
  destruct (Filters.encodeCursor sortKey outletId) as [|e0 e] eqn:Henc.
  - exfalso. unfold Filters.encodeCursor, Js.utf8Bytes in Henc.
    apply (f_equal Js.base64Decode) in Henc. rewrite base64_round_trip in Henc.
    destruct (Js.NumberToString sortKey) eqn:Hn; [|discriminate].
    pose proof (StringToNumber_NumberToString sortKey Hz) as Hs.
    rewrite Hn in Hs. discriminate.
  - rewrite <- Henc. unfold Filters.encodeCursor, Js.utf8Bytes.
    rewrite base64_round_trip.
    rewrite utf8ToString_app_plain
      by (eapply everyChar_impl; [apply numeralChar_plain|apply NumberToString_chars]).
    change (":" ++ outletId)%string with (String ":" outletId).
    rewrite utf8ToString_ascii by (vm_compute; reflexivity).
    rewrite Hwf.
    rewrite split_at_first_colon by apply NumberToString_noColon.
    rewrite (split_noColon outletId Hcolon).
    cbn [nth nth_error].
    rewrite (StringToNumber_NumberToString sortKey Hz).
    destruct outletId; [congruence|reflexivity].
Qed.

(** *** A request whose cursor does not decode *)

Lemma normalizeTake_bounds (take : option Z) : 1 <= Filters.normalizeTake take <= 50.
Proof. unfold Filters.normalizeTake. destruct take; lia. Qed.

Lemma take_plus_one (input : Resolver.OffersInput) :
  Z.to_nat (Filters.normalizeTake (Resolver.take input) + 1) = S (pageSize input).
Proof.
  unfold pageSize. pose proof (normalizeTake_bounds (Resolver.take input)). lia.
Qed.

(** The statement without a cursor. *)
Lemma offersQuery_eligibleRows src db userId now (i : Resolver.OffersInput) :
  Resolver.offersQuery src db userId now
    (option_map Js.trim (Resolver.category i))
    (option_map Js.trim (Resolver.search i))
    match Resolver.percentage i with Some p => Resolver.minBps p | None => None end
    match Resolver.percentage i with Some p => Resolver.maxBps p | None => None end
    None (Filters.normalizeTake (Resolver.take i))
  = Js.Normal (firstn (S (pageSize i)) (eligibleRows src db userId now i)).
Proof.
  unfold Resolver.offersQuery, eligibleRows. now rewrite take_plus_one.
Qed.

(** A request that finds no client, or a cursor in its input, neither reads
    nor writes the cache; if the cursor does not decode, the answer is the
    result built from the statement without cursor, and with a cursor that
    decodes the statement is refused. *)
Lemma offersResolver_no_cache (J : Resolver.Json) src db redis userId now
      (input : option Resolver.OffersInput) :
  redis = None \/ Resolver.truthy (Resolver.cursor (inputOf input)) <> None ->
  Resolver.offersResolver J src db redis userId now input
  = (match Filters.decodeCursor (Resolver.cursor (inputOf input)) with
     | Some _ => Js.Throw Js.QueryError
     | None => Js.Normal (Resolver.Built (pageOf src db userId now (inputOf input)))
     end, redis).
Proof.
  intro H. unfold Resolver.offersResolver. fold (inputOf input).
  set (i := inputOf input) in *.
  assert (Hkey : match redis, Resolver.truthy (Resolver.cursor i) with
                 | Some _, None =>
                     Some (Resolver.cacheKeyOf userId
                             (Filters.normalizeTake (Resolver.take i)) i)
                 | _, _ => None
                 end = None).
  { destruct H as [->|H]; [reflexivity|].
    destruct redis; [|reflexivity]. now destruct (Resolver.truthy (Resolver.cursor i)). }
  rewrite Hkey.
  destruct (Filters.decodeCursor (Resolver.cursor i)) as [c|].
  - reflexivity.
  - rewrite offersQuery_eligibleRows. reflexivity.
Qed.

(** A result the resolver built is the one the statement without cursor
    gives, and the cursor of the request, if any, did not decode. *)
Lemma offersResolver_built (J : Resolver.Json) src db redis userId now
      (input : option Resolver.OffersInput) (res : Resolver.Connection) :
  fst (Resolver.offersResolver J src db redis userId now input)
  = Js.Normal (Resolver.Built res) ->
  res = pageOf src db userId now (inputOf input)
  /\ Filters.decodeCursor (Resolver.cursor (inputOf input)) = None.
Proof.
  unfold Resolver.offersResolver. fold (inputOf input).
  set (i := inputOf input).
  destruct (match _ with Some k => _ | None => None end) as [text|].
  - cbn [fst]. destruct (Resolver.parse J text); discriminate.
  - destruct (Filters.decodeCursor (Resolver.cursor i)) as [c|].
    + discriminate.
    + rewrite offersQuery_eligibleRows. cbn [fst]. intro H. injection H as <-.
      split; reflexivity.
Qed.

(** C3 (as amended): [decodeCursor (encodeCursor sortKey outletId)] is the
    pair again for every integer-valued number [sortKey] and every
    well-formed [outletId] that is not empty and holds no colon.  On every
    input [decodeCursor] yields either nothing or a pair with a non-empty
    outlet id.  A request whose cursor decodes to nothing is never an
    error: without a cache it is served exactly as the request without
    cursor, with the result built from the statement without cursor; with a
    cache, an empty cursor is served exactly as none, and any other one is
    served with that same result while the cache is neither read nor
    written. *)
Theorem cursor_round_trip :
  (forall (sortKey : Z) (outletId : string),
      Js.isInteger sortKey ->
      outletId <> "" ->
      noColon outletId = true ->
      Js.wellFormed outletId ->
      Filters.decodeCursor (Some (Filters.encodeCursor sortKey outletId))
      = Some (Filters.mkCursor (inject_Z sortKey) outletId))
  /\ (forall input : option string,
         Filters.decodeCursor input = None
         \/ exists q id, id <> ""
                         /\ Filters.decodeCursor input = Some (Filters.mkCursor q id))
  /\ (forall (J : Resolver.Json) src db redis userId now
             search category percentage take cursor,
         Filters.decodeCursor cursor = None ->
         let request c :=
           Some (Resolver.mkOffersInput search category percentage take c) in
         Resolver.offersResolver J src db None userId now (request cursor)
         = Resolver.offersResolver J src db None userId now (request None)
         /\ fst (Resolver.offersResolver J src db None userId now (request None))
            = Js.Normal
                (Resolver.Built
                   (pageOf src db userId now
                      (Resolver.mkOffersInput search category percentage take None)))
         /\ (Resolver.truthy cursor = None ->
             Resolver.offersResolver J src db redis userId now (request cursor)
             = Resolver.offersResolver J src db redis userId now (request None))
         /\ (Resolver.truthy cursor <> None ->
             Resolver.offersResolver J src db redis userId now (request cursor)
             = (fst (Resolver.offersResolver J src db None userId now (request None)),
                redis))).
Proof.
  split; [exact decodeCursor_encodeCursor|]. split.
  - intros [c|]; [|now left]. unfold Filters.decodeCursor.
    destruct c as [|c0 c]; [now left|].
    destruct (Js.StringToNumber _) as [| |q|]; try (now left).
    destruct (nth_error _ 1) as [[|a r]|]; try (now left).
    right. exists q, (String a r). split; [discriminate|reflexivity].
  - intros J src db redis userId now search category percentage take cursor H request.
    assert (Hnone : Resolver.offersResolver J src db None userId now (request None)
                    = (Js.Normal
                         (Resolver.Built
                            (pageOf src db userId now
                               (Resolver.mkOffersInput search category percentage take None))),
                       None)).
    { rewrite offersResolver_no_cache by (now left). reflexivity. }
    assert (Hany : forall r,
               r = None \/ Resolver.truthy cursor <> None ->
               Resolver.offersResolver J src db r userId now (request cursor)
               = (Js.Normal
                    (Resolver.Built
                       (pageOf src db userId now
                          (Resolver.mkOffersInput search category percentage take None))),
                  r)).
    { intros r Hr. rewrite offersResolver_no_cache by exact Hr.
      cbn [inputOf request Resolver.cursor]. rewrite H. reflexivity. }
    split; [|split; [|split]].
    + rewrite Hnone. apply Hany. now left.
    + now rewrite Hnone.
    + intro Hc. destruct cursor as [[|a c]|]; [reflexivity|discriminate Hc|reflexivity].
    + intro Hc. rewrite Hnone. apply Hany. now right.
Qed.

Lemma cursor_round_trip_witness :
  Filters.decodeCursor (Some (Filters.encodeCursor 1000 "o_food_1"))
  = Some (Filters.mkCursor (inject_Z 1000) "o_food_1")
  /\ Resolver.offersResolver Sample.json (Sample.pagedOutlets Sample.plainIds)
       (Sample.indexOf (Sample.pagedOutlets Sample.plainIds))
       (Some Sample.storeWithPage) "u1" 5000
       (Some (Resolver.mkOffersInput None None None (Some 1) (Some "!!!!")))
     = (fst (Resolver.offersResolver Sample.json (Sample.pagedOutlets Sample.plainIds)
               (Sample.indexOf (Sample.pagedOutlets Sample.plainIds))
               None "u1" 5000
               (Some (Resolver.mkOffersInput None None None (Some 1) None))),
        Some Sample.storeWithPage).
Proof.
  split.
  - apply (proj1 cursor_round_trip 1000 "o_food_1").
    + reflexivity.
    + discriminate.
    + reflexivity.
    + reflexivity.
  - apply (proj2 (proj2 cursor_round_trip) Sample.json
             (Sample.pagedOutlets Sample.plainIds)
             (Sample.indexOf (Sample.pagedOutlets Sample.plainIds))
             (Some Sample.storeWithPage) "u1" 5000 None None None (Some 1) (Some "!!!!")).
    + reflexivity.
    + discriminate.
Defined.

(** C3, the cases the claim gets wrong: an empty outlet id decodes to
    nothing, and an outlet id with a colon comes back cut at the colon;
    and with a text in the cache for the request, the request without
    cursor is answered with that text, while the same request with a
    cursor that does not decode is answered with the result built from the
    tables. *)
Lemma cursor_round_trip_fails :
  Filters.decodeCursor (Some (Filters.encodeCursor 1000 "")) = None
  /\ Filters.encodeCursor 1000 "a:b" = "MTAwMDphOmI="
  /\ Filters.decodeCursor (Some (Filters.encodeCursor 1000 "a:b"))
     = Some (Filters.mkCursor (inject_Z 1000) "a")
  /\ Filters.decodeCursor (Some "!!!!") = None
  /\ fst (Resolver.offersResolver Sample.json (Sample.pagedOutlets Sample.plainIds)
            (Sample.indexOf (Sample.pagedOutlets Sample.plainIds))
            (Some Sample.storeWithPage) "u1" 5000
            (Some (Resolver.mkOffersInput None None None (Some 1) None)))
     = Js.Normal (@Resolver.Parsed Sample.json "o9")
  /\ exists res,
       fst (Resolver.offersResolver Sample.json (Sample.pagedOutlets Sample.plainIds)
              (Sample.indexOf (Sample.pagedOutlets Sample.plainIds))
              (Some Sample.storeWithPage) "u1" 5000
              (Some (Resolver.mkOffersInput None None None (Some 1) (Some "!!!!"))))
       = Js.Normal (Resolver.Built res)
       /\ map (fun n => Schema.o_id (Resolver.outlet n)) (Resolver.nodes res) = ["o1"].
Proof.
  repeat (split; [vm_compute; reflexivity|]).
  eexists. split; vm_compute; reflexivity.
Qed.

Example decodeCursor_samples :
  map Filters.decodeCursor
      [None; Some ""; Some "!!!!"; Some "MTAwMDpvX2Zvb2RfMQ=="; Some "OmFiYw=="; Some "YWJjOng="]
  = [None; None; None;
     Some (Filters.mkCursor (inject_Z 1000) "o_food_1");
     Some (Filters.mkCursor 0 "abc");
     None].
Proof. reflexivity. Qed.

(** ** Pagination *)

(** ** The order of the result rows *)

Lemma string_leb_iff (a b : string) :
  String.leb a b = true <-> a = b \/ OrderedTypeEx.String_as_OT.lt a b.
Proof.
  unfold String.leb. split.
  - destruct (String.compare a b) eqn:E; intro H; try discriminate.
    + left. now apply OrderedTypeEx.String_as_OT.cmp_eq.
    + right. now apply OrderedTypeEx.String_as_OT.cmp_lt.
  - intros [->|H].
    + replace (String.compare b b) with Eq; [reflexivity|].
      symmetry. now apply OrderedTypeEx.String_as_OT.cmp_eq.
    + apply OrderedTypeEx.String_as_OT.cmp_lt in H. unfold OrderedTypeEx.String_as_OT.cmp in H. now rewrite H.
Qed.

Lemma string_leb_trans (a b c : string) :
  String.leb a b = true -> String.leb b c = true -> String.leb a c = true.
Proof.
  rewrite !string_leb_iff. intros [->|H1] [->|H2]; auto.
  right. eapply OrderedTypeEx.String_as_OT.lt_trans; eauto.
Qed.

Lemma string_ltb_iff (a b : string) :
  String.ltb a b = true <-> String.leb a b = true /\ a <> b.
Proof.
  unfold String.ltb, String.leb. split.
  - destruct (String.compare a b) eqn:E; intro H; try discriminate.
    split; [reflexivity|]. intros ->.
    assert (String.compare b b = Eq) by (now apply OrderedTypeEx.String_as_OT.cmp_eq). congruence.
  - intros [H Hne]. destruct (String.compare a b) eqn:E; try discriminate; [|reflexivity].
    apply String.compare_eq_iff in E. contradiction.
Qed.

Lemma string_ltb_not_leb (a b : string) :
  String.ltb a b = true -> String.leb b a = false.
Proof.
  unfold String.ltb, String.leb. rewrite (String.compare_antisym b a).
  destruct (String.compare a b); simpl; congruence.
Qed.

Lemma before_iff (a b : Resolver.Row) :
  Resolver.before a b = true
  <-> Resolver.sortKey b < Resolver.sortKey a
      \/ (Resolver.sortKey a = Resolver.sortKey b
          /\ String.leb (Resolver.outletId a) (Resolver.outletId b) = true).
Proof.
  unfold Resolver.before.
  rewrite orb_true_iff, andb_true_iff, Z.ltb_lt, Z.eqb_eq. reflexivity.
Qed.

Lemma before_total (a b : Resolver.Row) :
  Resolver.before a b = true \/ Resolver.before b a = true.
Proof.
  rewrite !before_iff.
  destruct (Z.lt_trichotomy (Resolver.sortKey a) (Resolver.sortKey b)) as [H|[H|H]].
  - right. now left.
  - destruct (String.leb_total (Resolver.outletId a) (Resolver.outletId b)) as [L|L].
    + left. right. now split.
    + right. right. now split.
  - left. now left.
Qed.

Lemma before_trans (a b c : Resolver.Row) :
  Resolver.before a b = true -> Resolver.before b c = true -> Resolver.before a c = true.
Proof.
  rewrite !before_iff. intros [H1|[H1 L1]] [H2|[H2 L2]].
  - left. lia.
  - left. lia.
  - left. lia.
  - right. split; [lia|]. eapply string_leb_trans; eauto.
Qed.

Lemma insertSorted_perm (r : Resolver.Row) (l : list Resolver.Row) :
  Permutation (Resolver.insertSorted r l) (r :: l).
Proof.
  induction l as [|x l IH]; simpl; [reflexivity|].
  destruct (Resolver.before r x); [reflexivity|].
  rewrite IH. apply perm_swap.
Qed.

Lemma orderBy_perm (l : list Resolver.Row) : Permutation (Resolver.orderBy l) l.
Proof.
  induction l as [|x l IH]; simpl; [reflexivity|].
  unfold Resolver.orderBy in *. simpl. rewrite insertSorted_perm. now constructor.
Qed.

Lemma insertSorted_sorted (r : Resolver.Row) (l : list Resolver.Row) :
  StronglySorted beforeP l -> StronglySorted beforeP (Resolver.insertSorted r l).
Proof.
  induction 1 as [|x l Hs IH Hx]; simpl.
  - constructor; constructor.
  - destruct (Resolver.before r x) eqn:E.
    + constructor; [now constructor|]. constructor; [exact E|].
      eapply Forall_impl; [|exact Hx]. intros y Hy. eapply before_trans; eauto.
    + constructor; [exact IH|].
      assert (Hxr : Resolver.before x r = true)
        by (destruct (before_total r x); congruence).
      eapply Permutation_Forall; [symmetry; apply insertSorted_perm|].
      now constructor.
Qed.

Lemma orderBy_sorted (l : list Resolver.Row) : StronglySorted beforeP (Resolver.orderBy l).
Proof.
  induction l as [|x l IH]; [constructor|].
  unfold Resolver.orderBy in *. simpl. now apply insertSorted_sorted.
Qed.

Lemma grouped_ids (rows : list Resolver.Row) :
  map Resolver.outletId (Resolver.grouped rows)
  = nodup string_dec (map Resolver.outletId rows).
Proof.
  unfold Resolver.grouped. rewrite map_map. simpl. apply map_id.
Qed.

Lemma grouped_NoDup (rows : list Resolver.Row) :
  NoDup (map Resolver.outletId (Resolver.grouped rows)).
Proof. rewrite grouped_ids. apply NoDup_nodup. Qed.

Lemma orderBy_NoDup (l : list Resolver.Row) :
  NoDup (map Resolver.outletId l) -> NoDup (map Resolver.outletId (Resolver.orderBy l)).
Proof.
  intro H. eapply Permutation_NoDup; [|exact H].
  apply Permutation_map. symmetry. apply orderBy_perm.
Qed.

Section Pagination.

Variables (src : Schema.Source) (db : Schema.Index) (userId : string) (now : Z).
Variable input : Resolver.OffersInput.

#[local] Abbreviation G := (eligibleRows src db userId now input).
#[local] Abbreviation n := (pageSize input).

Lemma n_positive : (1 <= n)%nat.
Proof.
  unfold pageSize. pose proof (normalizeTake_bounds (Resolver.take input)). lia.
Qed.

Lemma G_sorted : StronglySorted beforeP G.
Proof. apply orderBy_sorted. Qed.

Lemma G_NoDup : NoDup (map Resolver.outletId G).
Proof. apply orderBy_NoDup, grouped_NoDup. Qed.

(** Every result row names an outlet of the source. *)
Lemma G_outlets (r : Resolver.Row) :
  In r G ->
  exists o, find (fun o => Schema.o_id o =? Resolver.outletId r) (Schema.outlets src) = Some o.
Proof.
  intro Hin. unfold eligibleRows in Hin.
  apply (Permutation_in _ (orderBy_perm _)) in Hin.
  assert (Hid : In (Resolver.outletId r)
                   (map Resolver.outletId
                      (Resolver.grouped
                         (Resolver.joined src
                            (option_map Js.trim (Resolver.category input))
                            (option_map Js.trim (Resolver.search input))
                            (Resolver.eligible_outlets db userId now
                               match Resolver.percentage input with
                               | Some p => Resolver.minBps p | None => None end
                               match Resolver.percentage input with
                               | Some p => Resolver.maxBps p | None => None end)))))
    by (now apply in_map).
  rewrite grouped_ids in Hid. apply nodup_In in Hid.
  apply in_map_iff in Hid. destruct Hid as [e [He Hin']].
  unfold Resolver.joined in Hin'. apply in_flat_map in Hin'.
  destruct Hin' as [e' [_ Hin']]. apply in_flat_map in Hin'.
  destruct Hin' as [o [Ho Hin']]. apply in_flat_map in Hin'.
  destruct Hin' as [m [_ Hin']].
  destruct (Sql.isTrue _); [|contradiction].
  destruct Hin' as [->|[]].
  apply filter_In in Ho. destruct Ho as [Ho Hid].
  rewrite <- He.
  destruct (find (fun o => Schema.o_id o =? Resolver.outletId e) (Schema.outlets src))
    as [o'|] eqn:Hf; [now exists o'|].
  exfalso. apply (find_none _ _ Hf) in Ho. congruence.
Qed.

(** An outlet that the index offers and that passes the conditions on the
    outlet and its merchant has a result row. *)
Lemma G_complete (o : Schema.Outlet) (m : Schema.Merchant) (k : Z) :
  In o (Schema.outlets src) ->
  In m (Schema.merchants src) ->
  Schema.m_id m = Schema.o_merchantId o ->
  Sql.isTrue (Resolver.staticWhere src
                (option_map Js.trim (Resolver.category input))
                (option_map Js.trim (Resolver.search input)) o m) = true ->
  In (Resolver.mkRow (Schema.o_id o) k)
     (Resolver.eligible_outlets db userId now (minBpsOf input) (maxBpsOf input)) ->
  exists r, In r G /\ Resolver.outletId r = Schema.o_id o.
Proof.
  intros Ho Hm Hmid Hs He.
  assert (Hid : In (Schema.o_id o) (map Resolver.outletId G)).
  { unfold eligibleRows.
    apply (Permutation_in _ (Permutation_map _ (Permutation_sym (orderBy_perm _)))).
    rewrite grouped_ids. apply nodup_In.
    change (Schema.o_id o) with (Resolver.outletId (Resolver.mkRow (Schema.o_id o) k)).
    apply in_map. unfold Resolver.joined. apply in_flat_map.
    exists (Resolver.mkRow (Schema.o_id o) k). split; [exact He|].
    apply in_flat_map. exists o. split.
    { apply filter_In. split; [exact Ho|]. cbn [Resolver.outletId]. apply String.eqb_refl. }
    apply in_flat_map. exists m. split.
    { apply filter_In. split; [exact Hm|]. now apply String.eqb_eq. }
    rewrite Hs. now left. }
  apply in_map_iff in Hid. destruct Hid as [r [Hr Hin]]. now exists r.
Qed.

Lemma last_map_Some {A : Type} (init : list A) (r : A) :
  last (map Some (init ++ [r])) None = Some r.
Proof. rewrite map_app. simpl. apply last_last. Qed.

End Pagination.

(** ** Following the pages *)

(** A request with a cursor that decodes is refused, whatever the tables
    and the cache hold. *)
Lemma offersResolver_cursor_refused (J : Resolver.Json) src db redis userId now
      (input : option Resolver.OffersInput) (k : Filters.Cursor) :
  Filters.decodeCursor (Resolver.cursor (inputOf input)) = Some k ->
  Resolver.offersResolver J src db redis userId now input = (Js.Throw Js.QueryError, redis).
Proof.
  intro H. rewrite offersResolver_no_cache.
  - now rewrite H.
  - right. destruct (Resolver.cursor (inputOf input)) as [[|a c]|];
      [discriminate H|discriminate|discriminate H].
Qed.

(** C4: three eligible outlets with the ids ["o1"], ["o2"] and ["o3"],
    asked for one per page.  The first page is ["o1"], reports a next page
    and carries a cursor that decodes to [(1000, "o1")]; the request with
    that cursor is refused by the store, so the second page is never
    delivered.  The same holds of every request whose cursor decodes. *)
Theorem pagination_next_page_refused :
  let src := Sample.pagedOutlets Sample.plainIds in
  let db := Sample.indexOf src in
  map Resolver.outletId (eligibleRows src db "u1" 5000 Sample.pageOfOne)
  = ["o1"; "o2"; "o3"]
  /\ (exists res,
        fst (Resolver.offersResolver Sample.json src db None "u1" 5000
               (Some Sample.pageOfOne))
        = Js.Normal (Resolver.Built res)
        /\ map (fun nd => Schema.o_id (Resolver.outlet nd)) (Resolver.nodes res) = ["o1"]
        /\ Resolver.hasNextPage res = true
        /\ Resolver.nextCursor res = Some (Filters.encodeCursor 1000 "o1"))
  /\ Filters.decodeCursor (Some (Filters.encodeCursor 1000 "o1"))
     = Some (Filters.mkCursor (inject_Z 1000) "o1")
  /\ fst (Resolver.offersResolver Sample.json src db None "u1" 5000
            (Some (Resolver.mkOffersInput None None None (Some 1)
                     (Some (Filters.encodeCursor 1000 "o1")))))
     = Js.Throw Js.QueryError
  /\ (forall (J : Resolver.Json) src db redis userId now input k,
         Filters.decodeCursor (Resolver.cursor (inputOf input)) = Some k ->
         Resolver.offersResolver J src db redis userId now input
         = (Js.Throw Js.QueryError, redis)).
Proof.
  intros src db. split; [vm_compute; reflexivity|]. split.
  { eexists. split; [vm_compute; reflexivity|]. repeat split. }
  split; [vm_compute; reflexivity|]. split; [vm_compute; reflexivity|].
  intros J src' db' redis userId now input k H.
  now apply (offersResolver_cursor_refused J src' db' redis userId now input k).
Qed.

(** ** Further properties of the helpers *)

(** The points limit of a loyalty program: no limit ([null] or [undefined])
    is never exhausted; otherwise the program is exhausted exactly when
    used >= limit on the converted numbers, which is false when either is
    NaN, and it counts as exhausted when a conversion throws. *)
Theorem pointsLimitExhausted_cases (limit used : Js.JsValue) :
  (limit = Js.JsNull \/ limit = Js.JsUndefined ->
   Recompute.pointsLimitExhausted limit used = false)
  /\ (limit <> Js.JsNull -> limit <> Js.JsUndefined ->
      forall l u,
        Js.Number limit = Js.Normal l -> Js.Number used = Js.Normal u ->
        Recompute.pointsLimitExhausted limit used = Js.ge u l
        /\ (l = Js.NaN \/ u = Js.NaN -> Recompute.pointsLimitExhausted limit used = false))
  /\ (limit <> Js.JsNull -> limit <> Js.JsUndefined ->
      forall e,
        Js.Number limit = Js.Throw e
        \/ (Js.Number used = Js.Throw e /\ exists l, Js.Number limit = Js.Normal l) ->
        Recompute.pointsLimitExhausted limit used = true).
Proof.
  split; [|split].
  - intros [-> | ->]; reflexivity.
  - intros Hn Hu l u Hl Hused.
    assert (E : Recompute.pointsLimitExhausted limit used = Js.ge u l).
    { destruct limit; try congruence;
        unfold Recompute.pointsLimitExhausted; rewrite Hl, Hused; reflexivity. }
    split; [exact E|]. rewrite E. intros [-> | ->]; [destruct u|]; reflexivity.
  - intros Hn Hu e [Hl | [Hused [l Hl]]];
      destruct limit; try congruence;
      unfold Recompute.pointsLimitExhausted; rewrite Hl; try rewrite Hused; reflexivity.
Qed.

Example pointsLimitExhausted_samples :
  Recompute.pointsLimitExhausted Js.JsNull (Js.JsDecimal 100) = false
  /\ Recompute.pointsLimitExhausted (Js.JsDecimal 10000) (Js.JsDecimal 100) = false
  /\ Recompute.pointsLimitExhausted (Js.JsDecimal 100) (Js.JsDecimal 100) = true
  /\ Recompute.pointsLimitExhausted (Js.JsString "n/a") (Js.JsDecimal 100) = false
  /\ Recompute.pointsLimitExhausted (Js.JsDecimal 100) Js.JsSymbol = true.
Proof. repeat split; vm_compute; reflexivity. Qed.

(** An offer that lists ['All'] passes the customer-type rule for a user
    with any profile at the merchant and for a user with none. *)
Theorem all_admits_everyone (db : Schema.Index) (oi : Schema.OfferIndex)
        (p : option Schema.UserMerchantProfile) :
  Resolver.existsCustomerType db oi (Some "All") = true ->
  Sql.isTrue (Resolver.customerTypeRule db oi p) = true.
Proof.
  intro H. unfold Resolver.customerTypeRule, Resolver.allowsAll.
  rewrite H. reflexivity.
Qed.

Lemma all_admits_everyone_witness :
  Sql.isTrue
    (Resolver.customerTypeRule
       (Schema.mkIndex [] [Schema.mkOfferIndexCustomerType "oi1" "All"] [] [] [])
       (Schema.mkOfferIndex "oi1" Schema.CASHBACK "m1" (Some "cb1") None None
          true true None false None None (Some 1000) 0)
       None) = true.
Proof.
  apply all_admits_everyone. reflexivity.
Defined.

(** An offer that lists only ['Vip']: a user whose profile at the merchant
    is ['New'] fails the rule, the same user as ['Vip'] passes, and a user
    without profile fails. *)
Example vip_only_offer :
  let db := Schema.mkIndex [] [Schema.mkOfferIndexCustomerType "oi1" "Vip"] [] [] [] in
  let oi := Schema.mkOfferIndex "oi1" Schema.CASHBACK "m1" (Some "cb1") None None
              true true None false None None (Some 1000) 0 in
  Sql.isTrue (Resolver.customerTypeRule db oi
                (Some (Schema.mkUserMerchantProfile "u1" "m1" "New" 1))) = false
  /\ Sql.isTrue (Resolver.customerTypeRule db oi
                   (Some (Schema.mkUserMerchantProfile "u1" "m1" "Vip" 5))) = true
  /\ Sql.isTrue (Resolver.customerTypeRule db oi None) = false.
Proof. repeat split. Qed.

(* ================================================================== *)
(** * Properties of the queue, the loaders, the pages and the rebuilds  *)
(* ================================================================== *)

(** ** Job ids: the hash of a reason *)

Lemma ToInt32_mod (z : Z) : Js32.ToInt32 z mod 2 ^ 32 = z mod 2 ^ 32.
Proof.
  unfold Js32.ToInt32. cbv zeta.
  destruct (z mod 2 ^ 32 <? 2 ^ 31)%Z.
  - apply Z.mod_mod. lia.
  - rewrite <- (Z.mod_mod z (2 ^ 32)) at 2 by lia.
    replace (z mod 2 ^ 32 - 2 ^ 32) with (z mod 2 ^ 32 + (-1) * 2 ^ 32) by lia.
    apply Z.mod_add. lia.
Qed.

Lemma lxor_mod (a b : Z) :
  Z.lxor a b mod 2 ^ 32 = Z.lxor (a mod 2 ^ 32) (b mod 2 ^ 32).
Proof.
  rewrite <- !Z.land_ones by lia.
  apply Z.bits_inj'. intros n Hn.
  rewrite Z.lxor_spec, !Z.land_spec, Z.lxor_spec.
  destruct (Z.testbit (Z.ones 32) n); rewrite ?andb_true_r, ?andb_false_r; reflexivity.
Qed.

Lemma hash_step (h h' c : Z) :
  h mod 2 ^ 32 = h' mod 2 ^ 32 ->
  Js32.imul (Js32.xor h c) 16777619 mod 2 ^ 32
  = ((Z.lxor h' c * 16777619) mod 2 ^ 32) mod 2 ^ 32.
Proof.
  intros Hh. unfold Js32.imul, Js32.xor, Js32.ToUint32.
  rewrite ToInt32_mod, Z.mod_mod by lia.
  rewrite Z.mul_mod_idemp_l, Z.mul_mod_idemp_r by lia.
  rewrite <- Z.mul_mod_idemp_l by lia.
  rewrite lxor_mod, !ToInt32_mod, Hh, <- lxor_mod.
  rewrite Z.mul_mod_idemp_l by lia. reflexivity.
Qed.

Lemma hash_loop (units : list Z) (h h' : Z) :
  h mod 2 ^ 32 = h' mod 2 ^ 32 ->
  fold_left (fun h c => Js32.imul (Js32.xor h c) 16777619) units h mod 2 ^ 32
  = fold_left (fun h c => (Z.lxor h c * 16777619) mod 2 ^ 32) units h' mod 2 ^ 32.
Proof.
  revert h h'. induction units as [|c units IH]; intros h h' Hh; simpl.
  - exact Hh.
  - apply IH. apply hash_step. exact Hh.
Qed.

Lemma fnv1a32_range (units : list Z) : 0 <= fnv1a32 units < 2 ^ 32.
Proof.
  unfold fnv1a32.
  assert (H : 0 <= 2166136261 < 2 ^ 32) by lia. revert H.
  generalize 2166136261. induction units as [|c units IH]; intros h Hh; simpl.
  - exact Hh.
  - apply IH. apply Z.mod_pos_bound. lia.
Qed.

Lemma string_of_hex_chars (u : Hexadecimal.uint) :
  everyChar hexDigit (HexadecimalString.NilEmpty.string_of_uint u) = true.
Proof. induction u; simpl; try rewrite IHu; reflexivity. Qed.

Lemma toString16_chars (n : Z) :
  Js32.toString16 n <> "" /\ everyChar hexDigit (Js32.toString16 n) = true.
Proof.
  unfold Js32.toString16, HexadecimalString.NilZero.string_of_uint.
  pose proof (string_of_hex_chars (N.to_hex_uint (Z.to_N n))) as Hc.
  destruct (N.to_hex_uint (Z.to_N n)); (split; [simpl; discriminate | first [exact Hc | reflexivity]]).
Qed.

(** [hashish] is the 32-bit FNV-1a hash of the UTF-16 code units of its
    input, printed in hexadecimal: the signed 32-bit steps of [^=] and
    [Math.imul] followed by [>>> 0] give the value that unsigned arithmetic
    modulo 2^32 gives, and the text is never empty and holds only the
    digits 0-9 and a-f. *)
Theorem hashish_fnv1a (input : string) :
  Queue.hashish input = Js32.toString16 (fnv1a32 (Js32.codeUnits input))
  /\ 0 <= fnv1a32 (Js32.codeUnits input) < 2 ^ 32
  /\ Queue.hashish input <> ""
  /\ everyChar hexDigit (Queue.hashish input) = true.
Proof.
  split; [|split; [apply fnv1a32_range | apply toString16_chars]].
  unfold Queue.hashish, Js32.unsignedShiftRight0, Js32.ToUint32, fnv1a32. cbv zeta.
  f_equal.
  rewrite (hash_loop _ _ 2166136261) by reflexivity.
  apply Z.mod_small. apply fnv1a32_range.
Qed.

Example hashish_samples :
  Queue.hashish "" = "811c9dc5"
  /\ Queue.hashish "cron-backstop" = "13522b1f"
  /\ Queue.hashish "a" = "e40c292c"
  /\ Queue.hashish "foobar" = "bf9cf968".
Proof. vm_compute. repeat split. Qed.

(** ** Job ids and the full rebuild *)

(** Two jobs get the same job id exactly when they are the same job, or
    both are full rebuilds whose reasons have the same hash: jobs of
    different types, and jobs of one type for different entities, never
    share an id. *)
Theorem jobIdFor_same (a b : Queue.OfferIndexJob) :
  Queue.jobIdFor a = Queue.jobIdFor b
  <-> a = b
      \/ exists r1 r2, a = Queue.FULL_REBUILD r1 /\ b = Queue.FULL_REBUILD r2
                       /\ Queue.hashish r1 = Queue.hashish r2.
Proof.
  split.
  - destruct a as [x|x|x|x|x], b as [y|y|y|y|y]; simpl; intros H;
      try discriminate H;
      try (left; f_equal; congruence).
    right. exists x, y. repeat split. congruence.
  - intros [->|(r1 & r2 & -> & -> & H)]; [reflexivity|].
    simpl. rewrite H. reflexivity.
Qed.

(** Two full rebuilds with different reasons can share a job id: the hash
    has 32 bits. *)
Example hashish_collision :
  "costarring" <> "liquid"
  /\ Queue.jobIdFor (Queue.FULL_REBUILD "costarring")
     = Queue.jobIdFor (Queue.FULL_REBUILD "liquid").
Proof. split; [discriminate | vm_compute; reflexivity]. Qed.

Section Frames.
Import Schema.

Lemma leaves_bind {A B X : Type} (table : Index -> X) (m : Recompute.DbM A)
      (k : A -> Recompute.DbM B) :
  leaves table m -> (forall a, leaves table (k a)) -> leaves table (Recompute.bindM m k).
Proof.
  intros Hm Hk db. unfold Recompute.bindM.
  specialize (Hm db). destruct (m db) as [[a|e] db1]; simpl in *.
  - rewrite Hk. exact Hm.
  - exact Hm.
Qed.

Lemma leaves_transaction {A X : Type} (table : Index -> X) (m : Recompute.DbM A) :
  leaves table m -> leaves table (Recompute.transaction m).
Proof.
  intros Hm db. unfold Recompute.transaction.
  specialize (Hm db). destruct (m db) as [[a|e] db1]; simpl in *; [exact Hm | reflexivity].
Qed.

Lemma leaves_ret {A X : Type} (table : Index -> X) (a : A) : leaves table (Recompute.ret a).
Proof. intros db. reflexivity. Qed.

Lemma leaves_raise {A X : Type} (table : Index -> X) (e : Js.JsError) :
  leaves table (@Recompute.raise A e).
Proof. intros db. reflexivity. Qed.

Lemma filter_updateFirst_other {A : Type} (p q : A -> bool) (f : A -> A) (l : list A) :
  (forall x, p x = true -> q x = false /\ q (f x) = false) ->
  filter q (Recompute.updateFirst p f l) = filter q l.
Proof.
  intros H. induction l as [|x l IH]; simpl; [reflexivity|].
  destruct (p x) eqn:Hp; simpl.
  - destruct (H x Hp) as [H1 H2]. rewrite H1, H2. reflexivity.
  - rewrite IH. reflexivity.
Qed.

Lemma upsert_keeps_others (where_ : OfferIndex -> bool) (q : OfferIndex -> bool)
      (update : OfferIndex -> OfferIndex) (create : OfferIndex) (db : Index) :
  (forall x, where_ x = true -> q x = false /\ q (update x) = false) ->
  q create = false ->
  filter q (offerIndex (snd (Recompute.offerIndex_upsert where_ update create db)))
  = filter q (offerIndex db).
Proof.
  intros Hu Hc. unfold Recompute.offerIndex_upsert.
  destruct (find where_ (offerIndex db)); simpl.
  - apply filter_updateFirst_other. exact Hu.
  - rewrite filter_app. simpl. rewrite Hc. apply app_nil_r.
Qed.

Lemma upsert_leaves {X : Type} (table : Index -> X) (where_ : OfferIndex -> bool)
      (update : OfferIndex -> OfferIndex) (create : OfferIndex) :
  (forall t db, table (Recompute.setOfferIndex t db) = table db) ->
  leaves table (Recompute.offerIndex_upsert where_ update create).
Proof.
  intros H db. unfold Recompute.offerIndex_upsert.
  destruct (find where_ (offerIndex db)); simpl; apply H.
Qed.

Lemma loyalty_children_keep (idx : string) (outs : list string)
      (ranks : list CustomerTypes.PropertyValue) :
  let tx :=
    Recompute.transaction
       (Recompute.bindM (Recompute.offerIndexOutlet_deleteMany idx) (fun _ =>
        Recompute.bindM (Recompute.loyaltyTierIndex_deleteMany idx) (fun _ =>
        Recompute.bindM (Recompute.offerIndexOutlet_createMany_skipDuplicates
                           (map (fun o => mkOfferIndexOutlet idx o) outs)) (fun _ =>
        match Recompute.intColumn ranks with
        | Js.Throw e => Recompute.raise e
        | Js.Normal ns =>
            Recompute.loyaltyTierIndex_createMany_skipDuplicates
              (map (fun rank => mkLoyaltyTierIndex idx rank true true None) ns)
        end)))) in
  leaves offerIndex tx /\ leaves offerIndexCustomerType tx /\ leaves userMerchantProfile tx.
Proof.
  cbv zeta.
  repeat split; apply leaves_transaction;
    repeat (apply leaves_bind; [intros db; reflexivity | intros _]);
    (destruct (Recompute.intColumn ranks); [intros db; reflexivity | apply leaves_raise]).
Qed.

Lemma rebuildLoyalty_frame (env : Recompute.Env) (src : Source) (merchantId : string)
      (db : Index) :
  let db' := snd (Recompute.rebuildLoyaltyIndexByMerchant env src merchantId db) in
  offerIndexCustomerType db' = offerIndexCustomerType db
  /\ userMerchantProfile db' = userMerchantProfile db
  /\ filter noLoyaltyProgram (offerIndex db') = filter noLoyaltyProgram (offerIndex db).
Proof.
  cbv zeta. unfold Recompute.rebuildLoyaltyIndexByMerchant.
  destruct (find _ (merchants src)) as [merchant|]; [|repeat split].
  destruct (m_LoyaltyProgram merchant) as [lp|]; [|repeat split].
  cbv zeta.
  match goal with
  | |- context [Recompute.bindM (Recompute.offerIndex_upsert ?w ?u ?c) ?k] =>
      set (where_ := w); set (upd := u); set (cr := c); set (tx := k)
  end.
  assert (Htx : forall i, leaves offerIndex (tx i) /\ leaves offerIndexCustomerType (tx i)
                          /\ leaves userMerchantProfile (tx i)).
  { intros i. apply loyalty_children_keep. }
  unfold Recompute.bindM.
  pose proof (upsert_leaves offerIndexCustomerType where_ upd cr (fun _ _ => eq_refl) db) as H1.
  pose proof (upsert_leaves userMerchantProfile where_ upd cr (fun _ _ => eq_refl) db) as H2.
  assert (H3 : filter noLoyaltyProgram
                 (offerIndex (snd (Recompute.offerIndex_upsert where_ upd cr db)))
               = filter noLoyaltyProgram (offerIndex db)).
  { apply upsert_keeps_others.
    - intros x Hx. unfold where_, noLoyaltyProgram, upd in *. simpl.
      destruct (oi_loyaltyProgramId x); [split; reflexivity | discriminate Hx].
    - reflexivity. }
  destruct (Recompute.offerIndex_upsert where_ upd cr db) as [[i|e] db1]; simpl in *.
  - destruct (Htx i) as (T1 & T2 & T3).
    rewrite T1, T2, T3. auto.
  - auto.
Qed.

Lemma rebuildEachMerchant_frame (envs : nat -> Recompute.Env) (src : Source)
      (ids : list string) :
  forall (i : nat) (db : Index),
    let db' := snd (Queue.rebuildEachMerchant envs src i ids db) in
    offerIndexCustomerType db' = offerIndexCustomerType db
    /\ userMerchantProfile db' = userMerchantProfile db
    /\ filter noLoyaltyProgram (offerIndex db') = filter noLoyaltyProgram (offerIndex db).
Proof.
  induction ids as [|id ids IH]; intros i db; simpl.
  - repeat split.
  - unfold Recompute.bindM.
    pose proof (rebuildLoyalty_frame (envs i) src id db) as H. cbv zeta in H.
    destruct (Recompute.rebuildLoyaltyIndexByMerchant (envs i) src id db) as [[u|e] db1];
      simpl in *.
    + destruct (IH (S i) db1) as (I1 & I2 & I3). destruct H as (H1 & H2 & H3).
      rewrite I1, I2, I3. auto.
    + exact H.
Qed.

(** A FULL_REBUILD job rebuilds loyalty programs only: whatever the
    outcome, the index rows that belong to no loyalty program (those of
    cashback configurations and exclusive offers), the customer-type rows
    and the user profiles are what they were before the job. *)
Theorem full_rebuild_only_loyalty (envs : nat -> Recompute.Env) (src : Source)
        (reason : string) (db : Index) :
  let db' := snd (Queue.handleOfferIndexJob envs src (Queue.FULL_REBUILD reason) db) in
  filter noLoyaltyProgram (offerIndex db') = filter noLoyaltyProgram (offerIndex db)
  /\ offerIndexCustomerType db' = offerIndexCustomerType db
  /\ userMerchantProfile db' = userMerchantProfile db.
Proof.
  cbv zeta. simpl.
  destruct (rebuildEachMerchant_frame envs src (map m_id (merchants src)) O db)
    as (H1 & H2 & H3).
  auto.
Qed.

End Frames.

(** ** The search pattern *)

Lemma like_percent_nil (ci : bool) (t : string) : Sql.like ci "%" t = true.
Proof.
  induction t as [|d r IH].
  - reflexivity.
  - change (Sql.like ci "%" (String d r)) with (Sql.like ci "" (String d r) || Sql.like ci "%" r).
    rewrite IH. apply orb_true_r.
Qed.

Lemma like_literal (ci : bool) (c : ascii) (p t : string) :
  Ascii.eqb c "\" || Ascii.eqb c "%" || Ascii.eqb c "_" = false ->
  Sql.like ci (String c p) t
  = match t with
    | String d r => Sql.sameChar ci c d && Sql.like ci p r
    | EmptyString => false
    end.
Proof.
  intro H.
  destruct c as [[] [] [] [] [] [] [] []]; try discriminate H; reflexivity.
Qed.

Lemma like_escaped (ci : bool) (c : ascii) (p t : string) :
  Sql.like ci (String "\" (String c p)) t
  = match t with
    | String d r => Sql.sameChar ci c d && Sql.like ci p r
    | EmptyString => false
    end.
Proof. reflexivity. Qed.

Lemma like_escapeLike_prefix (ci : bool) (s t : string) :
  Sql.like ci (Filters.escapeLike s ++ "%") t = startsWith ci s t.
Proof.
  revert t. induction s as [|c s IH]; intro t.
  - apply like_percent_nil.
  - cbn [Filters.escapeLike].
    destruct (Ascii.eqb c "\" || Ascii.eqb c "%" || Ascii.eqb c "_") eqn:E.
    + cbn [String.append]. rewrite like_escaped.
      destruct t as [|d r]; [reflexivity|]. cbn [startsWith]. now rewrite IH.
    + cbn [String.append]. rewrite (like_literal ci c _ t E).
      destruct t as [|d r]; [reflexivity|]. cbn [startsWith]. now rewrite IH.
Qed.

Lemma like_escapeLike (ci : bool) (s t : string) :
  Sql.like ci ("%" ++ Filters.escapeLike s ++ "%") t = occursIn ci s t.
Proof.
  cbn [String.append].
  induction t as [|d r IH].
  - change (Sql.like ci (String "%" (Filters.escapeLike s ++ "%")) "")
      with (Sql.like ci (Filters.escapeLike s ++ "%") "" || false).
    rewrite like_escapeLike_prefix. reflexivity.
  - change (Sql.like ci (String "%" (Filters.escapeLike s ++ "%")) (String d r))
      with (Sql.like ci (Filters.escapeLike s ++ "%") (String d r)
            || Sql.like ci (String "%" (Filters.escapeLike s ++ "%")) r).
    rewrite like_escapeLike_prefix, IH. reflexivity.
Qed.

(** The pattern the resolver builds from a search text,
    ["%" + escapeLike(search) + "%"] with [ESCAPE '\'], matches a text
    exactly when the search text occurs in it character for character (up
    to case under [ILIKE]): a [%], [_] or backslash typed by the user stands
    for itself. *)
Theorem escapeLike_matches_literally (ci : bool) (search text : string) :
  Sql.like ci ("%" ++ Filters.escapeLike search ++ "%") text = occursIn ci search text.
Proof. apply like_escapeLike. Qed.

(* the unescaped pattern is different *)
Example like_unescaped : Sql.like true "%50%%" "save 5000 now" = true
  /\ Sql.like true ("%" ++ Filters.escapeLike "50%" ++ "%") "save 5000 now" = false
  /\ Sql.like true ("%" ++ Filters.escapeLike "50%" ++ "%") "Save 50% now" = true
  /\ Filters.escapeLike "50%_a\b" = "50\%\_a\\b".
Proof. vm_compute. repeat split. Qed.

Lemma trimStart_blank (l : list ascii) :
  Forall (fun c => Js.isWhiteSpace1 c = true) l -> Js.trimStart l = [].
Proof.
  induction 1 as [|c l Hc _ IH]; simpl; [reflexivity|]. now rewrite Hc.
Qed.

Lemma trim_blank (s : string) : everyChar Js.isWhiteSpace1 s = true -> Js.trim s = "".
Proof.
  intro H. apply everyChar_Forall in H. unfold Js.trim.
  rewrite trimStart_blank by exact H. reflexivity.
Qed.

(** ** One page of the resolver *)

Lemma StronglySorted_firstn {A : Type} (R : A -> A -> Prop) (k : nat) (l : list A) :
  StronglySorted R l -> StronglySorted R (firstn k l).
Proof.
  intro H. revert k. induction H as [|a l Hs IH Ha]; intro k.
  - rewrite firstn_nil. constructor.
  - destruct k; simpl; constructor; [apply IH|].
    rewrite Forall_forall in *. intros x Hx. apply Ha.
    rewrite <- (firstn_skipn k l). apply in_or_app. now left.
Qed.

Lemma NoDup_map_firstn {A B : Type} (f : A -> B) (k : nat) (l : list A) :
  NoDup (map f l) -> NoDup (map f (firstn k l)).
Proof.
  revert k. induction l as [|a l IH]; intros k H.
  - rewrite firstn_nil. constructor.
  - destruct k; simpl; [constructor|].
    inversion H as [|x xs Hn Hd]; subst.
    constructor; [|auto]. intro Hin. apply Hn.
    apply in_map_iff in Hin. destruct Hin as [y [Hy Hin]].
    apply in_map_iff. exists y. split; [exact Hy|].
    rewrite <- (firstn_skipn k l). apply in_or_app. now left.
Qed.

Lemma In_firstn {A : Type} (k : nat) (l : list A) (x : A) : In x (firstn k l) -> In x l.
Proof.
  intro H. rewrite <- (firstn_skipn k l). apply in_or_app. now left.
Qed.

Lemma find_by_key {A : Type} (f : A -> string) (l : list A) (a : A) :
  NoDup (map f l) -> In a l -> find (fun x => f x =? f a) l = Some a.
Proof.
  induction l as [|x l IH]; simpl; intros Hnd Hin; [contradiction|].
  inversion Hnd as [|y ys Hn Hd]; subst.
  destruct Hin as [->|Hin].
  - now rewrite String.eqb_refl.
  - destruct (String.eqb_spec (f x) (f a)) as [E|E].
    + exfalso. apply Hn. rewrite E. now apply in_map.
    + auto.
Qed.

(** The nodes of a page, as rows: the page rows themselves. *)
Lemma nodes_rows src db userId now input (pageRows rows : list Resolver.Row) :
  (forall r, In r rows -> In r (eligibleRows src db userId now input)) ->
  (forall r, In r rows -> In r pageRows) ->
  NoDup (map Resolver.outletId pageRows) ->
  map nodeRow
      (map (fun o =>
              Resolver.mkNode o
                (find (fun m => Schema.m_id m =? Schema.o_merchantId o) (Schema.merchants src))
                match find (fun r => Resolver.outletId r =? Schema.o_id o) pageRows with
                | Some r => Resolver.sortKey r
                | None => 0
                end)
           (flat_map (fun id =>
                        match find (fun o => Schema.o_id o =? id) (Schema.outlets src) with
                        | Some o => [o]
                        | None => []
                        end) (map Resolver.outletId rows)))
  = rows.
Proof.
  intros HG Hsub Hnd. rewrite map_map. unfold nodeRow. cbn [Resolver.outlet Resolver.__sortKey].
  induction rows as [|r rows IH]; [reflexivity|].
  cbn [map flat_map].
  destruct (G_outlets src db userId now input r (HG r (or_introl eq_refl))) as [o Ho].
  rewrite Ho. cbn [app map].
  rewrite IH by (intros x Hx; first [apply HG | apply Hsub]; now right).
  apply find_some in Ho. destruct Ho as [_ Ho]. apply String.eqb_eq in Ho.
  rewrite Ho.
  rewrite (find_by_key Resolver.outletId pageRows r Hnd (Hsub r (or_introl eq_refl))).
  now destruct r.
Qed.

(** The page built from the statement without cursor, in terms of the
    eligible rows of the request. *)
Lemma pageOf_rows src db userId now (i : Resolver.OffersInput) :
  let res := pageOf src db userId now i in
  let rest := eligibleRows src db userId now i in
  map nodeRow (Resolver.nodes res) = firstn (pageSize i) rest
  /\ Resolver.hasNextPage res = (pageSize i <? List.length rest)%nat
  /\ Resolver.nextCursor res
     = if (pageSize i <? List.length rest)%nat then
         match last (map Some (firstn (pageSize i) rest)) None with
         | Some r => Some (Filters.encodeCursor (Resolver.sortKey r) (Resolver.outletId r))
         | None => None
         end
       else None.
Proof.
  cbv zeta. unfold pageOf, Resolver.resultOf.
  cbn [Resolver.nodes Resolver.hasNextPage Resolver.nextCursor].
  change (Z.to_nat (Filters.normalizeTake (Resolver.take i))) with (pageSize i).
  set (rest := eligibleRows src db userId now i).
  rewrite firstn_firstn.
  replace (Nat.min (pageSize i) (S (pageSize i))) with (pageSize i) by lia.
  rewrite length_firstn.
  assert (Hlt : (pageSize i <? Nat.min (S (pageSize i)) (List.length rest))%nat
                = (pageSize i <? List.length rest)%nat).
  { destruct (Nat.ltb_spec (pageSize i) (List.length rest)) as [H|H].
    - apply Nat.ltb_lt. lia.
    - apply Nat.ltb_ge. lia. }
  rewrite Hlt. split; [|split; reflexivity].
  apply (nodes_rows src db userId now i).
  - intros r Hr. exact (In_firstn _ _ _ Hr).
  - auto.
  - apply NoDup_map_firstn. apply G_NoDup.
Qed.

(** A page that the resolver computes (one it does not take from the
    cache) holds at most [take] nodes after normalisation, so at most 50,
    and when it reports a next page it is full. *)
Theorem offersResolver_page_size (J : Resolver.Json) src db redis userId now
        (input : option Resolver.OffersInput) (res : Resolver.Connection) :
  fst (Resolver.offersResolver J src db redis userId now input)
  = Js.Normal (Resolver.Built res) ->
  let take := Filters.normalizeTake (Resolver.take (inputOf input)) in
  Z.of_nat (List.length (Resolver.nodes res)) <= take <= 50
  /\ (Resolver.hasNextPage res = true -> Z.of_nat (List.length (Resolver.nodes res)) = take).
Proof.
  intro Hb. destruct (offersResolver_built J src db redis userId now input res Hb) as [-> _].
  cbv zeta.
  destruct (pageOf_rows src db userId now (inputOf input)) as (H1 & H2 & _).
  cbv zeta in H1, H2.
  pose proof (normalizeTake_bounds (Resolver.take (inputOf input))) as Hn.
  apply (f_equal (@List.length _)) in H1. rewrite length_map, length_firstn in H1.
  unfold pageSize in *. split; [lia|].
  intro Hnext. rewrite H2 in Hnext. apply Nat.ltb_lt in Hnext. lia.
Qed.

Lemma offersResolver_page_size_witness :
  let src := Sample.pagedOutlets Sample.plainIds in
  let res := pageOf src (Sample.indexOf src) "u1" 5000 Sample.pageOfOne in
  fst (Resolver.offersResolver Sample.json src (Sample.indexOf src) None "u1" 5000
         (Some Sample.pageOfOne))
  = Js.Normal (Resolver.Built res)
  /\ Resolver.hasNextPage res = true
  /\ Z.of_nat (List.length (Resolver.nodes res)) = 1.
Proof.
  intros src res. split; [reflexivity|]. split; [reflexivity|].
  apply (proj2 (offersResolver_page_size Sample.json src (Sample.indexOf src) None "u1" 5000
                  (Some Sample.pageOfOne) res eq_refl)).
  reflexivity.
Defined.

(** A page that the resolver computes has a next cursor exactly when it
    reports a next page, and the cursor then encodes the sort key and the
    outlet id of the last node of the page. *)
Theorem offersResolver_nextCursor (J : Resolver.Json) src db redis userId now
        (input : option Resolver.OffersInput) (res : Resolver.Connection) :
  fst (Resolver.offersResolver J src db redis userId now input)
  = Js.Normal (Resolver.Built res) ->
  (Resolver.hasNextPage res = true <-> Resolver.nextCursor res <> None)
  /\ (forall c, Resolver.nextCursor res = Some c ->
        exists nd, last (map Some (Resolver.nodes res)) None = Some nd
                   /\ c = Filters.encodeCursor (Resolver.__sortKey nd)
                                               (Schema.o_id (Resolver.outlet nd))).
Proof.
  intro Hb. destruct (offersResolver_built J src db redis userId now input res Hb) as [-> _].
  set (i := inputOf input).
  destruct (pageOf_rows src db userId now i) as (H1 & H2 & H3).
  cbv zeta in H1, H2, H3.
  set (rest := eligibleRows src db userId now i) in *.
  pose proof (n_positive i) as Hn.
  destruct (Nat.ltb_spec (pageSize i) (List.length rest)) as [Hlt|Hge].
  - destruct (exists_last (l := firstn (pageSize i) rest)) as [init [r Hlast]].
    { intro Hnil. apply (f_equal (@List.length _)) in Hnil.
      rewrite length_firstn in Hnil. simpl in Hnil. lia. }
    rewrite Hlast, last_map_Some in H3.
    split.
    + rewrite H2, H3. split; [discriminate | reflexivity].
    + intros c Hc. rewrite H3 in Hc. injection Hc as <-.
      rewrite Hlast in H1.
      destruct (exists_last (l := Resolver.nodes (pageOf src db userId now i)))
        as [ninit [nd Hnl]].
      { intro Hnil. rewrite Hnil in H1. destruct init; discriminate H1. }
      exists nd. rewrite Hnl, last_map_Some. split; [reflexivity|].
      rewrite Hnl, map_app in H1. simpl in H1.
      apply app_inj_tail in H1. destruct H1 as [_ H1]. rewrite <- H1. reflexivity.
  - split.
    + rewrite H2, H3. split; [discriminate | congruence].
    + intros c Hc. rewrite H3 in Hc. discriminate.
Qed.

Lemma offersResolver_nextCursor_witness :
  let src := Sample.pagedOutlets Sample.plainIds in
  let res := pageOf src (Sample.indexOf src) "u1" 5000 Sample.pageOfOne in
  fst (Resolver.offersResolver Sample.json src (Sample.indexOf src) None "u1" 5000
         (Some Sample.pageOfOne))
  = Js.Normal (Resolver.Built res)
  /\ Resolver.nextCursor res <> None
  /\ exists nd, last (map Some (Resolver.nodes res)) None = Some nd
                /\ Filters.encodeCursor 1000 "o1"
                   = Filters.encodeCursor (Resolver.__sortKey nd)
                                          (Schema.o_id (Resolver.outlet nd)).
Proof.
  intros src res. split; [reflexivity|].
  destruct (offersResolver_nextCursor Sample.json src (Sample.indexOf src) None "u1" 5000
              (Some Sample.pageOfOne) res eq_refl) as [H1 H2].
  split.
  - apply H1. reflexivity.
  - apply H2. reflexivity.
Defined.

Lemma before_sortKey (a b : Resolver.Row) :
  beforeP a b -> Resolver.sortKey b <= Resolver.sortKey a.
Proof.
  unfold beforeP, Resolver.before. intro H. apply orb_prop in H. destruct H as [H|H].
  - apply Z.ltb_lt in H. lia.
  - apply andb_prop in H. destruct H as [H _]. apply Z.eqb_eq in H. lia.
Qed.

Lemma nodes_sortKeys (nodes : list Resolver.Node) :
  StronglySorted beforeP (map nodeRow nodes) ->
  StronglySorted (fun a b => Resolver.__sortKey b <= Resolver.__sortKey a) nodes.
Proof.
  induction nodes as [|nd nodes IH]; cbn [map]; intro H; [constructor|].
  inversion H as [|x xs Hs Ha]; subst. constructor; [auto|].
  rewrite Forall_forall in *. intros y Hy.
  apply (before_sortKey (nodeRow nd) (nodeRow y)). apply Ha. now apply in_map.
Qed.

(** Along a page that the resolver computes the sort key never increases,
    and no outlet appears twice. *)
Theorem offersResolver_nodes_ordered (J : Resolver.Json) src db redis userId now
        (input : option Resolver.OffersInput) (res : Resolver.Connection) :
  fst (Resolver.offersResolver J src db redis userId now input)
  = Js.Normal (Resolver.Built res) ->
  StronglySorted (fun a b => Resolver.__sortKey b <= Resolver.__sortKey a) (Resolver.nodes res)
  /\ NoDup (map (fun nd => Schema.o_id (Resolver.outlet nd)) (Resolver.nodes res)).
Proof.
  intro Hb. destruct (offersResolver_built J src db redis userId now input res Hb) as [-> _].
  destruct (pageOf_rows src db userId now (inputOf input)) as (H1 & _ & _).
  cbv zeta in H1. split.
  - apply nodes_sortKeys. rewrite H1. apply StronglySorted_firstn, G_sorted.
  - replace (map (fun nd => Schema.o_id (Resolver.outlet nd))
                 (Resolver.nodes (pageOf src db userId now (inputOf input))))
      with (map Resolver.outletId
                (map nodeRow (Resolver.nodes (pageOf src db userId now (inputOf input)))))
      by (rewrite map_map; reflexivity).
    rewrite H1. apply NoDup_map_firstn, G_NoDup.
Qed.

Lemma offersResolver_nodes_ordered_witness :
  let res := pageOf Sample.sourceOffers Sample.indexOffers "u1" 5000 Resolver.emptyInput in
  fst (Resolver.offersResolver Sample.json Sample.sourceOffers Sample.indexOffers None
         "u1" 5000 None)
  = Js.Normal (Resolver.Built res)
  /\ (2 <= List.length (Resolver.nodes res))%nat
  /\ StronglySorted (fun a b => Resolver.__sortKey b <= Resolver.__sortKey a)
       (Resolver.nodes res).
Proof.
  intro res. split; [reflexivity|]. split; [vm_compute; lia|].
  apply (proj1 (offersResolver_nodes_ordered Sample.json Sample.sourceOffers
                  Sample.indexOffers None "u1" 5000 None res eq_refl)).
Defined.

(** ** What a node has passed *)

Lemma G_static src db userId now input (r : Resolver.Row) :
  In r (eligibleRows src db userId now input) ->
  exists o m k,
    In o (Schema.outlets src) /\ Schema.o_id o = Resolver.outletId r
    /\ In m (Schema.merchants src) /\ Schema.m_id m = Schema.o_merchantId o
    /\ Sql.isTrue (Resolver.staticWhere src
                     (option_map Js.trim (Resolver.category input))
                     (option_map Js.trim (Resolver.search input)) o m) = true
    /\ In (Resolver.mkRow (Resolver.outletId r) k)
          (Resolver.eligible_outlets db userId now (minBpsOf input) (maxBpsOf input)).
Proof.
  intro Hin. unfold eligibleRows in Hin.
  apply (Permutation_in _ (orderBy_perm _)) in Hin.
  apply (in_map Resolver.outletId) in Hin.
  rewrite grouped_ids in Hin. apply nodup_In in Hin.
  apply in_map_iff in Hin. destruct Hin as [e [He Hin]].
  unfold Resolver.joined in Hin. apply in_flat_map in Hin.
  destruct Hin as [e' [He' Hin]]. apply in_flat_map in Hin.
  destruct Hin as [o [Ho Hin]]. apply in_flat_map in Hin.
  destruct Hin as [m [Hm Hin]].
  destruct (Sql.isTrue _) eqn:Hs; [|contradiction].
  destruct Hin as [->|[]].
  apply filter_In in Ho. destruct Ho as [Ho Hid]. apply String.eqb_eq in Hid.
  apply filter_In in Hm. destruct Hm as [Hm Hmid]. apply String.eqb_eq in Hmid.
  exists o, m, (Resolver.sortKey e). rewrite <- He.
  repeat split; try assumption.
  now destruct e.
Qed.

Lemma find_key {A : Type} (f : A -> string) (l : list A) (a : A) (k : string) :
  NoDup (map f l) -> In a l -> f a = k -> find (fun x => f x =? k) l = Some a.
Proof. intros Hn Hin <-. now apply find_by_key. Qed.

Lemma nodes_source src db userId now (i : Resolver.OffersInput) (nd : Resolver.Node) :
  In nd (Resolver.nodes (pageOf src db userId now i)) ->
  exists r,
    In r (eligibleRows src db userId now i)
    /\ find (fun o => Schema.o_id o =? Resolver.outletId r) (Schema.outlets src)
       = Some (Resolver.outlet nd)
    /\ Resolver.Merchant_ nd
       = find (fun m => Schema.m_id m =? Schema.o_merchantId (Resolver.outlet nd))
              (Schema.merchants src).
Proof.
  unfold pageOf, Resolver.resultOf. cbn [Resolver.nodes].
  intro Hin. apply in_map_iff in Hin. destruct Hin as [o [<- Hin]].
  apply in_flat_map in Hin. destruct Hin as [id [Hid Ho]].
  apply in_map_iff in Hid. destruct Hid as [r [<- Hr]].
  exists r. cbn [Resolver.outlet Resolver.Merchant_]. split; [|split; [|reflexivity]].
  - apply In_firstn in Hr. apply In_firstn in Hr. exact Hr.
  - destruct (find _ (Schema.outlets src)) as [o'|]; [|contradiction].
    destruct Ho as [->|[]]. reflexivity.
Qed.

(** What every node of a page that the resolver computes has passed, when
    outlet ids and merchant ids are unique in their tables: the outlet is a
    row of the Outlet table, is active, has an approved review and an
    active, not deleted paybill or till with an approved review; its
    merchant is attached and is Active; and the index offers the outlet to
    the user under the percentage bounds of the request. *)
Theorem offersResolver_nodes_pass (J : Resolver.Json) src db redis userId now
        (input : option Resolver.OffersInput) (res : Resolver.Connection) :
  fst (Resolver.offersResolver J src db redis userId now input)
  = Js.Normal (Resolver.Built res) ->
  NoDup (map Schema.o_id (Schema.outlets src)) ->
  NoDup (map Schema.m_id (Schema.merchants src)) ->
  forall nd, In nd (Resolver.nodes res) ->
    In (Resolver.outlet nd) (Schema.outlets src)
    /\ Schema.o_isActive (Resolver.outlet nd) = true
    /\ Resolver.reviewStatus src (Schema.o_reviewId (Resolver.outlet nd)) = Some "Approved"
    /\ Resolver.hasPaybillOrTill src (Resolver.outlet nd) = true
    /\ (exists m, Resolver.Merchant_ nd = Some m
                  /\ Schema.m_id m = Schema.o_merchantId (Resolver.outlet nd)
                  /\ Schema.m_status m = "Active")
    /\ (exists k, In (Resolver.mkRow (Schema.o_id (Resolver.outlet nd)) k)
                     (Resolver.eligible_outlets db userId now
                        (minBpsOf (inputOf input)) (maxBpsOf (inputOf input)))).
Proof.
  intros Hb Ho Hm nd Hin.
  destruct (offersResolver_built J src db redis userId now input res Hb) as [-> _].
  destruct (nodes_source src db userId now (inputOf input) nd Hin) as (r & Hr & Hout & Hmer).
  destruct (G_static src db userId now (inputOf input) r Hr)
    as (o & m & k & Hio & Hid & Him & Hmid & Hs & Hel).
  rewrite (find_key Schema.o_id _ o _ Ho Hio Hid) in Hout. injection Hout as Hout. subst o.
  rewrite (find_key Schema.m_id _ m _ Hm Him Hmid) in Hmer.
  unfold Resolver.staticWhere in Hs. rewrite !isTrue_and, !isTrue_lift in Hs.
  apply andb_prop in Hs. destruct Hs as [Hact Hs].
  apply andb_prop in Hs. destruct Hs as [Hrev Hs].
  apply andb_prop in Hs. destruct Hs as [Hst Hs].
  apply andb_prop in Hs. destruct Hs as [_ Hs].
  apply andb_prop in Hs. destruct Hs as [_ Hpay].
  split; [exact Hio|]. split; [exact Hact|]. split.
  { destruct (Resolver.reviewStatus src _) as [s|]; [|discriminate].
    simpl in Hrev. destruct (String.eqb_spec s "Approved"); [now subst | discriminate]. }
  split; [exact Hpay|]. split.
  - exists m. split; [exact Hmer|]. split; [exact Hmid|]. now apply String.eqb_eq.
  - exists k. rewrite Hid. exact Hel.
Qed.

Lemma sample_outlets_NoDup :
  NoDup (map Schema.o_id (Schema.outlets Sample.sourceOffers))
  /\ NoDup (map Schema.m_id (Schema.merchants Sample.sourceOffers)).
Proof.
  split; repeat (constructor; [simpl; intuition discriminate|]); constructor.
Qed.

Lemma offersResolver_nodes_pass_witness :
  let res := pageOf Sample.sourceOffers Sample.indexOffers "u1" 5000 Resolver.emptyInput in
  fst (Resolver.offersResolver Sample.json Sample.sourceOffers Sample.indexOffers None
         "u1" 5000 None)
  = Js.Normal (Resolver.Built res)
  /\ Resolver.nodes res <> []
  /\ Forall
       (fun nd =>
          Schema.o_isActive (Resolver.outlet nd) = true
          /\ Resolver.reviewStatus Sample.sourceOffers (Schema.o_reviewId (Resolver.outlet nd))
             = Some "Approved"
          /\ Resolver.hasPaybillOrTill Sample.sourceOffers (Resolver.outlet nd) = true
          /\ exists m, Resolver.Merchant_ nd = Some m /\ Schema.m_status m = "Active")
       (Resolver.nodes res).
Proof.
  intro res. split; [reflexivity|]. split; [discriminate|].
  apply Forall_forall. intros nd Hin.
  destruct (offersResolver_nodes_pass Sample.json Sample.sourceOffers Sample.indexOffers
              None "u1" 5000 None res eq_refl
              (proj1 sample_outlets_NoDup) (proj2 sample_outlets_NoDup) nd Hin)
    as (_ & H1 & H2 & H3 & (m & H4 & _ & H5) & _).
  split; [exact H1|]. split; [exact H2|]. split; [exact H3|]. exists m. split; assumption.
Defined.

(** The filters of the request hold of every node of a page that the
    resolver computes, when outlet ids and merchant ids are unique in their
    tables: a category that is not blank after trimming is the category of
    the merchant, and a search text that is not blank after trimming
    occurs, up to case, in the name of the outlet, in its description or in
    the business name of the merchant. *)
Theorem offersResolver_nodes_match (J : Resolver.Json) src db redis userId now
        (input : option Resolver.OffersInput) (res : Resolver.Connection) :
  fst (Resolver.offersResolver J src db redis userId now input)
  = Js.Normal (Resolver.Built res) ->
  NoDup (map Schema.o_id (Schema.outlets src)) ->
  NoDup (map Schema.m_id (Schema.merchants src)) ->
  forall nd, In nd (Resolver.nodes res) ->
    exists m,
      Resolver.Merchant_ nd = Some m
      /\ (forall c, Resolver.truthy (option_map Js.trim (Resolver.category (inputOf input)))
                    = Some c ->
                    Schema.m_category m = c)
      /\ (forall s, Resolver.truthy (option_map Js.trim (Resolver.search (inputOf input)))
                    = Some s ->
                    occursIn true s (Schema.o_name (Resolver.outlet nd))
                    || occursIn true s
                         (Sql.COALESCE (Schema.o_description (Resolver.outlet nd)) "")
                    || occursIn true s (Schema.m_businessName m) = true).
Proof.
  intros Hb Ho Hm nd Hin.
  destruct (offersResolver_built J src db redis userId now input res Hb) as [-> _].
  destruct (nodes_source src db userId now (inputOf input) nd Hin) as (r & Hr & Hout & Hmer).
  destruct (G_static src db userId now (inputOf input) r Hr)
    as (o & m & k & Hio & Hid & Him & Hmid & Hs & Hel).
  rewrite (find_key Schema.o_id _ o _ Ho Hio Hid) in Hout. injection Hout as Hout. subst o.
  rewrite (find_key Schema.m_id _ m _ Hm Him Hmid) in Hmer.
  unfold Resolver.staticWhere in Hs. rewrite !isTrue_and in Hs.
  apply andb_prop in Hs. destruct Hs as [_ Hs].
  apply andb_prop in Hs. destruct Hs as [_ Hs].
  apply andb_prop in Hs. destruct Hs as [_ Hs].
  apply andb_prop in Hs. destruct Hs as [Hcat Hs].
  apply andb_prop in Hs. destruct Hs as [Hsearch _].
  exists m. split; [exact Hmer|]. split.
  - intros c Hc. rewrite Hc, isTrue_lift in Hcat. now apply String.eqb_eq.
  - intros s Hsr. rewrite Hsr, isTrue_lift, !like_escapeLike in Hsearch. exact Hsearch.
Qed.

Lemma offersResolver_nodes_match_witness :
  let request := Resolver.mkOffersInput (Some " coffee ") (Some "Cafe") None None None in
  let res := pageOf Sample.sourceOffers Sample.indexOffers "u1" 5000 request in
  fst (Resolver.offersResolver Sample.json Sample.sourceOffers Sample.indexOffers None
         "u1" 5000 (Some request))
  = Js.Normal (Resolver.Built res)
  /\ Resolver.nodes res <> []
  /\ Forall
       (fun nd =>
          exists m, Resolver.Merchant_ nd = Some m
                    /\ Schema.m_category m = "Cafe"
                    /\ occursIn true "coffee" (Schema.o_name (Resolver.outlet nd))
                       || occursIn true "coffee"
                            (Sql.COALESCE (Schema.o_description (Resolver.outlet nd)) "")
                       || occursIn true "coffee" (Schema.m_businessName m) = true)
       (Resolver.nodes res).
Proof.
  intros request res. split; [reflexivity|]. split; [discriminate|].
  apply Forall_forall. intros nd Hin.
  destruct (offersResolver_nodes_match Sample.json Sample.sourceOffers Sample.indexOffers
              None "u1" 5000 (Some request) res eq_refl
              (proj1 sample_outlets_NoDup) (proj2 sample_outlets_NoDup) nd Hin)
    as (m & H1 & H2 & H3).
  exists m. split; [exact H1|]. split.
  - apply H2. reflexivity.
  - apply H3. reflexivity.
Defined.

(** ** A page without a next page *)

(** A page that the resolver computes and that reports no next page is
    complete: it holds every outlet of the Outlet table that passes, with a
    merchant of the Merchant table that it belongs to, the conditions of
    the statement on outlet and merchant, and that the index offers to the
    user under the percentage bounds of the request. *)
Theorem offersResolver_page_complete (J : Resolver.Json) src db redis userId now
        (input : option Resolver.OffersInput) (res : Resolver.Connection) :
  fst (Resolver.offersResolver J src db redis userId now input)
  = Js.Normal (Resolver.Built res) ->
  Resolver.hasNextPage res = false ->
  forall o m k,
    In o (Schema.outlets src) ->
    In m (Schema.merchants src) ->
    Schema.m_id m = Schema.o_merchantId o ->
    Sql.isTrue (Resolver.staticWhere src
                  (option_map Js.trim (Resolver.category (inputOf input)))
                  (option_map Js.trim (Resolver.search (inputOf input))) o m) = true ->
    In (Resolver.mkRow (Schema.o_id o) k)
       (Resolver.eligible_outlets db userId now
          (minBpsOf (inputOf input)) (maxBpsOf (inputOf input))) ->
    exists nd, In nd (Resolver.nodes res) /\ Schema.o_id (Resolver.outlet nd) = Schema.o_id o.
Proof.
  intros Hb Hnext o m k Ho Hm Hmid Hs He.
  destruct (offersResolver_built J src db redis userId now input res Hb) as [-> _].
  set (i := inputOf input) in *.
  destruct (pageOf_rows src db userId now i) as (H1 & H2 & _).
  cbv zeta in H1, H2. rewrite H2 in Hnext. apply Nat.ltb_ge in Hnext.
  rewrite firstn_all2 in H1 by exact Hnext.
  destruct (G_complete src db userId now i o m k Ho Hm Hmid Hs He) as [r [Hr Hid]].
  rewrite <- H1 in Hr. apply in_map_iff in Hr. destruct Hr as [nd [Hnd Hin]].
  exists nd. split; [exact Hin|]. rewrite <- Hid, <- Hnd. reflexivity.
Qed.

Lemma offersResolver_page_complete_witness :
  let src := Sample.pagedOutlets Sample.plainIds in
  let res := pageOf src (Sample.indexOf src) "u1" 5000 Resolver.emptyInput in
  fst (Resolver.offersResolver Sample.json src (Sample.indexOf src) None "u1" 5000 None)
  = Js.Normal (Resolver.Built res)
  /\ Resolver.hasNextPage res = false
  /\ exists nd, In nd (Resolver.nodes res) /\ Schema.o_id (Resolver.outlet nd) = "o2".
Proof.
  intros src res. split; [reflexivity|]. split; [reflexivity|].
  apply (offersResolver_page_complete Sample.json src (Sample.indexOf src) None "u1" 5000
           None res eq_refl eq_refl
           (Schema.mkOutlet "o2" "m_1" true (Some "r_ok") "o2" None)
           (Schema.mkMerchant "m_1" "Active" "Food" "Merchant One" None) 1000).
  - right; left; reflexivity.
  - left; reflexivity.
  - reflexivity.
  - reflexivity.
  - vm_compute. right; left; reflexivity.
Defined.

(** ** Cursors and blank filters *)

Lemma split_parts_noColon (s : string) :
  Forall (fun part => noColon part = true) (Js.split ":" s).
Proof.
  induction s as [|c s IH]; cbn [Js.split].
  - repeat constructor.
  - destruct (Ascii.eqb c ":") eqn:E.
    + constructor; [reflexivity | exact IH].
    + destruct (Js.split ":" s) as [|h t].
      * repeat constructor. unfold noColon. cbn [everyChar]. now rewrite E.
      * inversion IH as [|x xs Hh Ht]; subst. constructor; [|exact Ht].
        unfold noColon in *. cbn [everyChar]. now rewrite E, Hh.
Qed.

(** The outlet id of a decoded cursor is never empty and never holds a
    colon; a cursor whose decoded text has no colon at all is refused; and
    the cursor made for an outlet id that holds a colon never decodes to
    that id. *)
Theorem decodeCursor_outletId_has_no_colon :
  (forall cursor k, Filters.decodeCursor cursor = Some k ->
                    Filters.outletId k <> "" /\ noColon (Filters.outletId k) = true)
  /\ (forall c, noColon (Js.utf8ToString (Js.base64Decode c)) = true ->
                Filters.decodeCursor (Some c) = None)
  /\ (forall sortKey outletId,
        noColon outletId = false ->
        Filters.decodeCursor (Some (Filters.encodeCursor sortKey outletId))
        <> Some (Filters.mkCursor (inject_Z sortKey) outletId)).
Proof.
  assert (H1 : forall cursor k, Filters.decodeCursor cursor = Some k ->
                 Filters.outletId k <> "" /\ noColon (Filters.outletId k) = true).
  { intros [c|] k; [|discriminate]. unfold Filters.decodeCursor.
    destruct c as [|c0 c]; [discriminate|].
    set (raw := Js.utf8ToString (Js.base64Decode (String c0 c))).
    pose proof (split_parts_noColon raw) as Hparts.
    destruct (Js.StringToNumber _) as [| |q|]; try discriminate.
    destruct (nth_error (Js.split ":" raw) 1) as [[|a r]|] eqn:En; try discriminate.
    intro H. injection H as <-. simpl. split; [discriminate|].
    apply nth_error_In in En. rewrite Forall_forall in Hparts. exact (Hparts _ En). }
  split; [exact H1|]. split.
  - intros c Hc. unfold Filters.decodeCursor. destruct c as [|c0 c]; [reflexivity|].
    rewrite (split_noColon _ Hc). simpl.
    destruct (Js.StringToNumber _); reflexivity.
  - intros sortKey outletId Hcolon H. apply H1 in H. simpl in H. destruct H as [_ H].
    congruence.
Qed.

Lemma decodeCursor_outletId_has_no_colon_witness :
  noColon "o1" = true
  /\ Filters.decodeCursor (Some (Js.base64Encode "1000")) = None
  /\ Filters.decodeCursor (Some (Filters.encodeCursor 1000 "a:b"))
     <> Some (Filters.mkCursor (inject_Z 1000) "a:b").
Proof.
  destruct decodeCursor_outletId_has_no_colon as (H1 & H2 & H3).
  split.
  - apply (H1 (Some (Filters.encodeCursor 1000 "o1")) (Filters.mkCursor (inject_Z 1000) "o1")).
    reflexivity.
  - split.
    + apply H2. reflexivity.
    + apply H3. reflexivity.
Defined.

Lemma pageOf_blank src db userId now (blank : string) (search category : option string)
      (percentage : option Resolver.CashbackPercentageFilters)
      (take : option Z) (cursor : option string) :
  everyChar Js.isWhiteSpace1 blank = true ->
  pageOf src db userId now (Resolver.mkOffersInput (Some blank) category percentage take cursor)
  = pageOf src db userId now (Resolver.mkOffersInput None category percentage take cursor)
  /\ pageOf src db userId now
       (Resolver.mkOffersInput search (Some blank) percentage take cursor)
     = pageOf src db userId now (Resolver.mkOffersInput search None percentage take cursor).
Proof.
  intro H. unfold pageOf, eligibleRows, pageSize.
  cbn [Resolver.take Resolver.cursor Resolver.search Resolver.category Resolver.percentage
       option_map].
  rewrite (trim_blank blank H). split; reflexivity.
Qed.

(** A search text or a category made of white space only gives the page of
    the request without it: both are trimmed before use, and the empty
    text then counts as absent.  Without a cache the two requests are
    answered alike; with a cache, whose key is made from the text as sent,
    the pages that the resolver computes for the two are the same page. *)
Theorem blank_search_is_no_search (J : Resolver.Json) (src : Schema.Source)
        (db : Schema.Index) (userId : string) (now : Z) (blank : string)
        (search category : option string)
        (percentage : option Resolver.CashbackPercentageFilters)
        (take : option Z) (cursor : option string) :
  everyChar Js.isWhiteSpace1 blank = true ->
  let withSearch s := Some (Resolver.mkOffersInput s category percentage take cursor) in
  let withCategory c := Some (Resolver.mkOffersInput search c percentage take cursor) in
  Resolver.offersResolver J src db None userId now (withSearch (Some blank))
  = Resolver.offersResolver J src db None userId now (withSearch None)
  /\ Resolver.offersResolver J src db None userId now (withCategory (Some blank))
     = Resolver.offersResolver J src db None userId now (withCategory None)
  /\ (forall redis redis' res res',
         fst (Resolver.offersResolver J src db redis userId now (withSearch (Some blank)))
         = Js.Normal (Resolver.Built res) ->
         fst (Resolver.offersResolver J src db redis' userId now (withSearch None))
         = Js.Normal (Resolver.Built res') ->
         res = res')
  /\ (forall redis redis' res res',
         fst (Resolver.offersResolver J src db redis userId now (withCategory (Some blank)))
         = Js.Normal (Resolver.Built res) ->
         fst (Resolver.offersResolver J src db redis' userId now (withCategory None))
         = Js.Normal (Resolver.Built res') ->
         res = res').
Proof.
  intros H withSearch withCategory.
  destruct (pageOf_blank src db userId now blank search category percentage take cursor H)
    as [Hs Hc].
  split; [|split; [|split]].
  - rewrite !offersResolver_no_cache by (left; reflexivity).
    unfold withSearch, inputOf. cbn [Resolver.cursor]. now rewrite Hs.
  - rewrite !offersResolver_no_cache by (left; reflexivity).
    unfold withCategory, inputOf. cbn [Resolver.cursor]. now rewrite Hc.
  - intros redis redis' res res' Hb Hb'.
    apply offersResolver_built in Hb. apply offersResolver_built in Hb'.
    destruct Hb as [-> _]. destruct Hb' as [-> _]. exact Hs.
  - intros redis redis' res res' Hb Hb'.
    apply offersResolver_built in Hb. apply offersResolver_built in Hb'.
    destruct Hb as [-> _]. destruct Hb' as [-> _]. exact Hc.
Qed.

Lemma blank_search_is_no_search_witness :
  Resolver.offersResolver Sample.json Sample.sourceOffers Sample.indexOffers None "u1" 5000
    (Some (Resolver.mkOffersInput (Some "  ") (Some "Cafe") None None None))
  = Resolver.offersResolver Sample.json Sample.sourceOffers Sample.indexOffers None "u1" 5000
      (Some (Resolver.mkOffersInput None (Some "Cafe") None None None))
  /\ forall res res',
       fst (Resolver.offersResolver Sample.json Sample.sourceOffers Sample.indexOffers
              (Some []) "u1" 5000
              (Some (Resolver.mkOffersInput (Some "  ") (Some "Cafe") None None None)))
       = Js.Normal (Resolver.Built res) ->
       fst (Resolver.offersResolver Sample.json Sample.sourceOffers Sample.indexOffers
              (Some Sample.storeWithPage) "u1" 5000
              (Some (Resolver.mkOffersInput None (Some "Cafe") None None None)))
       = Js.Normal (Resolver.Built res') ->
       res = res'.
Proof.
  destruct (blank_search_is_no_search Sample.json Sample.sourceOffers Sample.indexOffers
              "u1" 5000 "  " None (Some "Cafe") None None None eq_refl)
    as (H1 & _ & H3 & _).
  split; [exact H1|].
  intros res res'. apply (H3 (Some []) (Some Sample.storeWithPage) res res').
Defined.

(** ** The batch functions of the loaders *)

Lemma JsMap_get_set {V : Type} (m : JsMap.t V) (k k' : string) (v : V) :
  JsMap.get (JsMap.set m k v) k' = if k =? k' then Some v else JsMap.get m k'.
Proof.
  induction m as [|[k0 v0] m IH]; simpl.
  - reflexivity.
  - destruct (String.eqb_spec k0 k) as [->|Hk]; simpl.
    + destruct (k =? k'); reflexivity.
    + rewrite IH. destruct (String.eqb_spec k0 k') as [->|Hk'].
      * destruct (String.eqb_spec k k'); [congruence | reflexivity].
      * reflexivity.
Qed.

Lemma groupBy_fold {T : Type} (key : T -> string) (rows : list T) (m : JsMap.t (list T))
      (k : string) :
  JsMap.get
    (fold_left
       (fun m r =>
          JsMap.set m (key r) ((match JsMap.get m (key r) with Some a => a | None => [] end) ++ [r]))
       rows m) k
  = match filter (fun r => key r =? k) rows with
    | [] => JsMap.get m k
    | g => Some ((match JsMap.get m k with Some a => a | None => [] end) ++ g)
    end.
Proof.
  revert m. induction rows as [|r rows IH]; intro m; simpl; [reflexivity|].
  rewrite IH, JsMap_get_set.
  destruct (String.eqb_spec (key r) k) as [E|E].
  - subst k. destruct (filter _ rows) as [|g gs].
    + reflexivity.
    + now rewrite <- app_assoc.
  - reflexivity.
Qed.

Lemma groupBy_get {T : Type} (rows : list T) (key : T -> string) (k : string) :
  JsMap.get (Loaders.groupBy rows key) k
  = match filter (fun r => key r =? k) rows with
    | [] => None
    | g => Some g
    end.
Proof.
  unfold Loaders.groupBy. cbv zeta. rewrite groupBy_fold. simpl.
  destruct (filter _ rows); reflexivity.
Qed.

Lemma groupBy_get_or_nil {T : Type} (rows : list T) (key : T -> string) (k : string) :
  match JsMap.get (Loaders.groupBy rows key) k with Some a => a | None => [] end
  = filter (fun r => key r =? k) rows.
Proof. rewrite groupBy_get. destruct (filter _ rows); reflexivity. Qed.

(** Looking a key up in the map [groupBy] builds gives the rows with that
    key, in the order of the input; a key that no row has is absent from
    the map. *)
Theorem groupBy_lookup {T : Type} (rows : list T) (key : T -> string) (k : string) :
  JsMap.get (Loaders.groupBy rows key) k
  = match filter (fun r => key r =? k) rows with
    | [] => None
    | g => Some g
    end.
Proof. apply groupBy_get. Qed.

Lemma find_app {A : Type} (p : A -> bool) (l1 l2 : list A) :
  find p (l1 ++ l2) = match find p l1 with Some a => Some a | None => find p l2 end.
Proof. induction l1 as [|a l1 IH]; simpl; [reflexivity|]. destruct (p a); auto. Qed.

Lemma ofEntries_fold {T : Type} (id : T -> string) (l : list T) (m : JsMap.t T) (i : string) :
  JsMap.get (fold_left (fun m e => JsMap.set m (fst e) (snd e))
                       (map (fun o => (id o, o)) l) m) i
  = match find (fun o => id o =? i) (rev l) with
    | Some o => Some o
    | None => JsMap.get m i
    end.
Proof.
  revert m. induction l as [|a l IH]; intro m; simpl; [reflexivity|].
  rewrite IH, find_app. destruct (find _ (rev l)); [reflexivity|].
  simpl. rewrite JsMap_get_set. destruct (id a =? i); reflexivity.
Qed.

Lemma get_ofEntries {T : Type} (id : T -> string) (l : list T) (i : string) :
  JsMap.get (JsMap.ofEntries (map (fun o => (id o, o)) l)) i
  = find (fun o => id o =? i) (rev l).
Proof.
  unfold JsMap.ofEntries. rewrite ofEntries_fold. simpl.
  destruct (find _ (rev l)); reflexivity.
Qed.

Lemma arrayFromSet_fold (xs seen : list string) (i : string) :
  In i (fold_left (fun seen x => if existsb (String.eqb x) seen then seen else seen ++ [x])
                  xs seen)
  <-> In i seen \/ In i xs.
Proof.
  revert seen. induction xs as [|x xs IH]; intro seen; simpl; [tauto|].
  rewrite IH. destruct (existsb (String.eqb x) seen) eqn:E.
  - apply existsb_exists in E. destruct E as [y [Hy E]]. apply String.eqb_eq in E. subst y.
    split; [tauto|]. intros [H|[<-|H]]; auto.
  - rewrite in_app_iff. simpl. tauto.
Qed.

Lemma arrayFromSet_In (xs : list string) (i : string) :
  In i (JsMap.arrayFromSet xs) <-> In i xs.
Proof. unfold JsMap.arrayFromSet. rewrite arrayFromSet_fold. simpl. tauto. Qed.

Lemma truthyIds_In (xs : list (option string)) (i : string) :
  In i (Loaders.truthyIds xs) <-> In (Some i) xs /\ i <> "".
Proof.
  unfold Loaders.truthyIds. rewrite in_flat_map. split.
  - intros [x [Hx Hi]]. destruct x as [[|a s]|]; simpl in Hi; try contradiction.
    destruct Hi as [<-|[]]. split; [exact Hx | discriminate].
  - intros [Hx Hne]. exists (Some i). split; [exact Hx|].
    destruct i; [congruence | now left].
Qed.

Lemma find_filter_implied {A : Type} (p q : A -> bool) (l : list A) :
  (forall x, p x = true -> q x = true) -> find p (filter q l) = find p l.
Proof.
  intro H. induction l as [|a l IH]; simpl; [reflexivity|].
  destruct (q a) eqn:Hq; simpl.
  - destruct (p a); auto.
  - destruct (p a) eqn:Hp; [rewrite (H a Hp) in Hq; discriminate | exact IH].
Qed.

Lemma find_filter_excluded {A : Type} (p q : A -> bool) (l : list A) :
  (forall x, p x = true -> q x = false) -> find p (filter q l) = None.
Proof.
  intro H. induction l as [|a l IH]; simpl; [reflexivity|].
  destruct (q a) eqn:Hq; simpl; [|exact IH].
  destruct (p a) eqn:Hp; [rewrite (H a Hp) in Hq; discriminate | exact IH].
Qed.

Lemma rev_filter {A : Type} (q : A -> bool) (l : list A) :
  rev (filter q l) = filter q (rev l).
Proof.
  induction l as [|a l IH]; simpl; [reflexivity|].
  rewrite filter_app. simpl. destruct (q a); simpl; rewrite IH; [reflexivity|].
  now rewrite app_nil_r.
Qed.

Lemma fetched_or_all {T : Type} (id : T -> string) (table : list T) (ids : list string) :
  match ids with
  | [] => []
  | _ => filter (fun o => existsb (String.eqb (id o)) ids) table
  end
  = filter (fun o => existsb (String.eqb (id o)) ids) table.
Proof.
  destruct ids; [|reflexivity]. simpl. induction table; simpl; auto.
Qed.

(** The lookup the three batch functions make for one row. *)
Lemma offerById_get {T : Type} (id : T -> string) (table : list T)
      (cols : list (option string)) (col : option string) :
  In col cols ->
  match col with
  | Some i =>
      match JsMap.get
              (JsMap.ofEntries
                 (map (fun o => (id o, o))
                      match JsMap.arrayFromSet (Loaders.truthyIds cols) with
                      | [] => []
                      | _ => filter (fun o => existsb (String.eqb (id o))
                                                  (JsMap.arrayFromSet (Loaders.truthyIds cols)))
                                    table
                      end)) i
      with
      | Some o => [o]
      | None => []
      end
  | None => []
  end
  = offerOfRow id table col.
Proof.
  intro Hin. unfold offerOfRow. destruct col as [i|]; [|reflexivity].
  rewrite (fetched_or_all id table), get_ofEntries, rev_filter.
  destruct i as [|a s].
  - simpl Resolver.truthy. cbv iota.
    rewrite find_filter_excluded; [reflexivity|].
    intros x Hx. apply String.eqb_eq in Hx.
    destruct (existsb _ _) eqn:E; [|reflexivity].
    apply existsb_exists in E. destruct E as [y [Hy E]]. apply String.eqb_eq in E.
    apply arrayFromSet_In, truthyIds_In in Hy. destruct Hy as [_ Hne]. congruence.
  - simpl Resolver.truthy. cbv iota.
    rewrite find_filter_implied; [reflexivity|].
    intros x Hx. apply String.eqb_eq in Hx. apply existsb_exists.
    exists (String a s). split; [|now apply String.eqb_eq].
    apply arrayFromSet_In, truthyIds_In. split; [exact Hin | discriminate].
Qed.

Lemma flat_map_ext_in {A B : Type} (f g : A -> list B) (l : list A) :
  (forall x, In x l -> f x = g x) -> flat_map f l = flat_map g l.
Proof.
  induction l as [|a l IH]; simpl; intro H; [reflexivity|].
  rewrite (H a (or_introl eq_refl)), IH; [reflexivity|]. intros x Hx. apply H. now right.
Qed.

Lemma filter_flat_map {T U : Type} (keep : U -> bool) (each : T -> list U) (xs : list T) :
  filter keep (flat_map each xs) = flat_map (fun x => filter keep (each x)) xs.
Proof.
  induction xs as [|x xs IH]; simpl; [reflexivity|]. now rewrite filter_app, IH.
Qed.

(** The rows of one outlet do not depend on the other outlets of the batch. *)
Lemma rows_of_outlet (db : Schema.Index) (userId : string) (kind : Schema.OfferKind) (now : Z)
      (outletIds : list string) (oid : string) :
  In oid outletIds ->
  filter (fun r => Loaders.outletId r =? oid)
         (Loaders.eligibleOfferIndexRowsForOutlets db userId outletIds kind now)
  = Loaders.eligibleOfferIndexRowsForOutlets db userId [oid] kind now.
Proof.
  intro Hin. unfold Loaders.eligibleOfferIndexRowsForOutlets.
  rewrite filter_flat_map. apply flat_map_ext_in. intros oi _.
  unfold Loaders.loaderRowsOf. rewrite filter_flat_map.
  apply flat_map_ext_in. intros oio _.
  rewrite filter_flat_map. apply flat_map_ext_in. intros p _.
  unfold Loaders.loaderWhere.
  destruct (String.eqb_spec (Schema.oio_outletId oio) oid) as [E|E].
  - assert (H1 : existsb (String.eqb (Schema.oio_outletId oio)) outletIds = true).
    { apply existsb_exists. exists oid. split; [exact Hin | now apply String.eqb_eq]. }
    assert (H2 : existsb (String.eqb (Schema.oio_outletId oio)) [oid] = true).
    { simpl. apply String.eqb_eq in E. now rewrite E. }
    rewrite H1, H2.
    destruct (Sql.isTrue _); simpl; [|reflexivity].
    apply String.eqb_eq in E. now rewrite E.
  - assert (H2 : existsb (String.eqb (Schema.oio_outletId oio)) [oid] = false).
    { simpl. apply String.eqb_neq in E. now rewrite E. }
    rewrite H2. cbn [Sql.and Sql.lift].
    replace (Sql.isTrue (if Schema.OfferKind_eqb (Schema.oi_kind oi) kind
                         then Some false else Some false)) with false
      by (now destruct (Schema.OfferKind_eqb (Schema.oi_kind oi) kind)).
    destruct (Sql.isTrue _); simpl; [|reflexivity].
    apply String.eqb_neq in E. now rewrite E.
Qed.

Section Batch.

Variables (tables : Loaders.OfferTables) (db : Schema.Index) (userId : string) (now : Z).

Lemma cashbackByOutlet_each (outletIds : list string) :
  Loaders.cashbackByOutlet tables db userId now outletIds
  = map (fun oid =>
           flat_map (fun r => offerOfRow Loaders.in_id (Loaders.cashbackConfiguration tables)
                                         (Loaders.cashbackConfigurationId r))
                    (Loaders.eligibleOfferIndexRowsForOutlets db userId [oid]
                       Schema.CASHBACK now))
        outletIds.
Proof.
  unfold Loaders.cashbackByOutlet. cbv zeta.
  apply map_ext_in. intros oid Hoid.
  rewrite groupBy_get_or_nil, (rows_of_outlet _ _ _ _ _ _ Hoid).
  rewrite <- (rows_of_outlet db userId Schema.CASHBACK now outletIds oid Hoid).
  apply flat_map_ext_in. intros r Hr. apply filter_In in Hr. destruct Hr as [Hr _].
  apply (offerById_get Loaders.in_id). now apply in_map.
Qed.

Lemma exclusiveByOutlet_each (outletIds : list string) :
  Loaders.exclusiveByOutlet tables db userId now outletIds
  = map (fun oid =>
           flat_map (fun r => offerOfRow Loaders.ind_id (Loaders.exclusiveOffer tables)
                                         (Loaders.exclusiveOfferId r))
                    (Loaders.eligibleOfferIndexRowsForOutlets db userId [oid]
                       Schema.EXCLUSIVE now))
        outletIds.
Proof.
  unfold Loaders.exclusiveByOutlet. cbv zeta.
  apply map_ext_in. intros oid Hoid.
  rewrite groupBy_get_or_nil, (rows_of_outlet _ _ _ _ _ _ Hoid).
  rewrite <- (rows_of_outlet db userId Schema.EXCLUSIVE now outletIds oid Hoid).
  apply flat_map_ext_in. intros r Hr. apply filter_In in Hr. destruct Hr as [Hr _].
  apply (offerById_get Loaders.ind_id). now apply in_map.
Qed.

Lemma loyaltyByOutlet_each (outletIds : list string) :
  Loaders.loyaltyByOutlet tables db userId now outletIds
  = map (fun oid =>
           match Loaders.eligibleOfferIndexRowsForOutlets db userId [oid] Schema.LOYALTY now with
           | [] => None
           | first :: _ =>
               hd_error (offerOfRow Loaders.in_id (Loaders.loyaltyProgram tables)
                                    (Loaders.loyaltyProgramId first))
           end)
        outletIds.
Proof.
  unfold Loaders.loyaltyByOutlet. cbv zeta.
  apply map_ext_in. intros oid Hoid.
  rewrite groupBy_get_or_nil.
  pose proof (rows_of_outlet db userId Schema.LOYALTY now outletIds oid Hoid) as Hrows.
  rewrite <- Hrows.
  destruct (filter _ _) as [|first rest] eqn:Hf; [reflexivity|].
  assert (Hin : In first (Loaders.eligibleOfferIndexRowsForOutlets db userId outletIds
                            Schema.LOYALTY now)).
  { assert (H : In first (first :: rest)) by now left.
    rewrite <- Hf in H. apply filter_In in H. tauto. }
  pose proof (offerById_get Loaders.in_id (Loaders.loyaltyProgram tables)
                (map Loaders.loyaltyProgramId
                     (Loaders.eligibleOfferIndexRowsForOutlets db userId outletIds
                        Schema.LOYALTY now))
                (Loaders.loyaltyProgramId first) (in_map _ _ _ Hin)) as Hget.
  rewrite <- Hget.
  destruct (Loaders.loyaltyProgramId first) as [[|a s]|]; simpl; try reflexivity.
  - rewrite (fetched_or_all Loaders.in_id), get_ofEntries, rev_filter.
    rewrite find_filter_excluded; [reflexivity|].
    intros x Hx. apply String.eqb_eq in Hx.
    destruct (existsb _ _) eqn:E; [|reflexivity].
    apply existsb_exists in E. destruct E as [y [Hy E]]. apply String.eqb_eq in E.
    apply arrayFromSet_In, truthyIds_In in Hy. destruct Hy as [_ Hne]. congruence.
  - destruct (JsMap.get _ _); reflexivity.
Qed.

End Batch.

Lemma flat_map_singleton {A B : Type} (f : A -> B) (l : list A) :
  flat_map (fun x => [f x]) l = map f l.
Proof. induction l as [|a l IH]; simpl; [reflexivity|]. now rewrite IH. Qed.

(** The three batch functions answer each outlet id on its own: the answer
    for a batch of ids is, position by position, the answer each id gets
    when it is asked for alone, whatever else is in the batch and however
    often an id is repeated. *)
Theorem loaders_batch_independent (tables : Loaders.OfferTables) (db : Schema.Index)
        (userId : string) (now : Z) (outletIds : list string) :
  Loaders.cashbackByOutlet tables db userId now outletIds
  = flat_map (fun oid => Loaders.cashbackByOutlet tables db userId now [oid]) outletIds
  /\ Loaders.exclusiveByOutlet tables db userId now outletIds
     = flat_map (fun oid => Loaders.exclusiveByOutlet tables db userId now [oid]) outletIds
  /\ Loaders.loyaltyByOutlet tables db userId now outletIds
     = flat_map (fun oid => Loaders.loyaltyByOutlet tables db userId now [oid]) outletIds.
Proof.
  repeat split.
  - rewrite cashbackByOutlet_each, <- flat_map_singleton.
    apply flat_map_ext. intro oid. now rewrite cashbackByOutlet_each.
  - rewrite exclusiveByOutlet_each, <- flat_map_singleton.
    apply flat_map_ext. intro oid. now rewrite exclusiveByOutlet_each.
  - rewrite loyaltyByOutlet_each, <- flat_map_singleton.
    apply flat_map_ext. intro oid. now rewrite loyaltyByOutlet_each.
Qed.

(** ** The per-outlet statement and the resolver *)

Section Rows.
Import Schema.

Lemma isNull_true {A : Type} (a : option A) : Sql.isTrue (Sql.IS_NULL a) = true <-> a = None.
Proof. destruct a; simpl; split; congruence. Qed.

Lemma OfferKind_eqb_eq (a b : OfferKind) : OfferKind_eqb a b = true <-> a = b.
Proof. destruct a, b; simpl; split; congruence. Qed.

Lemma loaderRows_In (db : Index) (userId : string) (outletIds : list string)
      (kind : OfferKind) (now : Z) (r : Loaders.LoaderRow) :
  In r (Loaders.eligibleOfferIndexRowsForOutlets db userId outletIds kind now)
  <-> exists oi oio p,
        In oi (offerIndex db) /\ In oio (offerIndexOutlet db)
        /\ oio_offerIndexId oio = oi_id oi
        /\ In p (profilesFor db userId oi)
        /\ Sql.isTrue (Loaders.loaderWhere db outletIds kind now oi oio p) = true
        /\ r = Loaders.mkLoaderRow (oio_outletId oio) (oi_id oi)
                 (oi_cashbackConfigurationId oi) (oi_exclusiveOfferId oi)
                 (oi_loyaltyProgramId oi).
Proof.
  unfold Loaders.eligibleOfferIndexRowsForOutlets, Loaders.loaderRowsOf, profilesFor.
  rewrite in_flat_map. split.
  - intros [oi [Hoi H]]. apply in_flat_map in H. destruct H as [oio [Hoio H]].
    apply in_flat_map in H. destruct H as [p [Hp H]].
    apply filter_In in Hoio. destruct Hoio as [Hoio Hid]. apply String.eqb_eq in Hid.
    destruct (Sql.isTrue _) eqn:Hw; [|contradiction]. destruct H as [<-|[]].
    exists oi, oio, p. auto 10.
  - intros (oi & oio & p & Hoi & Hoio & Hid & Hp & Hw & ->).
    exists oi. split; [exact Hoi|]. apply in_flat_map. exists oio. split.
    + apply filter_In. split; [exact Hoio | now apply String.eqb_eq].
    + apply in_flat_map. exists p. split; [exact Hp|]. rewrite Hw. now left.
Qed.

Lemma resolverRows_In (db : Index) (userId : string)
      (where_ : OfferIndex -> option UserMerchantProfile -> Sql.cond)
      (sortKeyOf : OfferIndex -> Z) (e : Resolver.Row) :
  In e (flat_map (Resolver.rowsOf db userId where_ sortKeyOf) (offerIndex db))
  <-> exists oi oio p,
        In oi (offerIndex db) /\ In oio (offerIndexOutlet db)
        /\ oio_offerIndexId oio = oi_id oi
        /\ In p (profilesFor db userId oi)
        /\ Sql.isTrue (where_ oi p) = true
        /\ e = Resolver.mkRow (oio_outletId oio) (sortKeyOf oi).
Proof.
  unfold Resolver.rowsOf, profilesFor. rewrite in_flat_map. split.
  - intros [oi [Hoi H]]. apply in_flat_map in H. destruct H as [oio [Hoio H]].
    apply in_flat_map in H. destruct H as [p [Hp H]].
    apply filter_In in Hoio. destruct Hoio as [Hoio Hid]. apply String.eqb_eq in Hid.
    destruct (Sql.isTrue _) eqn:Hw; [|contradiction]. destruct H as [<-|[]].
    exists oi, oio, p. auto 10.
  - intros (oi & oio & p & Hoi & Hoio & Hid & Hp & Hw & ->).
    exists oi. split; [exact Hoi|]. apply in_flat_map. exists oio. split.
    + apply filter_In. split; [exact Hoio | now apply String.eqb_eq].
    + apply in_flat_map. exists p. split; [exact Hp|]. rewrite Hw. now left.
Qed.

(** The conditions of the per-outlet statement, one by one. *)
Lemma loaderWhere_true (db : Index) (outletIds : list string) (kind : OfferKind) (now : Z)
      (oi : OfferIndex) (oio : OfferIndexOutlet) (p : option UserMerchantProfile) :
  Sql.isTrue (Loaders.loaderWhere db outletIds kind now oi oio p) = true
  <-> oi_kind oi = kind
      /\ In (oio_outletId oio) outletIds
      /\ oi_isActiveSnapshot oi = true
      /\ oi_isApprovedSnapshot oi = true
      /\ oi_deletedAtSnapshot oi = None
      /\ oi_budgetExhausted oi = false
      /\ Sql.isTrue (Resolver.dateWindow oi now) = true
      /\ (if OfferKind_eqb kind LOYALTY
          then Resolver.existsEligibleTier db oi p = true
          else Sql.isTrue (Resolver.customerTypeRule db oi p) = true).
Proof.
  unfold Loaders.loaderWhere.
  rewrite !isTrue_and, isTrue_or, !isTrue_and, !isTrue_lift, !andb_true_iff.
  rewrite OfferKind_eqb_eq, isNull_true, negb_true_iff.
  assert (Hin : existsb (String.eqb (oio_outletId oio)) outletIds = true
                <-> In (oio_outletId oio) outletIds).
  { rewrite existsb_exists. split.
    - intros [x [Hx E]]. apply String.eqb_eq in E. now subst.
    - intro H. exists (oio_outletId oio). split; [exact H | apply String.eqb_refl]. }
  rewrite Hin.
  destruct (OfferKind_eqb kind LOYALTY); simpl; rewrite ?orb_false_r; tauto.
Qed.

Lemma cashbackOrExclusiveWhere_true (db : Index) (now : Z)
      (oi : OfferIndex) (p : option UserMerchantProfile) :
  Sql.isTrue (Resolver.cashbackOrExclusiveWhere db now None None oi p) = true
  <-> (oi_kind oi = CASHBACK \/ oi_kind oi = EXCLUSIVE)
      /\ oi_isActiveSnapshot oi = true
      /\ oi_isApprovedSnapshot oi = true
      /\ oi_deletedAtSnapshot oi = None
      /\ oi_budgetExhausted oi = false
      /\ Sql.isTrue (Resolver.dateWindow oi now) = true
      /\ Sql.isTrue (Resolver.customerTypeRule db oi p) = true.
Proof.
  unfold Resolver.cashbackOrExclusiveWhere, Resolver.percentageFilter.
  rewrite !isTrue_and, !isTrue_lift, !andb_true_iff, orb_true_iff.
  rewrite !OfferKind_eqb_eq, isNull_true, negb_true_iff. simpl. tauto.
Qed.

Lemma loyaltyWhere_true (db : Index) (oi : OfferIndex) (p : option UserMerchantProfile) :
  Sql.isTrue (Resolver.loyaltyWhere db oi p) = true
  <-> oi_kind oi = LOYALTY
      /\ oi_isActiveSnapshot oi = true
      /\ oi_isApprovedSnapshot oi = true
      /\ oi_deletedAtSnapshot oi = None
      /\ oi_budgetExhausted oi = false
      /\ Resolver.existsEligibleTier db oi p = true.
Proof.
  unfold Resolver.loyaltyWhere.
  rewrite !isTrue_and, !isTrue_lift, !andb_true_iff.
  rewrite OfferKind_eqb_eq, isNull_true, negb_true_iff. tauto.
Qed.

Lemma dateWindow_undated (oi : OfferIndex) (now : Z) :
  oi_startDate oi = None -> oi_endDate oi = None ->
  Sql.isTrue (Resolver.dateWindow oi now) = true.
Proof. intros H1 H2. unfold Resolver.dateWindow. rewrite H1, H2. reflexivity. Qed.

Lemma eligible_outlets_In (db : Index) (userId : string) (now : Z) (e : Resolver.Row) :
  In e (Resolver.eligible_outlets db userId now None None)
  <-> In e (flat_map (Resolver.cashbackOrExclusiveRowsOf db userId now None None)
                     (offerIndex db))
      \/ In e (flat_map (Resolver.loyaltyRowsOf db userId) (offerIndex db)).
Proof.
  unfold Resolver.eligible_outlets, Resolver.eligible_cashback_or_exclusive,
    Resolver.eligible_loyalty.
  rewrite nodup_In, in_app_iff, !nodup_In. tauto.
Qed.

End Rows.

(** The eligibility query of the resolver and the per-outlet query of the
    loaders select the same outlets: when the LOYALTY rows of the index
    carry no dates (as the rebuild writes them), an outlet is eligible for a
    request without percentage bounds exactly when the loaders' query
    returns a row for it under some offer kind. *)
Theorem resolver_and_loaders_agree (db : Schema.Index) (userId : string) (now : Z)
        (oid : string) :
  loyaltyUndated db ->
  (exists k, In (Resolver.mkRow oid k) (Resolver.eligible_outlets db userId now None None))
  <-> (exists kind r,
         In r (Loaders.eligibleOfferIndexRowsForOutlets db userId [oid] kind now)).
Proof.
  intro Hund. split.
  - intros [k Hk]. apply eligible_outlets_In in Hk. destruct Hk as [Hk|Hk].
    + unfold Resolver.cashbackOrExclusiveRowsOf in Hk. apply resolverRows_In in Hk.
      destruct Hk as (oi & oio & p & Hoi & Hoio & Hid & Hp & Hw & He).
      injection He as He _.
      apply cashbackOrExclusiveWhere_true in Hw.
      destruct Hw as (Hkind & Ha & Hap & Hd & Hb & Hdw & Hr).
      exists (Schema.oi_kind oi). eexists. apply loaderRows_In.
      exists oi, oio, p. repeat (split; [eassumption|]). split; [|reflexivity].
      apply loaderWhere_true. rewrite <- He.
      repeat (split; [first [eassumption | reflexivity | now left]|]).
      destruct Hkind as [->| ->]; exact Hr.
    + unfold Resolver.loyaltyRowsOf in Hk. apply resolverRows_In in Hk.
      destruct Hk as (oi & oio & p & Hoi & Hoio & Hid & Hp & Hw & He).
      injection He as He.
      apply loyaltyWhere_true in Hw.
      destruct Hw as (Hkind & Ha & Hap & Hd & Hb & Ht).
      exists Schema.LOYALTY. eexists. apply loaderRows_In.
      exists oi, oio, p. repeat (split; [eassumption|]). split; [|reflexivity].
      apply loaderWhere_true. rewrite <- He.
      destruct (Hund oi Hoi Hkind) as [Hs He'].
      repeat (split; [first [eassumption | reflexivity | now left]|]).
      split; [now apply dateWindow_undated | exact Ht].
  - intros (kind & r & Hr). apply loaderRows_In in Hr.
    destruct Hr as (oi & oio & p & Hoi & Hoio & Hid & Hp & Hw & ->).
    apply loaderWhere_true in Hw.
    destruct Hw as (Hkind & Hin & Ha & Hap & Hd & Hb & Hdw & Hu).
    destruct Hin as [Hin|[]].
    destruct kind; simpl in Hu.
    + exists (Sql.COALESCE (Schema.oi_maxCashbackPercentBps oi) 0).
      apply eligible_outlets_In. left.
      unfold Resolver.cashbackOrExclusiveRowsOf. apply resolverRows_In.
      exists oi, oio, p. repeat (split; [eassumption|]). split; [|now rewrite Hin].
      apply cashbackOrExclusiveWhere_true. auto 10.
    + exists (Sql.COALESCE (Schema.oi_maxCashbackPercentBps oi) 0).
      apply eligible_outlets_In. left.
      unfold Resolver.cashbackOrExclusiveRowsOf. apply resolverRows_In.
      exists oi, oio, p. repeat (split; [eassumption|]). split; [|now rewrite Hin].
      apply cashbackOrExclusiveWhere_true. auto 10.
    + exists 0. apply eligible_outlets_In. right.
      unfold Resolver.loyaltyRowsOf. apply resolverRows_In.
      exists oi, oio, p. repeat (split; [eassumption|]). split; [|now rewrite Hin].
      apply loyaltyWhere_true. auto 10.
Qed.

Lemma sample_loyaltyUndated : loyaltyUndated Sample.indexOffers.
Proof.
  intros oi Hin Hk. vm_compute in Hin.
  destruct Hin as [<-|[<-|[<-|[]]]]; try discriminate Hk; split; reflexivity.
Qed.

Lemma resolver_and_loaders_agree_witness :
  (exists k, In (Resolver.mkRow "o_loy_1" k)
                (Resolver.eligible_outlets Sample.indexOffers "u1" 5000 None None))
  <-> (exists kind r,
         In r (Loaders.eligibleOfferIndexRowsForOutlets Sample.indexOffers "u1"
                 ["o_loy_1"] kind 5000)).
Proof.
  apply (resolver_and_loaders_agree Sample.indexOffers "u1" 5000 "o_loy_1").
  exact sample_loyaltyUndated.
Defined.

(** ** Replacing the child rows *)

Section Children.
Import Schema.

Lemma insertAllUnique_clash (idx : string) (cts : list string)
      (table : list OfferIndexCustomerType) :
  (exists ct, In ct cts /\ In (mkOfferIndexCustomerType idx ct) table) ->
  Recompute.insertAllUnique Recompute.sameCustomerTypeKey
    (map (fun ct => mkOfferIndexCustomerType idx ct) cts) table
  = Js.Throw Js.UniqueConstraintViolation.
Proof.
  revert table. induction cts as [|c cts IH]; intros table [ct [Hct Hin]]; [contradiction|].
  simpl. destruct (existsb _ table) eqn:E; [reflexivity|].
  apply IH. destruct Hct as [->|Hct].
  - exfalso. assert (H : existsb (Recompute.sameCustomerTypeKey (mkOfferIndexCustomerType idx ct))
                                 table = true).
    { apply existsb_exists. exists (mkOfferIndexCustomerType idx ct). split; [exact Hin|].
      unfold Recompute.sameCustomerTypeKey. simpl. now rewrite !String.eqb_refl. }
    congruence.
  - exists ct. split; [exact Hct|]. apply in_or_app. now left.
Qed.

Lemma insertAllUnique_dup (idx : string) (cts : list string)
      (table : list OfferIndexCustomerType) :
  ~ NoDup cts ->
  Recompute.insertAllUnique Recompute.sameCustomerTypeKey
    (map (fun ct => mkOfferIndexCustomerType idx ct) cts) table
  = Js.Throw Js.UniqueConstraintViolation.
Proof.
  revert table. induction cts as [|c cts IH]; intros table Hd.
  - exfalso. apply Hd. constructor.
  - simpl. destruct (existsb _ table) eqn:E; [reflexivity|].
    destruct (in_dec string_dec c cts) as [Hin|Hnin].
    + apply insertAllUnique_clash. exists c. split; [exact Hin|].
      apply in_or_app. right. now left.
    + apply IH. intro Hn. apply Hd. now constructor.
Qed.

Lemma insertAllUnique_fresh (idx : string) (cts : list string)
      (table : list OfferIndexCustomerType) :
  NoDup cts ->
  (forall ct, In ct cts -> ~ In (mkOfferIndexCustomerType idx ct) table) ->
  Recompute.insertAllUnique Recompute.sameCustomerTypeKey
    (map (fun ct => mkOfferIndexCustomerType idx ct) cts) table
  = Js.Normal (table ++ map (fun ct => mkOfferIndexCustomerType idx ct) cts).
Proof.
  revert table. induction cts as [|c cts IH]; intros table Hn Hfresh.
  - simpl. now rewrite app_nil_r.
  - simpl. inversion Hn as [|x xs Hc Hn']; subst.
    destruct (existsb _ table) eqn:E.
    + exfalso. apply existsb_exists in E. destruct E as [y [Hy E]].
      unfold Recompute.sameCustomerTypeKey in E. simpl in E.
      apply andb_prop in E. destruct E as [E1 E2].
      apply String.eqb_eq in E1, E2. apply (Hfresh c (or_introl eq_refl)).
      destruct y as [yi yc]. simpl in *. now subst.
    + rewrite IH.
      * now rewrite <- app_assoc.
      * exact Hn'.
      * intros ct Hct Hin. apply in_app_or in Hin. destruct Hin as [Hin|[Heq|[]]].
        -- apply (Hfresh ct); [now right | exact Hin].
        -- injection Heq as ->. contradiction.
Qed.

Lemma skipDuplicates_members (idx : string) (outs : list string)
      (table : list OfferIndexOutlet) :
  forall x, In x (Recompute.insertAllSkipDuplicates Recompute.sameOutletKey
                    (map (fun o => mkOfferIndexOutlet idx o) outs) table)
            <-> In x table \/ In x (map (fun o => mkOfferIndexOutlet idx o) outs).
Proof.
  revert table. induction outs as [|o outs IH]; intros table x; simpl; [tauto|].
  destruct (existsb _ table) eqn:E.
  - rewrite IH. apply existsb_exists in E. destruct E as [y [Hy E]].
    unfold Recompute.sameOutletKey in E. simpl in E.
    apply andb_prop in E. destruct E as [E1 E2]. apply String.eqb_eq in E1, E2.
    assert (y = mkOfferIndexOutlet idx o) by (destruct y; simpl in *; now subst).
    subst y. split; [tauto|]. intros [H|[<-|H]]; auto.
  - rewrite IH, in_app_iff. simpl. tauto.
Qed.

Lemma skipDuplicates_prefix (idx : string) (outs : list string)
      (table : list OfferIndexOutlet) :
  exists added,
    Recompute.insertAllSkipDuplicates Recompute.sameOutletKey
      (map (fun o => mkOfferIndexOutlet idx o) outs) table = table ++ added
    /\ (forall x, In x added -> oio_offerIndexId x = idx)
    /\ (forall x, In x added -> ~ In x table)
    /\ NoDup added.
Proof.
  revert table. induction outs as [|o outs IH]; intro table; simpl.
  - exists []. rewrite app_nil_r. repeat split; try contradiction. constructor.
  - destruct (existsb _ table) eqn:E; [apply IH|].
    destruct (IH (table ++ [mkOfferIndexOutlet idx o])) as (added & Heq & Hidx & Hfresh & Hnd).
    exists (mkOfferIndexOutlet idx o :: added).
    rewrite Heq, <- app_assoc. simpl. split; [reflexivity|].
    assert (Hnew : ~ In (mkOfferIndexOutlet idx o) table).
    { intro Hx.
      assert (H : existsb (Recompute.sameOutletKey (mkOfferIndexOutlet idx o)) table = true).
      { apply existsb_exists. exists (mkOfferIndexOutlet idx o). split; [exact Hx|].
        unfold Recompute.sameOutletKey. simpl. now rewrite !String.eqb_refl. }
      congruence. }
    repeat split.
    + intros x [<-|Hx]; [reflexivity | now apply Hidx].
    + intros x [<-|Hx]; [exact Hnew|].
      intro Hin. apply (Hfresh x Hx). apply in_or_app. now left.
    + constructor; [|exact Hnd]. intro Hin. apply (Hfresh _ Hin).
      apply in_or_app. right. now left.
Qed.

Lemma filter_negb_not_in (idx : string) (T : list OfferIndexCustomerType) (ct : string) :
  ~ In (mkOfferIndexCustomerType idx ct)
       (filter (fun r => negb (oict_offerIndexId r =? idx)) T).
Proof.
  intro H. apply filter_In in H. destruct H as [_ H]. simpl in H.
  now rewrite String.eqb_refl in H.
Qed.

Lemma replaceOfferChildren_dup (idx : string) (cts outs : list string) (db : Index) :
  ~ NoDup cts ->
  replaceOfferChildren idx cts outs db = (Js.Throw Js.UniqueConstraintViolation, db).
Proof.
  intro Hd. unfold replaceOfferChildren, Recompute.transaction, Recompute.bindM.
  unfold Recompute.offerIndexCustomerType_deleteMany, Recompute.offerIndexOutlet_deleteMany,
    Recompute.offerIndexCustomerType_createMany. cbn [fst snd offerIndexCustomerType
    Recompute.setOfferIndexCustomerType Recompute.setOfferIndexOutlet].
  rewrite (insertAllUnique_dup idx cts _ Hd). reflexivity.
Qed.

Lemma replaceOfferChildren_ok (idx : string) (cts outs : list string) (db : Index) :
  NoDup cts ->
  replaceOfferChildren idx cts outs db
  = (Js.Normal tt,
     mkIndex (offerIndex db)
       (filter (fun r => negb (oict_offerIndexId r =? idx)) (offerIndexCustomerType db)
        ++ map (fun ct => mkOfferIndexCustomerType idx ct) cts)
       (Recompute.insertAllSkipDuplicates Recompute.sameOutletKey
          (map (fun o => mkOfferIndexOutlet idx o) outs)
          (filter (fun r => negb (oio_offerIndexId r =? idx)) (offerIndexOutlet db)))
       (loyaltyTierIndex db) (userMerchantProfile db)).
Proof.
  intro Hn. unfold replaceOfferChildren, Recompute.transaction, Recompute.bindM.
  unfold Recompute.offerIndexCustomerType_deleteMany, Recompute.offerIndexOutlet_deleteMany,
    Recompute.offerIndexCustomerType_createMany,
    Recompute.offerIndexOutlet_createMany_skipDuplicates.
  cbn [fst snd offerIndexCustomerType offerIndexOutlet offerIndex loyaltyTierIndex
       userMerchantProfile
       Recompute.setOfferIndexCustomerType Recompute.setOfferIndexOutlet].
  rewrite (insertAllUnique_fresh idx cts _ Hn)
    by (intros ct _; apply filter_negb_not_in).
  reflexivity.
Qed.

Lemma NoDup_map_inj_in {A B : Type} (f : A -> B) (l : list A) :
  (forall x y, In x l -> In y l -> f x = f y -> x = y) -> NoDup l -> NoDup (map f l).
Proof.
  intros Hinj Hn. induction Hn as [|a l Ha Hn IH]; simpl; constructor.
  - intro Hin. apply in_map_iff in Hin. destruct Hin as [y [Hy Hin]].
    apply Ha. rewrite <- (Hinj y a); [exact Hin | now right | now left | exact Hy].
  - apply IH. intros x y Hx Hy. apply Hinj; now right.
Qed.

Lemma filter_filter_negb {A : Type} (p : A -> bool) (l : list A) :
  filter p (filter (fun x => negb (p x)) l) = [].
Proof.
  induction l as [|a l IH]; simpl; [reflexivity|].
  destruct (p a) eqn:E; simpl; [exact IH|]. now rewrite E.
Qed.

Lemma filter_all {A : Type} (p : A -> bool) (l : list A) :
  (forall x, In x l -> p x = true) -> filter p l = l.
Proof.
  induction l as [|a l IH]; simpl; intro H; [reflexivity|].
  rewrite (H a (or_introl eq_refl)), IH; [reflexivity|]. intros x Hx. apply H. now right.
Qed.

(** The outlet rows of index row [idx] after delete and insert: those
    given, each once; the rows of the other index rows are as before. *)
Lemma outlet_rows_replaced (idx : string) (outs : list string) (O : list OfferIndexOutlet) :
  let O' :=
    Recompute.insertAllSkipDuplicates Recompute.sameOutletKey
      (map (fun o => mkOfferIndexOutlet idx o) outs)
      (filter (fun r => negb (oio_offerIndexId r =? idx)) O) in
  NoDup (map oio_outletId (filter (fun r => oio_offerIndexId r =? idx) O'))
  /\ (forall o, In o (map oio_outletId (filter (fun r => oio_offerIndexId r =? idx) O'))
                <-> In o outs)
  /\ filter (fun r => negb (oio_offerIndexId r =? idx)) O'
     = filter (fun r => negb (oio_offerIndexId r =? idx)) O.
Proof.
  cbv zeta.
  destruct (skipDuplicates_prefix idx outs (filter (fun r => negb (oio_offerIndexId r =? idx)) O))
    as (added & Heq & Hidx & Hfresh & Hnd).
  pose proof (skipDuplicates_members idx outs
                (filter (fun r => negb (oio_offerIndexId r =? idx)) O)) as Hmem.
  rewrite Heq in *.
  assert (Hadded : filter (fun r => oio_offerIndexId r =? idx) added = added).
  { apply filter_all. intros x Hx. apply String.eqb_eq. now apply Hidx. }
  assert (Hadded' : filter (fun r => negb (oio_offerIndexId r =? idx)) added = []).
  { apply filter_none. intros x Hx. rewrite (Hidx x Hx), String.eqb_refl. reflexivity. }
  rewrite !filter_app, filter_filter_negb, Hadded, Hadded', filter_idem, app_nil_r.
  cbn [app]. split; [|split; [|reflexivity]].
  - apply NoDup_map_inj_in; [|exact Hnd].
    intros x y Hx Hy Hxy. destruct x as [xi xo], y as [yi yo]. simpl in *.
    pose proof (Hidx _ Hx) as H1. pose proof (Hidx _ Hy) as H2. simpl in *. congruence.
  - intro o. split.
    + intro H. apply in_map_iff in H. destruct H as [x [<- Hx]].
      assert (Hx' : In x (filter (fun r => negb (oio_offerIndexId r =? idx)) O ++ added))
        by (apply in_or_app; now right).
      apply Hmem in Hx'. destruct Hx' as [Hx'|Hx'].
      * exfalso. apply (Hfresh x Hx Hx').
      * apply in_map_iff in Hx'. destruct Hx' as [o' [<- Ho']]. exact Ho'.
    + intro Ho.
      assert (Hx : In (mkOfferIndexOutlet idx o)
                      (filter (fun r => negb (oio_offerIndexId r =? idx)) O ++ added)).
      { apply Hmem. right. now apply in_map. }
      apply in_app_or in Hx. destruct Hx as [Hx|Hx].
      * apply filter_In in Hx. destruct Hx as [_ Hx]. simpl in Hx.
        now rewrite String.eqb_refl in Hx.
      * apply in_map_iff. exists (mkOfferIndexOutlet idx o). split; [reflexivity | exact Hx].
Qed.

(** After the replacement: the customer types of the row are those given,
    its outlets are those given, each once, and the children of the other
    rows are as before. *)
Lemma replaceOfferChildren_result (idx : string) (cts outs : list string) (db : Index) :
  NoDup cts ->
  let db' := snd (replaceOfferChildren idx cts outs db) in
  customerTypesOf db' idx = cts
  /\ NoDup (outletsOf db' idx)
  /\ (forall o, In o (outletsOf db' idx) <-> In o outs)
  /\ filter (fun r => negb (oict_offerIndexId r =? idx)) (offerIndexCustomerType db')
     = filter (fun r => negb (oict_offerIndexId r =? idx)) (offerIndexCustomerType db)
  /\ filter (fun r => negb (oio_offerIndexId r =? idx)) (offerIndexOutlet db')
     = filter (fun r => negb (oio_offerIndexId r =? idx)) (offerIndexOutlet db).
Proof.
  intros Hn. cbv zeta. rewrite (replaceOfferChildren_ok idx cts outs db Hn).
  cbn [snd]. unfold customerTypesOf, outletsOf.
  cbn [offerIndexCustomerType offerIndexOutlet].
  destruct (outlet_rows_replaced idx outs (offerIndexOutlet db)) as (O1 & O2 & O3).
  split; [|split; [exact O1|split; [exact O2|split; [|exact O3]]]].
  - rewrite filter_app, filter_filter_negb. simpl.
    rewrite filter_all by (intros x Hx; apply in_map_iff in Hx;
                           destruct Hx as [c [<- _]]; apply String.eqb_refl).
    rewrite map_map. simpl. apply map_id.
  - rewrite filter_app, filter_idem.
    rewrite (filter_none _ (map _ cts)); [apply app_nil_r|].
    intros x Hx. apply in_map_iff in Hx. destruct Hx as [c [<- _]]. simpl.
    now rewrite String.eqb_refl.
Qed.

End Children.

(** ** The rebuild of a cashback configuration *)

Section OfferRebuild.
Import Schema.

Lemma keepsOfferIndex_replaceOfferChildren (idx : string) (cts outs : list string) :
  keepsOfferIndex (replaceOfferChildren idx cts outs).
Proof.
  unfold replaceOfferChildren.
  apply keepsOfferIndex_transaction.
  apply keepsOfferIndex_bind; [apply keepsOfferIndex_ct_delete | intros _].
  apply keepsOfferIndex_bind; [apply keepsOfferIndex_outlet_delete | intros _].
  apply keepsOfferIndex_bind; [apply keepsOfferIndex_ct_create | intros _].
  apply keepsOfferIndex_outlet_create.
Qed.

Lemma replaceOfferChildren_leaves (idx : string) (cts outs : list string) :
  leaves loyaltyTierIndex (replaceOfferChildren idx cts outs)
  /\ leaves userMerchantProfile (replaceOfferChildren idx cts outs).
Proof.
  split; unfold replaceOfferChildren; apply leaves_transaction;
    (apply leaves_bind; [intro db; reflexivity | intros _]);
    (apply leaves_bind; [intro db; reflexivity | intros _]);
    (apply leaves_bind; [|intros _; intro db; reflexivity]);
    intro db; unfold Recompute.offerIndexCustomerType_createMany;
    destruct (Recompute.insertAllUnique _ _ _); reflexivity.
Qed.

Lemma filter_filter_implied {A : Type} (p q : A -> bool) (l : list A) :
  (forall x, p x = true -> q x = true) -> filter p (filter q l) = filter p l.
Proof.
  intro H. induction l as [|a l IH]; simpl; [reflexivity|].
  destruct (q a) eqn:Hq; simpl.
  - now rewrite IH.
  - destruct (p a) eqn:Hp; [rewrite (H a Hp) in Hq; discriminate | exact IH].
Qed.

Lemma customerTypesOf_other (db db' : Index) (idx i : string) :
  idx <> i ->
  filter (fun r => negb (oict_offerIndexId r =? idx)) (offerIndexCustomerType db')
  = filter (fun r => negb (oict_offerIndexId r =? idx)) (offerIndexCustomerType db) ->
  customerTypesOf db' i = customerTypesOf db i.
Proof.
  intros Hne H. unfold customerTypesOf. f_equal.
  rewrite <- (filter_filter_implied (fun r => oict_offerIndexId r =? i)
                (fun r => negb (oict_offerIndexId r =? idx)) (offerIndexCustomerType db')).
  - rewrite H. apply filter_filter_implied.
    intros x Hx. apply String.eqb_eq in Hx. rewrite Hx.
    apply negb_true_iff, String.eqb_neq. congruence.
  - intros x Hx. apply String.eqb_eq in Hx. rewrite Hx.
    apply negb_true_iff, String.eqb_neq. congruence.
Qed.

Lemma outletsOf_other (db db' : Index) (idx i : string) :
  idx <> i ->
  filter (fun r => negb (oio_offerIndexId r =? idx)) (offerIndexOutlet db')
  = filter (fun r => negb (oio_offerIndexId r =? idx)) (offerIndexOutlet db) ->
  outletsOf db' i = outletsOf db i.
Proof.
  intros Hne H. unfold outletsOf. f_equal.
  rewrite <- (filter_filter_implied (fun r => oio_offerIndexId r =? i)
                (fun r => negb (oio_offerIndexId r =? idx)) (offerIndexOutlet db')).
  - rewrite H. apply filter_filter_implied.
    intros x Hx. apply String.eqb_eq in Hx. rewrite Hx.
    apply negb_true_iff, String.eqb_neq. congruence.
  - intros x Hx. apply String.eqb_eq in Hx. rewrite Hx.
    apply negb_true_iff, String.eqb_neq. congruence.
Qed.

(** An upsert followed by the replacement of the children of the row it wrote. *)
Lemma upsert_then_replace (where_ : OfferIndex -> bool)
      (update : OfferIndex -> OfferIndex) (create : OfferIndex)
      (cts outs : list string) (db : Index) :
  (forall r, where_ r = true -> where_ (update r) = true) ->
  (forall r, oi_id (update r) = oi_id r) ->
  where_ create = true ->
  let res := Recompute.bindM (Recompute.offerIndex_upsert where_ update create)
                             (fun index => replaceOfferChildren index cts outs) db in
  exists row,
    find where_ (offerIndex (snd res)) = Some row
    /\ ((exists old, find where_ (offerIndex db) = Some old /\ row = update old)
        \/ (find where_ (offerIndex db) = None /\ row = create))
    /\ filter (fun r => negb (where_ r)) (offerIndex (snd res))
       = filter (fun r => negb (where_ r)) (offerIndex db)
    /\ loyaltyTierIndex (snd res) = loyaltyTierIndex db
    /\ userMerchantProfile (snd res) = userMerchantProfile db
    /\ (NoDup cts ->
        fst res = Js.Normal tt
        /\ customerTypesOf (snd res) (oi_id row) = cts
        /\ NoDup (outletsOf (snd res) (oi_id row))
        /\ (forall o, In o (outletsOf (snd res) (oi_id row)) <-> In o outs)
        /\ (forall i, oi_id row <> i ->
              customerTypesOf (snd res) i = customerTypesOf db i
              /\ outletsOf (snd res) i = outletsOf db i))
    /\ (~ NoDup cts ->
        fst res = Js.Throw Js.UniqueConstraintViolation
        /\ offerIndexCustomerType (snd res) = offerIndexCustomerType db
        /\ offerIndexOutlet (snd res) = offerIndexOutlet db).
Proof.
  intros Hw Hid Hc res.
  destruct (offerIndex_upsert_spec where_ update create db Hw Hid Hc)
    as (row & Hfind & Hfst & Hrow).
  assert (Hothers : filter (fun r => negb (where_ r))
                      (offerIndex (snd (Recompute.offerIndex_upsert where_ update create db)))
                    = filter (fun r => negb (where_ r)) (offerIndex db)).
  { apply upsert_keeps_others.
    - intros x Hx. rewrite Hx, (Hw x Hx). split; reflexivity.
    - now rewrite Hc. }
  pose proof (upsert_leaves offerIndexCustomerType where_ update create (fun _ _ => eq_refl) db)
    as Hct.
  pose proof (upsert_leaves offerIndexOutlet where_ update create (fun _ _ => eq_refl) db)
    as Hout.
  pose proof (upsert_leaves loyaltyTierIndex where_ update create (fun _ _ => eq_refl) db)
    as Hti.
  pose proof (upsert_leaves userMerchantProfile where_ update create (fun _ _ => eq_refl) db)
    as Hup.
  subst res. unfold Recompute.bindM.
  destruct (Recompute.offerIndex_upsert where_ update create db) as [[idx|e] db1];
    [|discriminate Hfst].
  cbn [fst snd] in *. injection Hfst as ->.
  exists row.
  rewrite (keepsOfferIndex_replaceOfferChildren (oi_id row) cts outs db1).
  destruct (replaceOfferChildren_leaves (oi_id row) cts outs) as [L1 L2].
  rewrite (L1 db1), (L2 db1).
  split; [exact Hfind|]. split; [exact Hrow|]. split; [exact Hothers|].
  split; [exact Hti|]. split; [exact Hup|]. split.
  - intro Hn.
    destruct (replaceOfferChildren_result (oi_id row) cts outs db1 Hn)
      as (R1 & R2 & R3 & R4 & R5).
    rewrite (replaceOfferChildren_ok (oi_id row) cts outs db1 Hn) in *.
    cbn [fst snd] in *.
    split; [reflexivity|]. split; [exact R1|]. split; [exact R2|]. split; [exact R3|].
    intros i Hi. split.
    + transitivity (customerTypesOf db1 i).
      * apply (customerTypesOf_other db1 _ (oi_id row) i Hi). exact R4.
      * apply (customerTypesOf_other db db1 (oi_id row) i Hi). now rewrite Hct.
    + transitivity (outletsOf db1 i).
      * apply (outletsOf_other db1 _ (oi_id row) i Hi). exact R5.
      * apply (outletsOf_other db db1 (oi_id row) i Hi). now rewrite Hout.
  - intro Hd. rewrite (replaceOfferChildren_dup (oi_id row) cts outs db1 Hd).
    cbn [fst snd]. auto.
Qed.

Lemma fold_max_spec {T : Type} (f : T -> Z) (l : list T) (a : Z) :
  let m := fold_left (fun max t => Z.max max (f t)) l a in
  a <= m /\ (forall t, In t l -> f t <= m) /\ (m = a \/ exists t, In t l /\ f t = m).
Proof.
  revert a. induction l as [|x l IH]; intro a; simpl.
  - split; [lia|]. split; [contradiction | now left].
  - destruct (IH (Z.max a (f x))) as (H1 & H2 & H3). split; [lia|]. split.
    + intros t [<-|Ht]; [lia | now apply H2].
    + destruct H3 as [H3|[t [Ht H3]]].
      * destruct (Z.max_spec a (f x)) as [[_ E]|[_ E]].
        -- right. exists x. split; [now left | lia].
        -- left. lia.
      * right. exists t. split; [now right | exact H3].
Qed.

Lemma option_eqb_Some (a : option string) (b : string) :
  option_eqb String.eqb a (Some b) = true <-> a = Some b.
Proof.
  destruct a as [x|]; simpl; [|split; discriminate].
  rewrite String.eqb_eq. split; congruence.
Qed.

End OfferRebuild.

Section Cashback.
Import Schema.

Variables (env : Recompute.Env) (src : Source) (id : string) (db : Index).
Variable cc : CashbackConfiguration.
Hypothesis Hcc : find (fun c => cc_id c =? id) (cashbackConfigurations src) = Some cc.

Lemma rebuildCashbackIndex_unfold :
  exists update create,
    Recompute.rebuildCashbackIndex env src id db
    = Recompute.bindM (Recompute.offerIndex_upsert (forCashback id) update create)
        (fun index => replaceOfferChildren index (cc_eligibleCustomerTypes cc) (cc_Outlets cc))
        db
    /\ (forall r, forCashback id r = true -> forCashback id (update r) = true)
    /\ (forall r, oi_id (update r) = oi_id r)
    /\ forCashback id create = true
    /\ (forall row, (exists old, forCashback id old = true /\ row = update old) \/ row = create ->
          oi_kind row = CASHBACK
          /\ oi_merchantId row = cc_merchantId cc
          /\ oi_cashbackConfigurationId row = Some id
          /\ oi_isActiveSnapshot row = cc_isActive cc
          /\ oi_isApprovedSnapshot row = Recompute.isApproved (cc_Review cc)
          /\ oi_deletedAtSnapshot row = cc_deletedAt cc
          /\ oi_budgetExhausted row
             = Recompute.cashbackBudgetExhausted (cc_netCashbackBudget cc)
                                                 (cc_usedCashbackBudget cc)
          /\ oi_startDate row = cc_startDate cc
          /\ oi_endDate row = cc_endDate cc
          /\ oi_maxCashbackPercentBps row
             = Some (fold_left (fun max t => Z.max max (cct_percentage t))
                               (filter qualifyingCashbackTier (cc_CashbackConfigurationTiers cc))
                               0)
          /\ oi_computedAt row = Recompute.now env).
Proof.
  apply find_some in Hcc as Hid. destruct Hid as [_ Hid]. apply String.eqb_eq in Hid.
  unfold Recompute.rebuildCashbackIndex. rewrite Hcc. cbv zeta.
  eexists. eexists. split; [reflexivity|].
  split; [intros r Hr; exact Hr|]. split; [reflexivity|].
  split; [unfold forCashback; simpl; now apply String.eqb_eq|].
  intros row [[old [Hold ->]]| ->]; simpl.
  - apply option_eqb_Some in Hold. rewrite Hold. repeat split.
  - rewrite Hid. repeat split.
Qed.

End Cashback.

(** After [rebuildCashbackIndex] for a configuration that exists, the index
    holds a row for it whose fields are the snapshot of the configuration:
    kind CASHBACK, its merchant, active flag, approval of its review,
    deletion date, budget exhaustion and dates, the time of the run, and as
    [maxCashbackPercentBps] the largest percentage among its active, not
    deleted, approved tiers, or 0 when it has none. This holds whether the
    row was created or updated, and also when the child rows could not be
    replaced. *)
Theorem rebuildCashbackIndex_snapshot (env : Recompute.Env) (src : Schema.Source)
        (id : string) (db : Schema.Index) (cc : Schema.CashbackConfiguration) :
  find (fun c => Schema.cc_id c =? id) (Schema.cashbackConfigurations src) = Some cc ->
  let db' := snd (Recompute.rebuildCashbackIndex env src id db) in
  exists row,
    find (forCashback id) (Schema.offerIndex db') = Some row
    /\ Schema.oi_kind row = Schema.CASHBACK
    /\ Schema.oi_merchantId row = Schema.cc_merchantId cc
    /\ Schema.oi_isActiveSnapshot row = Schema.cc_isActive cc
    /\ Schema.oi_isApprovedSnapshot row = Recompute.isApproved (Schema.cc_Review cc)
    /\ Schema.oi_deletedAtSnapshot row = Schema.cc_deletedAt cc
    /\ Schema.oi_budgetExhausted row
       = Recompute.cashbackBudgetExhausted (Schema.cc_netCashbackBudget cc)
                                           (Schema.cc_usedCashbackBudget cc)
    /\ Schema.oi_startDate row = Schema.cc_startDate cc
    /\ Schema.oi_endDate row = Schema.cc_endDate cc
    /\ Schema.oi_computedAt row = Recompute.now env
    /\ exists m,
         Schema.oi_maxCashbackPercentBps row = Some m
         /\ 0 <= m
         /\ (forall t, In t (Schema.cc_CashbackConfigurationTiers cc) ->
                       qualifyingCashbackTier t = true -> Schema.cct_percentage t <= m)
         /\ (m = 0 \/ exists t, In t (Schema.cc_CashbackConfigurationTiers cc)
                                /\ qualifyingCashbackTier t = true
                                /\ Schema.cct_percentage t = m).
Proof.
  intros Hcc db'. subst db'.
  destruct (rebuildCashbackIndex_unfold env src id db cc Hcc)
    as (update & create & Heq & Hw & Hid & Hc & Hrow).
  rewrite Heq.
  destruct (upsert_then_replace (forCashback id) update create
              (Schema.cc_eligibleCustomerTypes cc) (Schema.cc_Outlets cc) db Hw Hid Hc)
    as (row & Hfind & Horigin & _).
  exists row. split; [exact Hfind|].
  assert (Hfields :
            (exists old, forCashback id old = true /\ row = update old) \/ row = create).
  { destruct Horigin as [[old [Hold ->]]|[_ ->]]; [left|now right].
    exists old. split; [|reflexivity]. apply find_some in Hold. tauto. }
  destruct (Hrow row Hfields) as (F1 & F2 & F3 & F4 & F5 & F6 & F7 & F8 & F9 & F10 & F11).
  repeat (split; [assumption|]).
  eexists. split; [exact F10|].
  destruct (fold_max_spec Schema.cct_percentage
              (filter qualifyingCashbackTier (Schema.cc_CashbackConfigurationTiers cc)) 0)
    as (M1 & M2 & M3).
  split; [exact M1|]. split.
  - intros t Ht Hq. apply M2. apply filter_In. tauto.
  - destruct M3 as [M3|[t [Ht M3]]]; [now left|right].
    apply filter_In in Ht. exists t. tauto.
Qed.

Lemma rebuildCashbackIndex_snapshot_witness :
  exists row,
    find (forCashback "cb_all_10")
         (Schema.offerIndex
            (snd (Recompute.rebuildCashbackIndex Sample.env1 Sample.sourceOffers "cb_all_10"
                    Sample.emptyIndex))) = Some row
    /\ Schema.oi_kind row = Schema.CASHBACK
    /\ Schema.oi_isApprovedSnapshot row = true
    /\ Schema.oi_budgetExhausted row = false
    /\ Schema.oi_computedAt row = 1000
    /\ Schema.oi_maxCashbackPercentBps row = Some 1000.
Proof.
  destruct (rebuildCashbackIndex_snapshot Sample.env1 Sample.sourceOffers "cb_all_10"
              Sample.emptyIndex Sample.cb_all_10 eq_refl)
    as (row & H1 & H2 & _ & _ & H5 & _ & H7 & _ & _ & H10 & m & H11 & H12 & H13 & H14).
  exists row. split; [exact H1|]. split; [exact H2|]. split; [exact H5|].
  split; [exact H7|]. split; [exact H10|].
  rewrite H11. f_equal.
  destruct H14 as [->|(t & Ht & Hq & <-)].
  - exfalso.
    assert (H : 1000 <= 0) by (apply (H13 (Schema.mkCashbackConfigurationTier true None
                                              (Sample.approved "r_cb_all_t") 1000));
                                [now left | reflexivity]).
    lia.
  - destruct Ht as [<-|[]]. reflexivity.
Defined.

(** When the customer types of the configuration are pairwise distinct,
    [rebuildCashbackIndex] completes normally and the child rows of the
    index row are the configuration's: its customer types, in order, and
    its outlets, each once even if the configuration lists one twice. *)
Theorem rebuildCashbackIndex_children (env : Recompute.Env) (src : Schema.Source)
        (id : string) (db : Schema.Index) (cc : Schema.CashbackConfiguration) :
  find (fun c => Schema.cc_id c =? id) (Schema.cashbackConfigurations src) = Some cc ->
  NoDup (Schema.cc_eligibleCustomerTypes cc) ->
  let res := Recompute.rebuildCashbackIndex env src id db in
  fst res = Js.Normal tt
  /\ exists row,
       find (forCashback id) (Schema.offerIndex (snd res)) = Some row
       /\ customerTypesOf (snd res) (Schema.oi_id row) = Schema.cc_eligibleCustomerTypes cc
       /\ NoDup (outletsOf (snd res) (Schema.oi_id row))
       /\ (forall o, In o (outletsOf (snd res) (Schema.oi_id row))
                     <-> In o (Schema.cc_Outlets cc)).
Proof.
  intros Hcc Hn res. subst res.
  destruct (rebuildCashbackIndex_unfold env src id db cc Hcc)
    as (update & create & Heq & Hw & Hid & Hc & _).
  rewrite Heq.
  destruct (upsert_then_replace (forCashback id) update create
              (Schema.cc_eligibleCustomerTypes cc) (Schema.cc_Outlets cc) db Hw Hid Hc)
    as (row & Hfind & _ & _ & _ & _ & Hok & _).
  destruct (Hok Hn) as (O1 & O2 & O3 & O4 & _).
  split; [exact O1|]. exists row. auto.
Qed.

Lemma rebuildCashbackIndex_children_witness :
  fst (Recompute.rebuildCashbackIndex Sample.env1 Sample.sourceOffers "cb_all_10"
         Sample.emptyIndex) = Js.Normal tt
  /\ exists row,
       find (forCashback "cb_all_10")
            (Schema.offerIndex
               (snd (Recompute.rebuildCashbackIndex Sample.env1 Sample.sourceOffers
                       "cb_all_10" Sample.emptyIndex))) = Some row
       /\ customerTypesOf
            (snd (Recompute.rebuildCashbackIndex Sample.env1 Sample.sourceOffers
                    "cb_all_10" Sample.emptyIndex)) (Schema.oi_id row) = ["All"].
Proof.
  destruct (rebuildCashbackIndex_children Sample.env1 Sample.sourceOffers "cb_all_10"
              Sample.emptyIndex Sample.cb_all_10 eq_refl)
    as (H1 & row & H2 & H3 & _).
  - repeat (constructor; [simpl; intuition discriminate|]); constructor.
  - split; [exact H1|]. exists row. split; [exact H2 | exact H3].
Defined.

(** When the configuration lists a customer type twice,
    [rebuildCashbackIndex] fails with a unique-constraint violation: the
    transaction that replaces the child rows is rolled back, so the child
    tables are as before the call, while the upsert of the index row,
    which ran before the transaction, stays. *)
Theorem rebuildCashbackIndex_duplicate_type (env : Recompute.Env) (src : Schema.Source)
        (id : string) (db : Schema.Index) (cc : Schema.CashbackConfiguration) :
  find (fun c => Schema.cc_id c =? id) (Schema.cashbackConfigurations src) = Some cc ->
  ~ NoDup (Schema.cc_eligibleCustomerTypes cc) ->
  let res := Recompute.rebuildCashbackIndex env src id db in
  fst res = Js.Throw Js.UniqueConstraintViolation
  /\ Schema.offerIndexCustomerType (snd res) = Schema.offerIndexCustomerType db
  /\ Schema.offerIndexOutlet (snd res) = Schema.offerIndexOutlet db
  /\ exists row,
       find (forCashback id) (Schema.offerIndex (snd res)) = Some row
       /\ Schema.oi_computedAt row = Recompute.now env.
Proof.
  intros Hcc Hd res. subst res.
  destruct (rebuildCashbackIndex_unfold env src id db cc Hcc)
    as (update & create & Heq & Hw & Hid & Hc & Hrow).
  rewrite Heq.
  destruct (upsert_then_replace (forCashback id) update create
              (Schema.cc_eligibleCustomerTypes cc) (Schema.cc_Outlets cc) db Hw Hid Hc)
    as (row & Hfind & Horigin & _ & _ & _ & _ & Hdup).
  destruct (Hdup Hd) as (D1 & D2 & D3).
  split; [exact D1|]. split; [exact D2|]. split; [exact D3|].
  exists row. split; [exact Hfind|].
  assert (Hfields :
            (exists old, forCashback id old = true /\ row = update old) \/ row = create).
  { destruct Horigin as [[old [Hold ->]]|[_ ->]]; [left|now right].
    exists old. split; [|reflexivity]. apply find_some in Hold. tauto. }
  apply (Hrow row Hfields).
Qed.

Lemma rebuildCashbackIndex_duplicate_type_witness :
  let res := Recompute.rebuildCashbackIndex (Recompute.mkEnv 2000 "oi_4") Sample.sourceOffers
               "cb_twice" Sample.indexOffers in
  fst res = Js.Throw Js.UniqueConstraintViolation
  /\ Schema.offerIndexCustomerType (snd res) = Schema.offerIndexCustomerType Sample.indexOffers
  /\ Schema.offerIndexOutlet (snd res) = Schema.offerIndexOutlet Sample.indexOffers
  /\ exists row,
       find (forCashback "cb_twice") (Schema.offerIndex (snd res)) = Some row
       /\ Schema.oi_computedAt row = 2000.
Proof.
  apply (rebuildCashbackIndex_duplicate_type (Recompute.mkEnv 2000 "oi_4")
           Sample.sourceOffers "cb_twice" Sample.indexOffers Sample.cb_twice eq_refl).
  intro H. inversion H as [|x xs Hx _]. apply Hx. now left.
Defined.

(** ** Reading a rebuilt configuration back *)

Section ReadBack.
Import Schema.

Lemma rowsOf_In (db : Index) (userId : string)
      (where_ : OfferIndex -> option UserMerchantProfile -> Sql.cond)
      (sortKeyOf : OfferIndex -> Z) (oi : OfferIndex) (e : Resolver.Row) :
  In e (Resolver.rowsOf db userId where_ sortKeyOf oi)
  <-> exists oio p,
        In oio (offerIndexOutlet db) /\ oio_offerIndexId oio = oi_id oi
        /\ In p (profilesFor db userId oi)
        /\ Sql.isTrue (where_ oi p) = true
        /\ e = Resolver.mkRow (oio_outletId oio) (sortKeyOf oi).
Proof.
  unfold Resolver.rowsOf, profilesFor. rewrite in_flat_map. split.
  - intros [oio [Hoio H]]. apply in_flat_map in H. destruct H as [p [Hp H]].
    apply filter_In in Hoio. destruct Hoio as [Hoio Hid]. apply String.eqb_eq in Hid.
    destruct (Sql.isTrue _) eqn:Hw; [|contradiction]. destruct H as [<-|[]].
    exists oio, p. auto 10.
  - intros (oio & p & Hoio & Hid & Hp & Hw & ->).
    exists oio. split.
    + apply filter_In. split; [exact Hoio | now apply String.eqb_eq].
    + apply in_flat_map. exists p. split; [exact Hp|]. rewrite Hw. now left.
Qed.

Lemma outletsOf_In (db : Index) (idx o : string) :
  In o (outletsOf db idx)
  <-> exists oio, In oio (offerIndexOutlet db) /\ oio_offerIndexId oio = idx
                  /\ oio_outletId oio = o.
Proof.
  unfold outletsOf. rewrite in_map_iff. split.
  - intros [oio [<- H]]. apply filter_In in H. destruct H as [H E].
    apply String.eqb_eq in E. exists oio. auto.
  - intros (oio & H & E & <-). exists oio. split; [reflexivity|].
    apply filter_In. split; [exact H | now apply String.eqb_eq].
Qed.

Lemma existsCustomerType_iff (db : Index) (oi : OfferIndex) (t : option string) :
  Resolver.existsCustomerType db oi t = true
  <-> exists ty, t = Some ty /\ In ty (customerTypesOf db (oi_id oi)).
Proof.
  unfold Resolver.existsCustomerType, customerTypesOf. rewrite existsb_exists. split.
  - intros [ect [Hin H]]. rewrite isTrue_and, isTrue_lift in H.
    apply andb_prop in H. destruct H as [H1 H2]. apply String.eqb_eq in H1.
    destruct t as [ty|]; [|discriminate H2]. simpl in H2.
    destruct (String.eqb_spec (oict_customerType ect) ty) as [E|E]; [|discriminate].
    exists ty. split; [reflexivity|]. apply in_map_iff. exists ect. split; [exact E|].
    apply filter_In. split; [exact Hin | now apply String.eqb_eq].
  - intros (ty & -> & H). apply in_map_iff in H. destruct H as [ect [E H]].
    apply filter_In in H. destruct H as [Hin H1].
    exists ect. split; [exact Hin|]. rewrite isTrue_and, isTrue_lift, H1. simpl.
    rewrite E, String.eqb_refl. reflexivity.
Qed.

Lemma dateWindow_true (oi : OfferIndex) (now : Z) :
  Sql.isTrue (Resolver.dateWindow oi now) = true
  <-> inWindow (oi_startDate oi) (oi_endDate oi) now.
Proof.
  unfold Resolver.dateWindow, inWindow.
  destruct (oi_startDate oi) as [s|], (oi_endDate oi) as [e|]; simpl.
  - destruct (Z.leb_spec s now) as [L1|L1], (Z.leb_spec now e) as [L2|L2]; simpl; split; intro H;
      try discriminate; try reflexivity.
    + right. exists s, e. repeat split; lia.
    + destruct H as [[H _]|(s' & e' & H1 & H2 & H3)]; [discriminate|].
      injection H1 as <-. injection H2 as <-. lia.
    + destruct H as [[H _]|(s' & e' & H1 & H2 & H3)]; [discriminate|].
      injection H1 as <-. injection H2 as <-. lia.
    + destruct H as [[H _]|(s' & e' & H1 & H2 & H3)]; [discriminate|].
      injection H1 as <-. injection H2 as <-. lia.
  - destruct (s <=? now)%Z; simpl; split; try discriminate;
      intros [[H _]|(s' & e' & _ & H & _)]; discriminate.
  - destruct (now <=? e)%Z; simpl; split; try discriminate;
      intros [[_ H]|(s' & e' & H & _ & _)]; discriminate.
  - split; [intros _; now left | reflexivity].
Qed.

(** The customer-type rule over the profiles the join pairs a row with. *)
Lemma typeAdmits_iff (db : Index) (userId : string) (oi : OfferIndex) :
  typeAdmits db userId oi
  <-> openTo db userId (oi_merchantId oi) (customerTypesOf db (oi_id oi)).
Proof.
  unfold typeAdmits, openTo, profilesFor, Sql.leftJoin.
  set (types := customerTypesOf db (oi_id oi)).
  assert (Hex : forall t, Resolver.existsCustomerType db oi (Some t) = true <-> In t types).
  { intro t. rewrite existsCustomerType_iff. split.
    - intros (ty & E & H). now injection E as ->.
    - intro H. now exists t. }
  assert (Hrule : forall p,
             Sql.isTrue (Resolver.customerTypeRule db oi p) = true
             <-> In "All" types
                 \/ (exists prof, p = Some prof /\ In (ump_customerType prof) types)
                 \/ (p = None /\ In "NonCustomer" types)).
  { intro p. unfold Resolver.customerTypeRule, Resolver.allowsAll, Resolver.matchesType,
      Resolver.nonCustomerDefault, Resolver.customerTypeOf.
    rewrite !isTrue_or, !isTrue_and, !isTrue_lift, !orb_true_iff, !andb_true_iff.
    rewrite (Hex "All"), (Hex "NonCustomer").
    destruct p as [prof|]; simpl.
    - rewrite (Hex (ump_customerType prof)). split.
      + intros [H|[[_ H]|[H _]]]; [now left | right; left; now exists prof | discriminate].
      + intros [H|[(prof' & E & H)|[E _]]]; [now left | | discriminate].
        injection E as <-. right. left. auto.
    - split.
      + intros [H|[[H _]|[_ H]]]; [now left | discriminate | right; right; auto].
      + intros [H|[(prof' & E & _)|[_ H]]]; [now left | discriminate | right; right; auto]. }
  destruct (filter (fun p => ump_merchantId p =? oi_merchantId oi) (Resolver.profile db userId))
    as [|q qs] eqn:Hf.
  - assert (Hnone : forall prof, In prof (Resolver.profile db userId) ->
                                 ump_merchantId prof <> oi_merchantId oi).
    { intros prof Hin E.
      assert (H : In prof (filter (fun p => ump_merchantId p =? oi_merchantId oi)
                                  (Resolver.profile db userId))).
      { apply filter_In. split; [exact Hin | now apply String.eqb_eq]. }
      rewrite Hf in H. contradiction. }
    split.
    + intros (p & [<-|[]] & H). apply Hrule in H.
      destruct H as [H|[(prof & E & _)|[_ H]]]; [now left | discriminate | right; right; auto].
    + intros [H|[(prof & Hin & E & _)|[_ H]]].
      * exists None. split; [now left|]. apply Hrule. now left.
      * exfalso. exact (Hnone prof Hin E).
      * exists None. split; [now left|]. apply Hrule. right. right. auto.
  - assert (Hin : forall prof, In prof (q :: qs)
                               <-> In prof (Resolver.profile db userId)
                                   /\ ump_merchantId prof = oi_merchantId oi).
    { intro prof. rewrite <- Hf, filter_In, String.eqb_eq. tauto. }
    split.
    + intros (p & Hp & H). apply in_map_iff in Hp. destruct Hp as [prof [<- Hp]].
      apply Hin in Hp. apply Hrule in H.
      destruct H as [H|[(prof' & E & H)|[E _]]]; [now left | | discriminate].
      injection E as <-. right. left. exists prof. tauto.
    + intros [H|[(prof & Hp & E & H)|[Hnone _]]].
      * exists (Some q). split; [now left|]. apply Hrule. now left.
      * exists (Some prof). split.
        -- apply in_map. apply Hin. auto.
        -- apply Hrule. right. left. now exists prof.
      * exfalso. destruct (proj1 (Hin q) (or_introl eq_refl)) as [Hq E].
        exact (Hnone q Hq E).
Qed.

End ReadBack.

(** Reading back what [rebuildCashbackIndex] wrote: the rebuilt row makes
    an outlet eligible for a user at a time, for a request without
    percentage bounds, exactly when the outlet is one of the
    configuration's, the configuration is active, approved, not deleted and
    within budget, the time lies in its date window (both dates absent, or
    both present around the time), and its customer types are open to the
    user under the three-way rule. *)
Theorem rebuilt_cashback_rows (env : Recompute.Env) (src : Schema.Source)
        (id : string) (db : Schema.Index) (cc : Schema.CashbackConfiguration) :
  find (fun c => Schema.cc_id c =? id) (Schema.cashbackConfigurations src) = Some cc ->
  NoDup (Schema.cc_eligibleCustomerTypes cc) ->
  let db' := snd (Recompute.rebuildCashbackIndex env src id db) in
  exists row,
    find (forCashback id) (Schema.offerIndex db') = Some row
    /\ forall (userId : string) (now : Z) (o : string),
         (exists k, In (Resolver.mkRow o k)
                       (Resolver.cashbackOrExclusiveRowsOf db' userId now None None row))
         <-> In o (Schema.cc_Outlets cc)
             /\ Schema.cc_isActive cc = true
             /\ Recompute.isApproved (Schema.cc_Review cc) = true
             /\ Schema.cc_deletedAt cc = None
             /\ Recompute.cashbackBudgetExhausted (Schema.cc_netCashbackBudget cc)
                                                  (Schema.cc_usedCashbackBudget cc) = false
             /\ inWindow (Schema.cc_startDate cc) (Schema.cc_endDate cc) now
             /\ openTo db userId (Schema.cc_merchantId cc)
                                 (Schema.cc_eligibleCustomerTypes cc).
Proof.
  intros Hcc Hn db'. subst db'.
  destruct (rebuildCashbackIndex_unfold env src id db cc Hcc)
    as (update & create & Heq & Hw & Hid & Hc & Hrow).
  rewrite Heq.
  destruct (upsert_then_replace (forCashback id) update create
              (Schema.cc_eligibleCustomerTypes cc) (Schema.cc_Outlets cc) db Hw Hid Hc)
    as (row & Hfind & Horigin & _ & _ & Hprof & Hok & _).
  destruct (Hok Hn) as (_ & Htypes & _ & Houts & _).
  assert (Hfields :
            (exists old, forCashback id old = true /\ row = update old) \/ row = create).
  { destruct Horigin as [[old [Hold ->]]|[_ ->]]; [left|now right].
    exists old. split; [|reflexivity]. apply find_some in Hold. tauto. }
  destruct (Hrow row Hfields) as (F1 & F2 & F3 & F4 & F5 & F6 & F7 & F8 & F9 & F10 & F11).
  set (db' := snd (Recompute.bindM (Recompute.offerIndex_upsert (forCashback id) update create)
                     (fun index => replaceOfferChildren index
                                     (Schema.cc_eligibleCustomerTypes cc)
                                     (Schema.cc_Outlets cc)) db)) in *.
  exists row. split; [exact Hfind|].
  intros userId now o.
  assert (Hadm : typeAdmits db' userId row
                 <-> openTo db userId (Schema.cc_merchantId cc)
                                      (Schema.cc_eligibleCustomerTypes cc)).
  { rewrite typeAdmits_iff, Htypes, F2.
    unfold openTo, Resolver.profile. rewrite Hprof. reflexivity. }
  rewrite <- Hadm, <- Houts, outletsOf_In.
  unfold Resolver.cashbackOrExclusiveRowsOf. split.
  - intros [k Hk]. apply rowsOf_In in Hk.
    destruct Hk as (oio & p & Hoio & Hidx & Hp & Hwh & E). injection E as E _.
    apply cashbackOrExclusiveWhere_true in Hwh.
    destruct Hwh as (_ & W1 & W2 & W3 & W4 & W5 & W6).
    split; [exists oio; auto|].
    rewrite <- F4, <- F5, <- F6, <- F7, <- F8, <- F9.
    repeat (split; [assumption|]). split; [now apply dateWindow_true|].
    exists p. auto.
  - intros ((oio & Hoio & Hidx & Ho) & A1 & A2 & A3 & A4 & A5 & (p & Hp & Hr)).
    exists (Sql.COALESCE (Schema.oi_maxCashbackPercentBps row) 0).
    apply rowsOf_In. exists oio, p.
    split; [exact Hoio|]. split; [exact Hidx|]. split; [exact Hp|]. split; [|now rewrite Ho].
    apply cashbackOrExclusiveWhere_true.
    rewrite F4, F5, F6, F7. split; [now left|].
    repeat (split; [assumption|]). split; [|exact Hr].
    apply dateWindow_true. now rewrite F8, F9.
Qed.

Lemma rebuilt_cashback_rows_witness :
  exists row,
    find (forCashback "cb_all_10")
         (Schema.offerIndex
            (snd (Recompute.rebuildCashbackIndex Sample.env1 Sample.sourceOffers "cb_all_10"
                    Sample.emptyIndex))) = Some row
    /\ exists k,
         In (Resolver.mkRow "o_food_1" k)
            (Resolver.cashbackOrExclusiveRowsOf
               (snd (Recompute.rebuildCashbackIndex Sample.env1 Sample.sourceOffers
                       "cb_all_10" Sample.emptyIndex))
               "u1" 5000 None None row).
Proof.
  destruct (rebuilt_cashback_rows Sample.env1 Sample.sourceOffers "cb_all_10"
              Sample.emptyIndex Sample.cb_all_10 eq_refl)
    as (row & H1 & H2).
  - repeat (constructor; [simpl; intuition discriminate|]); constructor.
  - exists row. split; [exact H1|]. apply (H2 "u1" 5000 "o_food_1").
    split; [now left|]. split; [reflexivity|]. split; [reflexivity|].
    split; [reflexivity|]. split; [reflexivity|].
    split; [left; split; reflexivity|]. left. now left.
Defined.

(** ** The rebuild of the profiles of a user *)

Section Unique.

Context {A K : Type} (key : A -> K) (same : A -> A -> bool).
Hypothesis Hsame : forall a b, same a b = true <-> key a = key b.

Lemma insertAllUnique_keys (rows table : list A) :
  (NoDup (map key rows) /\ (forall r t, In r rows -> In t table -> key r <> key t) ->
   Recompute.insertAllUnique same rows table = Js.Normal (table ++ rows))
  /\ (~ (NoDup (map key rows) /\ (forall r t, In r rows -> In t table -> key r <> key t)) ->
      Recompute.insertAllUnique same rows table = Js.Throw Js.UniqueConstraintViolation).
Proof.
  revert table. induction rows as [|r rows IH]; intro table.
  - split.
    + intros _. simpl. now rewrite app_nil_r.
    + intro H. exfalso. apply H. split; [constructor | intros r t []].
  - simpl. destruct (existsb (same r) table) eqn:E.
    + split; [|reflexivity]. intros [_ Hdis]. exfalso.
      apply existsb_exists in E. destruct E as [t [Ht E]]. apply Hsame in E.
      exact (Hdis r t (or_introl eq_refl) Ht E).
    + assert (Hr : forall t, In t table -> key r <> key t).
      { intros t Ht Ek.
        assert (H : existsb (same r) table = true).
        { apply existsb_exists. exists t. split; [exact Ht | now apply Hsame]. }
        congruence. }
      destruct (IH (table ++ [r])) as [IH1 IH2]. split.
      * intros [Hn Hdis]. inversion Hn as [|x xs Hx Hn']; subst.
        rewrite IH1; [now rewrite <- app_assoc|]. split; [exact Hn'|].
        intros r' t Hr' Ht. apply in_app_or in Ht. destruct Ht as [Ht|[<-|[]]].
        -- apply Hdis; [now right | exact Ht].
        -- intro Ek. apply Hx. rewrite <- Ek. now apply in_map.
      * intro Hnot. apply IH2. intros [Hn' Hdis']. apply Hnot. split.
        -- constructor; [|exact Hn']. intro Hin. apply in_map_iff in Hin.
           destruct Hin as [r' [Ek Hr']].
           apply (Hdis' r' r Hr'); [apply in_or_app; right; now left | exact Ek].
        -- intros r' t [<-|Hr'] Ht; [now apply Hr|].
           apply Hdis'; [exact Hr' | apply in_or_app; now left].
Qed.

End Unique.

Section UserProfiles.
Import Schema.

Lemma intColumn_spec {T : Type} (f : T -> CustomerTypes.PropertyValue) (rows : list T) :
  (Forall (fun r => exists n, f r = CustomerTypes.PNumber n) rows ->
   Recompute.intColumn (map f rows)
   = Js.Normal (map (fun r => match f r with CustomerTypes.PNumber n => n | _ => 0 end) rows))
  /\ (~ Forall (fun r => exists n, f r = CustomerTypes.PNumber n) rows ->
      Recompute.intColumn (map f rows) = Js.Throw Js.ValidationError).
Proof.
  induction rows as [|r rows [IH1 IH2]]; simpl.
  - split; [reflexivity|]. intro H. exfalso. apply H. constructor.
  - destruct (f r) as [n| |] eqn:E.
    + split.
      * intro H. inversion H; subst. now rewrite IH1.
      * intro H. rewrite IH2; [reflexivity|]. intro H'. apply H. constructor; [|exact H'].
        now exists n.
    + split; [|reflexivity]. intro H. inversion H as [|x xs [n Hn] _]; subst. congruence.
    + split; [|reflexivity]. intro H. inversion H as [|x xs [n Hn] _]; subst. congruence.
Qed.

Lemma sameProfileKey_iff (a b : UserMerchantProfile) :
  Recompute.sameProfileKey a b = true
  <-> (ump_userId a, ump_merchantId a) = (ump_userId b, ump_merchantId b).
Proof.
  unfold Recompute.sameProfileKey. rewrite andb_true_iff, !String.eqb_eq.
  split; [intros [-> ->]; reflexivity | intro H; now injection H].
Qed.

Lemma combine_map_ranks (userId : string) (rows : list CustomerType) :
  map (fun '(r, rank) => mkUserMerchantProfile userId (ct_merchantId r) (ct_type r) rank)
      (combine rows
         (map (fun r => match CustomerTypes.customerTypeRank (Some (ct_type r)) with
                        | CustomerTypes.PNumber n => n
                        | _ => 0
                        end) rows))
  = map (profileRow userId) rows.
Proof.
  induction rows as [|r rows IH]; [reflexivity|].
  cbn [map combine]. rewrite IH. f_equal. unfold profileRow, rankOr0, CustomerTypes.rankNumber.
  destruct (CustomerTypes.customerTypeRank (Some (ct_type r))); reflexivity.
Qed.

Lemma profile_keys (userId : string) (rows : list CustomerType) :
  map (fun p => (ump_userId p, ump_merchantId p)) (map (profileRow userId) rows)
  = map (fun m => (userId, m)) (map ct_merchantId rows).
Proof. rewrite !map_map. reflexivity. Qed.

Lemma NoDup_map_pair (u : string) (l : list string) :
  NoDup (map (fun m => (u, m)) l) <-> NoDup l.
Proof.
  induction l as [|a l IH]; simpl.
  - split; constructor.
  - split; intro H; inversion H as [|x xs Hx Hn]; subst; constructor.
    + intro Hin. apply Hx. now apply in_map.
    + now apply IH.
    + intro Hin. apply in_map_iff in Hin. destruct Hin as [y [E Hy]].
      injection E as ->. contradiction.
    + now apply IH.
Qed.

(** [rebuildUserMerchantProfilesForUser] completes normally exactly when
    the customer-type rows of the user name each merchant once and every
    type has a numeric rank; the profiles of the user are then those rows
    with their ranks, and they are gone when the call fails. The profiles
    of other users and the offer tables of the index are untouched. *)
Theorem rebuildUserMerchantProfilesForUser_result (src : Source) (userId : string)
        (db : Index) :
  let rows := customerTypesOfUser src userId in
  let res := Recompute.rebuildUserMerchantProfilesForUser src userId db in
  (fst res = Js.Normal tt
   <-> NoDup (map ct_merchantId rows) /\ Forall (fun r => ranked (Some (ct_type r))) rows)
  /\ (fst res = Js.Normal tt ->
      Resolver.profile (snd res) userId = map (profileRow userId) rows)
  /\ (fst res <> Js.Normal tt -> Resolver.profile (snd res) userId = [])
  /\ filter (fun p => negb (ump_userId p =? userId)) (userMerchantProfile (snd res))
     = filter (fun p => negb (ump_userId p =? userId)) (userMerchantProfile db)
  /\ offerIndex (snd res) = offerIndex db
  /\ offerIndexCustomerType (snd res) = offerIndexCustomerType db
  /\ offerIndexOutlet (snd res) = offerIndexOutlet db
  /\ loyaltyTierIndex (snd res) = loyaltyTierIndex db.
Proof.
  cbv zeta. unfold customerTypesOfUser, Resolver.profile.
  unfold Recompute.rebuildUserMerchantProfilesForUser, Recompute.bindM,
    Recompute.userMerchantProfile_deleteMany.
  cbv zeta.
  set (rows := filter (fun r => ct_userId r =? userId) (customerTypes src)).
  set (T0 := filter (fun r => negb (ump_userId r =? userId)) (userMerchantProfile db)).
  assert (HT0 : filter (fun p => ump_userId p =? userId) T0 = []).
  { apply filter_filter_negb. }
  assert (HT0' : filter (fun p => negb (ump_userId p =? userId)) T0 = T0).
  { apply filter_idem. }
  destruct rows as [|c rows'] eqn:Hrows.
  - cbn [fst snd Recompute.ret Recompute.setUserMerchantProfile userMerchantProfile
         offerIndex offerIndexCustomerType offerIndexOutlet loyaltyTierIndex map].
    fold T0. rewrite HT0, HT0'.
    repeat split; try constructor; try congruence.
  - rewrite <- Hrows. clear Hrows. clearbody rows.
    destruct (intColumn_spec (fun r => CustomerTypes.customerTypeRank (Some (ct_type r))) rows)
      as [I1 I2].
    assert (Hdec : Forall (fun r => ranked (Some (ct_type r))) rows
                   \/ ~ Forall (fun r => ranked (Some (ct_type r))) rows).
    { clear. induction rows as [|r rows IH].
      - left. constructor.
      - destruct IH as [IH|IH].
        + destruct (CustomerTypes.customerTypeRank (Some (ct_type r))) as [n| |] eqn:E.
          * left. constructor; [now exists n | exact IH].
          * right. intro H. inversion H as [|x xs [n Hn] _]; subst. congruence.
          * right. intro H. inversion H as [|x xs [n Hn] _]; subst. congruence.
        + right. intro H. inversion H; subst. contradiction. }
    destruct Hdec as [Hr|Hr].
    + rewrite (I1 Hr). unfold Recompute.userMerchantProfile_createMany.
      cbn [fst snd Recompute.setUserMerchantProfile userMerchantProfile].
      fold T0. rewrite combine_map_ranks.
      destruct (insertAllUnique_keys (fun p => (ump_userId p, ump_merchantId p))
                  Recompute.sameProfileKey sameProfileKey_iff
                  (map (profileRow userId) rows) T0) as [U1 U2].
      assert (Hdis : forall r t, In r (map (profileRow userId) rows) -> In t T0 ->
                                 (ump_userId r, ump_merchantId r)
                                 <> (ump_userId t, ump_merchantId t)).
      { intros r t Hin Ht E. apply in_map_iff in Hin. destruct Hin as [c1 [<- _]].
        simpl in E. injection E as E _.
        apply filter_In in Ht. destruct Ht as [_ Ht].
        rewrite <- E, String.eqb_refl in Ht. discriminate. }
      assert (Hnew : filter (fun p => ump_userId p =? userId) (map (profileRow userId) rows)
                     = map (profileRow userId) rows).
      { apply filter_all. intros x Hx. apply in_map_iff in Hx. destruct Hx as [c1 [<- _]].
        apply String.eqb_refl. }
      assert (Hnew' : filter (fun p => negb (ump_userId p =? userId))
                             (map (profileRow userId) rows) = []).
      { apply filter_none. intros x Hx. apply in_map_iff in Hx. destruct Hx as [c1 [<- _]].
        simpl. now rewrite String.eqb_refl. }
      assert (Hnd : NoDup (map ct_merchantId rows) \/ ~ NoDup (map ct_merchantId rows)).
      { clear. generalize (map ct_merchantId rows). intro l.
        induction l as [|a l IH]; [left; constructor|].
        destruct IH as [IH|IH].
        - destruct (in_dec string_dec a l); [right|left].
          + intro H. inversion H; subst. contradiction.
          + now constructor.
        - right. intro H. inversion H; subst. contradiction. }
      destruct Hnd as [Hn|Hn].
      * rewrite U1 by (split; [rewrite profile_keys; now apply NoDup_map_pair | exact Hdis]).
        cbn [fst snd userMerchantProfile offerIndex offerIndexCustomerType offerIndexOutlet
             loyaltyTierIndex Recompute.setUserMerchantProfile].
        rewrite !filter_app, HT0, HT0', Hnew, Hnew', app_nil_r. simpl.
        repeat split; auto; congruence.
      * rewrite U2 by (intros [H _]; apply Hn; rewrite profile_keys in H;
                       now apply NoDup_map_pair in H).
        cbn [fst snd userMerchantProfile offerIndex offerIndexCustomerType offerIndexOutlet
             loyaltyTierIndex Recompute.setUserMerchantProfile].
        rewrite HT0, HT0'.
        repeat split; auto; try discriminate; try tauto.
    + rewrite (I2 Hr).
      cbn [fst snd userMerchantProfile offerIndex offerIndexCustomerType offerIndexOutlet
           loyaltyTierIndex Recompute.setUserMerchantProfile Recompute.raise].
      fold T0. rewrite HT0, HT0'.
      repeat split; auto; try discriminate; try tauto.
Qed.

End UserProfiles.

(** ** The rebuild of an exclusive offer, and what a rebuild leaves alone *)

Section Exclusive.
Import Schema.

Variables (env : Recompute.Env) (src : Source) (id : string) (db : Index).
Variable eo : ExclusiveOffer.
Hypothesis Heo : find (fun e => eo_id e =? id) (exclusiveOffers src) = Some eo.

Lemma rebuildExclusiveIndex_no_merchant :
  exclusiveMerchantId eo = None ->
  Recompute.rebuildExclusiveIndex env src id db = (Js.Normal tt, db).
Proof.
  unfold exclusiveMerchantId, Recompute.rebuildExclusiveIndex. rewrite Heo. cbv zeta.
  destruct (match eo_merchantId eo with Some m => Some m | None => eo_Merchant eo end)
    as [[|a s]|]; simpl; [reflexivity | discriminate | reflexivity].
Qed.

Lemma rebuildExclusiveIndex_unfold (merchantId : string) :
  exclusiveMerchantId eo = Some merchantId ->
  exists update create,
    Recompute.rebuildExclusiveIndex env src id db
    = Recompute.bindM (Recompute.offerIndex_upsert (forExclusive id) update create)
        (fun index => replaceOfferChildren index (eo_eligibleCustomerTypes eo) (eo_Outlets eo))
        db
    /\ (forall r, forExclusive id r = true -> forExclusive id (update r) = true)
    /\ (forall r, oi_id (update r) = oi_id r)
    /\ forExclusive id create = true
    /\ (forall row, (exists old, forExclusive id old = true /\ row = update old) \/ row = create ->
          oi_kind row = EXCLUSIVE
          /\ oi_merchantId row = merchantId
          /\ oi_exclusiveOfferId row = Some id
          /\ oi_isActiveSnapshot row = eo_isActive eo
          /\ oi_isApprovedSnapshot row = Recompute.isApproved (eo_Review eo)
          /\ oi_deletedAtSnapshot row = eo_deletedAt eo
          /\ oi_budgetExhausted row
             = Recompute.offerBudgetExhausted (eo_netOfferBudget eo) (eo_usedOfferBudget eo)
          /\ oi_startDate row = eo_startDate eo
          /\ oi_endDate row = eo_endDate eo
          /\ oi_maxCashbackPercentBps row = None
          /\ oi_computedAt row = Recompute.now env).
Proof.
  apply find_some in Heo as Hid. destruct Hid as [_ Hid]. apply String.eqb_eq in Hid.
  unfold exclusiveMerchantId, Recompute.rebuildExclusiveIndex. rewrite Heo. cbv zeta.
  destruct (match eo_merchantId eo with Some m => Some m | None => eo_Merchant eo end)
    as [[|a s]|]; simpl; intro Hm; try discriminate Hm.
  injection Hm as <-.
  eexists. eexists. split; [reflexivity|].
  split; [intros r Hr; exact Hr|]. split; [reflexivity|].
  split; [unfold forExclusive; simpl; now apply String.eqb_eq|].
  intros row [[old [Hold ->]]| ->]; simpl.
  - apply option_eqb_Some in Hold. rewrite Hold. repeat split.
  - rewrite Hid. repeat split.
Qed.

End Exclusive.

Lemma percentage_hides_null (oi : Schema.OfferIndex) (minBps : Z) (maxBps : option Z) :
  Schema.oi_maxCashbackPercentBps oi = None -> 0 < minBps ->
  Sql.isTrue (Resolver.percentageFilter oi (Some minBps) maxBps) = false.
Proof.
  intros H Hm. unfold Resolver.percentageFilter. rewrite H, isTrue_and, isTrue_or. simpl.
  destruct (Z.leb_spec minBps 0); [lia | reflexivity].
Qed.

(** [rebuildExclusiveIndex] for an offer that exists: without a merchant,
    neither in [merchantId] nor through the relation, nothing is written;
    otherwise the index holds a row for the offer with kind EXCLUSIVE, that
    merchant, the snapshot of the offer and no cashback percentage; with
    pairwise distinct customer types the child rows are the offer's; and
    since the row has no percentage, a request with a positive [minBps]
    never sees it. *)
Theorem rebuildExclusiveIndex_snapshot (env : Recompute.Env) (src : Schema.Source)
        (id : string) (db : Schema.Index) (eo : Schema.ExclusiveOffer) :
  find (fun e => Schema.eo_id e =? id) (Schema.exclusiveOffers src) = Some eo ->
  let res := Recompute.rebuildExclusiveIndex env src id db in
  (exclusiveMerchantId eo = None -> res = (Js.Normal tt, db))
  /\ (forall merchantId, exclusiveMerchantId eo = Some merchantId ->
        exists row,
          find (forExclusive id) (Schema.offerIndex (snd res)) = Some row
          /\ Schema.oi_kind row = Schema.EXCLUSIVE
          /\ Schema.oi_merchantId row = merchantId
          /\ Schema.oi_isActiveSnapshot row = Schema.eo_isActive eo
          /\ Schema.oi_isApprovedSnapshot row = Recompute.isApproved (Schema.eo_Review eo)
          /\ Schema.oi_deletedAtSnapshot row = Schema.eo_deletedAt eo
          /\ Schema.oi_budgetExhausted row
             = Recompute.offerBudgetExhausted (Schema.eo_netOfferBudget eo)
                                              (Schema.eo_usedOfferBudget eo)
          /\ Schema.oi_startDate row = Schema.eo_startDate eo
          /\ Schema.oi_endDate row = Schema.eo_endDate eo
          /\ Schema.oi_maxCashbackPercentBps row = None
          /\ (NoDup (Schema.eo_eligibleCustomerTypes eo) ->
              fst res = Js.Normal tt
              /\ customerTypesOf (snd res) (Schema.oi_id row)
                 = Schema.eo_eligibleCustomerTypes eo
              /\ (forall o, In o (outletsOf (snd res) (Schema.oi_id row))
                            <-> In o (Schema.eo_Outlets eo)))
          /\ (forall userId now minBps maxBps, 0 < minBps ->
                Resolver.cashbackOrExclusiveRowsOf (snd res) userId now
                  (Some minBps) maxBps row = [])).
Proof.
  intros Heo res. subst res. split.
  - intro Hm. now apply rebuildExclusiveIndex_no_merchant with (eo := eo).
  - intros merchantId Hm.
    destruct (rebuildExclusiveIndex_unfold env src id db eo Heo merchantId Hm)
      as (update & create & Heq & Hw & Hid & Hc & Hrow).
    rewrite Heq.
    destruct (upsert_then_replace (forExclusive id) update create
                (Schema.eo_eligibleCustomerTypes eo) (Schema.eo_Outlets eo) db Hw Hid Hc)
      as (row & Hfind & Horigin & _ & _ & _ & Hok & _).
    assert (Hfields :
              (exists old, forExclusive id old = true /\ row = update old) \/ row = create).
    { destruct Horigin as [[old [Hold ->]]|[_ ->]]; [left|now right].
      exists old. split; [|reflexivity]. apply find_some in Hold. tauto. }
    destruct (Hrow row Hfields) as (F1 & F2 & F3 & F4 & F5 & F6 & F7 & F8 & F9 & F10 & F11).
    exists row. repeat (split; [assumption|]). split.
    + intro Hn. destruct (Hok Hn) as (O1 & O2 & _ & O4 & _). auto.
    + intros userId now minBps maxBps Hmin.
      unfold Resolver.cashbackOrExclusiveRowsOf. apply rowsOf_nil. intro p.
      unfold Resolver.cashbackOrExclusiveWhere. rewrite !isTrue_and.
      rewrite (percentage_hides_null row minBps maxBps F10 Hmin).
      rewrite andb_false_l, !andb_false_r. reflexivity.
Qed.

Lemma rebuildExclusiveIndex_snapshot_witness :
  exists row,
    find (forExclusive "ex_vip")
         (Schema.offerIndex
            (snd (Recompute.rebuildExclusiveIndex Sample.env2 Sample.sourceOffers "ex_vip"
                    Sample.emptyIndex))) = Some row
    /\ Schema.oi_kind row = Schema.EXCLUSIVE
    /\ Schema.oi_merchantId row = "m_food_1"
    /\ Schema.oi_maxCashbackPercentBps row = None
    /\ Resolver.cashbackOrExclusiveRowsOf
         (snd (Recompute.rebuildExclusiveIndex Sample.env2 Sample.sourceOffers "ex_vip"
                 Sample.emptyIndex))
         "u1" 5000 (Some 1) None row = [].
Proof.
  destruct (proj2 (rebuildExclusiveIndex_snapshot Sample.env2 Sample.sourceOffers "ex_vip"
                     Sample.emptyIndex Sample.ex_vip eq_refl) "m_food_1" eq_refl)
    as (row & H1 & H2 & H3 & _ & _ & _ & _ & _ & _ & H10 & _ & H12).
  exists row. split; [exact H1|]. split; [exact H2|]. split; [exact H3|].
  split; [exact H10|]. apply H12. lia.
Defined.

Section Frame.
Import Schema.

Lemma NoDup_decidable (l : list string) : NoDup l \/ ~ NoDup l.
Proof.
  induction l as [|a l IH]; [left; constructor|].
  destruct IH as [IH|IH].
  - destruct (in_dec string_dec a l); [right|left].
    + intro H. inversion H; subst. contradiction.
    + now constructor.
  - right. intro H. inversion H; subst. contradiction.
Qed.

Lemma othersKept_refl (where_ : OfferIndex -> bool) (db : Index) : othersKept where_ db db.
Proof. repeat split. Qed.

Lemma upsert_then_replace_frame (where_ : OfferIndex -> bool)
      (update : OfferIndex -> OfferIndex) (create : OfferIndex)
      (cts outs : list string) (db : Index) :
  (forall r, where_ r = true -> where_ (update r) = true) ->
  (forall r, oi_id (update r) = oi_id r) ->
  where_ create = true ->
  othersKept where_ db
    (snd (Recompute.bindM (Recompute.offerIndex_upsert where_ update create)
                          (fun index => replaceOfferChildren index cts outs) db)).
Proof.
  intros Hw Hid Hc.
  destruct (upsert_then_replace where_ update create cts outs db Hw Hid Hc)
    as (row & Hfind & _ & H1 & H2 & H3 & Hok & Hdup).
  split; [exact H1|]. split; [exact H2|]. split; [exact H3|].
  intros i Hi. specialize (Hi row Hfind).
  destruct (NoDup_decidable cts) as [Hn|Hn].
  - destruct (Hok Hn) as (_ & _ & _ & _ & Hother). now apply Hother.
  - destruct (Hdup Hn) as (_ & D1 & D2). unfold customerTypesOf, outletsOf.
    now rewrite D1, D2.
Qed.

End Frame.

(** Rebuilding one cashback configuration or one exclusive offer leaves
    the rest of the index alone: the index rows of other offers, with their
    customer types and outlets, the loyalty tier rows and the user profiles
    are unchanged, whatever the outcome of the call. *)
Theorem rebuild_keeps_other_offers (env : Recompute.Env) (src : Schema.Source)
        (id : string) (db : Schema.Index) :
  othersKept (forCashback id) db (snd (Recompute.rebuildCashbackIndex env src id db))
  /\ othersKept (forExclusive id) db (snd (Recompute.rebuildExclusiveIndex env src id db)).
Proof.
  split.
  - destruct (find (fun c => Schema.cc_id c =? id) (Schema.cashbackConfigurations src))
      as [cc|] eqn:Hcc.
    + destruct (rebuildCashbackIndex_unfold env src id db cc Hcc)
        as (update & create & Heq & Hw & Hid & Hc & _).
      rewrite Heq. now apply upsert_then_replace_frame.
    + unfold Recompute.rebuildCashbackIndex. rewrite Hcc. apply othersKept_refl.
  - destruct (find (fun e => Schema.eo_id e =? id) (Schema.exclusiveOffers src))
      as [eo|] eqn:Heo.
    + destruct (exclusiveMerchantId eo) as [m|] eqn:Hm.
      * destruct (rebuildExclusiveIndex_unfold env src id db eo Heo m Hm)
          as (update & create & Heq & Hw & Hid & Hc & _).
        rewrite Heq. now apply upsert_then_replace_frame.
      * rewrite (rebuildExclusiveIndex_no_merchant env src id db eo Heo Hm).
        apply othersKept_refl.
    + unfold Recompute.rebuildExclusiveIndex. rewrite Heo. apply othersKept_refl.
Qed.

(** ** The rebuild of a loyalty program, read back *)

Section Loyalty.
Import Schema.

Lemma replaceLoyaltyChildren_ok (idx : string) (outs : list string)
      (ranks : list CustomerTypes.PropertyValue) (ns : list Z) (db : Index) :
  Recompute.intColumn ranks = Js.Normal ns ->
  replaceLoyaltyChildren idx outs ranks db
  = (Js.Normal tt,
     mkIndex (offerIndex db) (offerIndexCustomerType db)
       (Recompute.insertAllSkipDuplicates Recompute.sameOutletKey
          (map (fun o => mkOfferIndexOutlet idx o) outs)
          (filter (fun r => negb (oio_offerIndexId r =? idx)) (offerIndexOutlet db)))
       (filter (fun r => negb (lti_offerIndexId r =? idx)) (loyaltyTierIndex db)
        ++ map (fun rank => mkLoyaltyTierIndex idx rank true true None) ns)
       (userMerchantProfile db)).
Proof.
  intro H. unfold replaceLoyaltyChildren, Recompute.transaction, Recompute.bindM.
  rewrite H. reflexivity.
Qed.

Variables (env : Recompute.Env) (src : Source) (merchantId : string) (db : Index).
Variables (merchant : Merchant) (lp : LoyaltyProgram).
Hypothesis Hm : find (fun m => m_id m =? merchantId) (merchants src) = Some merchant.
Hypothesis Hlp : m_LoyaltyProgram merchant = Some lp.

Lemma rebuildLoyaltyIndexByMerchant_unfold :
  exists update create,
    Recompute.rebuildLoyaltyIndexByMerchant env src merchantId db
    = Recompute.bindM (Recompute.offerIndex_upsert (forLoyaltyProgram (lp_id lp)) update create)
        (fun index =>
           replaceLoyaltyChildren index (outletsOfMerchant src merchantId)
             (map (fun t => CustomerTypes.customerTypeRank (lt_minCustomerType t))
                  (filter Recompute.qualifyingTier (lp_LoyaltyTiers lp))))
        db
    /\ (forall r, forLoyaltyProgram (lp_id lp) r = true ->
                  forLoyaltyProgram (lp_id lp) (update r) = true)
    /\ (forall r, oi_id (update r) = oi_id r)
    /\ forLoyaltyProgram (lp_id lp) create = true
    /\ (forall row, (exists old, row = update old) \/ row = create ->
          oi_kind row = LOYALTY
          /\ oi_merchantId row = merchantId
          /\ oi_isActiveSnapshot row = lp_isActive lp
          /\ oi_isApprovedSnapshot row
             = Recompute.isApproved (lp_Review lp)
               && existsb Recompute.qualifyingReward (lp_MerchantLoyaltyRewards lp)
               && (0 <? List.length
                          (map (fun t => CustomerTypes.customerTypeRank (lt_minCustomerType t))
                               (filter Recompute.qualifyingTier (lp_LoyaltyTiers lp))))%nat
          /\ oi_deletedAtSnapshot row = None
          /\ oi_budgetExhausted row
             = Recompute.pointsLimitExhausted (lp_pointsIssuedLimit lp)
                                              (lp_pointsUsedInPeriod lp)
          /\ oi_startDate row = None
          /\ oi_endDate row = None).
Proof.
  unfold Recompute.rebuildLoyaltyIndexByMerchant. rewrite Hm, Hlp. cbv zeta.
  eexists. eexists. split; [reflexivity|].
  split; [intros r Hr; exact Hr|]. split; [reflexivity|].
  split; [unfold forLoyaltyProgram; simpl; now apply String.eqb_eq|].
  intros row [[old ->]| ->]; simpl; repeat split.
Qed.

End Loyalty.

Section LoyaltyRead.
Import Schema.

Lemma tierAdmits_iff (db : Index) (userId : string) (oi : OfferIndex) :
  tierAdmits db userId oi
  <-> exists lti rank,
        In lti (loyaltyTierIndex db)
        /\ lti_offerIndexId lti = oi_id oi
        /\ lti_isActiveSnapshot lti = true
        /\ lti_isApprovedSnapshot lti = true
        /\ lti_deletedAtSnapshot lti = None
        /\ userRankAt db userId (oi_merchantId oi) rank
        /\ CustomerTypes.isTierEligible rank (lti_tierRank lti) = true.
Proof.
  unfold tierAdmits, profilesFor, Sql.leftJoin, userRankAt.
  assert (Htier : forall p,
             Resolver.existsEligibleTier db oi p = true
             <-> exists lti,
                   In lti (loyaltyTierIndex db)
                   /\ lti_offerIndexId lti = oi_id oi
                   /\ lti_isActiveSnapshot lti = true
                   /\ lti_isApprovedSnapshot lti = true
                   /\ lti_deletedAtSnapshot lti = None
                   /\ CustomerTypes.isTierEligible (Sql.COALESCE (Resolver.rankOf p) 0)
                                                   (lti_tierRank lti) = true).
  { intro p. unfold Resolver.existsEligibleTier. rewrite existsb_exists.
    split.
    - intros [lti [Hin H]]. rewrite !andb_true_iff in H.
      destruct H as [[[[H1 H2] H3] H4] H5].
      exists lti. apply String.eqb_eq in H1.
      destruct (lti_deletedAtSnapshot lti); [discriminate H4|].
      repeat (split; [assumption || reflexivity|]).
      apply isTierEligible_iff. apply Z.leb_le in H5. lia.
    - intros (lti & Hin & H1 & H2 & H3 & H4 & H5). exists lti. split; [exact Hin|].
      rewrite !andb_true_iff, H2, H3, H4, String.eqb_eq.
      apply isTierEligible_iff in H5. repeat split; try assumption.
      apply Z.leb_le. lia. }
  destruct (filter (fun p => ump_merchantId p =? oi_merchantId oi) (Resolver.profile db userId))
    as [|q qs] eqn:Hf.
  - assert (Hnone : forall prof, In prof (Resolver.profile db userId) ->
                                 ump_merchantId prof <> oi_merchantId oi).
    { intros prof Hin E.
      assert (H : In prof (filter (fun p => ump_merchantId p =? oi_merchantId oi)
                                  (Resolver.profile db userId))).
      { apply filter_In. split; [exact Hin | now apply String.eqb_eq]. }
      rewrite Hf in H. contradiction. }
    split.
    + intros (p & [<-|[]] & H). apply Htier in H.
      destruct H as (lti & Hin & H1 & H2 & H3 & H4 & H5).
      exists lti, 0. repeat (split; [assumption|]). split; [right; auto | exact H5].
    + intros (lti & rank & Hin & H1 & H2 & H3 & H4 & Hrank & H5).
      exists None. split; [now left|]. apply Htier. exists lti.
      repeat (split; [assumption|]).
      destruct Hrank as [(prof & Hp & E & _)|[_ ->]]; [exfalso; exact (Hnone prof Hp E)|].
      exact H5.
  - assert (Hin : forall prof, In prof (q :: qs)
                               <-> In prof (Resolver.profile db userId)
                                   /\ ump_merchantId prof = oi_merchantId oi).
    { intro prof. rewrite <- Hf, filter_In, String.eqb_eq. tauto. }
    split.
    + intros (p & Hp & H). apply in_map_iff in Hp. destruct Hp as [prof [<- Hp]].
      apply Hin in Hp. apply Htier in H.
      destruct H as (lti & Hl & H1 & H2 & H3 & H4 & H5).
      exists lti, (ump_rank prof). repeat (split; [assumption|]).
      split; [left; exists prof; tauto | exact H5].
    + intros (lti & rank & Hl & H1 & H2 & H3 & H4 & Hrank & H5).
      destruct Hrank as [(prof & Hp & E & <-)|[Hnone _]].
      * exists (Some prof). split; [apply in_map; apply Hin; auto|].
        apply Htier. exists lti. auto 10.
      * exfalso. destruct (proj1 (Hin q) (or_introl eq_refl)) as [Hq E].
        exact (Hnone q Hq E).
Qed.

End LoyaltyRead.

(** Reading back what [rebuildLoyaltyIndexByMerchant] wrote, when the
    qualifying tiers have numeric ranks: the rebuilt row makes an outlet
    eligible for a user exactly when the outlet belongs to the merchant,
    the program is active and approved, has a qualifying reward, has not
    exhausted its points limit, and has a qualifying tier whose rank the
    user's rank at the merchant (0 without a profile) reaches. *)
Theorem rebuilt_loyalty_rows (env : Recompute.Env) (src : Schema.Source)
        (merchantId : string) (db : Schema.Index)
        (merchant : Schema.Merchant) (lp : Schema.LoyaltyProgram) :
  find (fun m => Schema.m_id m =? merchantId) (Schema.merchants src) = Some merchant ->
  Schema.m_LoyaltyProgram merchant = Some lp ->
  Forall (fun t => ranked (Schema.lt_minCustomerType t))
         (filter Recompute.qualifyingTier (Schema.lp_LoyaltyTiers lp)) ->
  let res := Recompute.rebuildLoyaltyIndexByMerchant env src merchantId db in
  fst res = Js.Normal tt
  /\ exists row,
       find (forLoyaltyProgram (Schema.lp_id lp)) (Schema.offerIndex (snd res)) = Some row
       /\ forall (userId : string) (o : string),
            (exists k, In (Resolver.mkRow o k) (Resolver.loyaltyRowsOf (snd res) userId row))
            <-> In o (outletsOfMerchant src merchantId)
                /\ Schema.lp_isActive lp = true
                /\ Recompute.isApproved (Schema.lp_Review lp) = true
                /\ (exists r, In r (Schema.lp_MerchantLoyaltyRewards lp)
                              /\ Recompute.qualifyingReward r = true)
                /\ Recompute.pointsLimitExhausted (Schema.lp_pointsIssuedLimit lp)
                                                  (Schema.lp_pointsUsedInPeriod lp) = false
                /\ exists t rank,
                     In t (Schema.lp_LoyaltyTiers lp)
                     /\ Recompute.qualifyingTier t = true
                     /\ userRankAt db userId merchantId rank
                     /\ CustomerTypes.isTierEligible
                          rank (rankOr0 (Schema.lt_minCustomerType t)) = true.
Proof.
  intros Hm Hlp Hranked res. subst res.
  destruct (rebuildLoyaltyIndexByMerchant_unfold env src merchantId db merchant lp Hm Hlp)
    as (update & create & Heq & Hw & Hid & Hc & Hrow).
  rewrite Heq. clear Heq.
  set (tiers := filter Recompute.qualifyingTier (Schema.lp_LoyaltyTiers lp)) in *.
  destruct (intColumn_spec (fun t => CustomerTypes.customerTypeRank (Schema.lt_minCustomerType t))
              tiers) as [Hint _].
  specialize (Hint Hranked).
  destruct (offerIndex_upsert_spec (forLoyaltyProgram (Schema.lp_id lp)) update create db
              Hw Hid Hc) as (row & Hfind & Hfst & Horigin).
  pose proof (upsert_leaves Schema.userMerchantProfile (forLoyaltyProgram (Schema.lp_id lp))
                update create (fun _ _ => eq_refl) db) as Hup.
  unfold Recompute.bindM.
  destruct (Recompute.offerIndex_upsert (forLoyaltyProgram (Schema.lp_id lp)) update create db)
    as [[idx|e] db1]; [|discriminate Hfst].
  cbn [fst snd] in *. injection Hfst as ->.
  rewrite (replaceLoyaltyChildren_ok _ _ _ _ db1 Hint). cbn [fst snd].
  split; [reflexivity|]. exists row. split; [exact Hfind|].
  assert (Hfields : (exists old, row = update old) \/ row = create).
  { destruct Horigin as [[old [_ ->]]|[_ ->]]; [left; now exists old | now right]. }
  destruct (Hrow row Hfields) as (F1 & F2 & F3 & F4 & F5 & F6 & F7 & F8).
  set (db' := Schema.mkIndex _ _ _ _ _).
  destruct (outlet_rows_replaced (Schema.oi_id row) (outletsOfMerchant src merchantId)
              (Schema.offerIndexOutlet db1)) as (_ & Houts & _).
  cbv zeta in Houts.
  assert (Htable : forall lti,
             In lti (Schema.loyaltyTierIndex db')
             /\ Schema.lti_offerIndexId lti = Schema.oi_id row
             <-> exists t, In t tiers
                           /\ lti = Schema.mkLoyaltyTierIndex (Schema.oi_id row)
                                      (rankOr0 (Schema.lt_minCustomerType t)) true true None).
  { intro lti. unfold db'. cbn [Schema.loyaltyTierIndex]. rewrite in_app_iff, filter_In.
    rewrite map_map, in_map_iff. split.
    - intros [[[_ H]|[t [<- Ht]]] E].
      + rewrite E, String.eqb_refl in H. discriminate.
      + exists t. split; [exact Ht|]. unfold rankOr0, CustomerTypes.rankNumber.
        destruct (CustomerTypes.customerTypeRank (Schema.lt_minCustomerType t)); reflexivity.
    - intros [t [Ht ->]]. split; [|reflexivity]. right. exists t. split; [|exact Ht].
      unfold rankOr0, CustomerTypes.rankNumber.
      destruct (CustomerTypes.customerTypeRank (Schema.lt_minCustomerType t)); reflexivity. }
  intros userId o.
  assert (Hadm : tierAdmits db' userId row
                 <-> exists t rank,
                       In t (Schema.lp_LoyaltyTiers lp)
                       /\ Recompute.qualifyingTier t = true
                       /\ userRankAt db userId merchantId rank
                       /\ CustomerTypes.isTierEligible
                            rank (rankOr0 (Schema.lt_minCustomerType t)) = true).
  { rewrite tierAdmits_iff. rewrite F2.
    assert (Hru : forall rank, userRankAt db' userId merchantId rank
                               <-> userRankAt db userId merchantId rank).
    { intro rank. unfold userRankAt, Resolver.profile, db'.
      cbn [Schema.userMerchantProfile]. rewrite Hup. reflexivity. }
    split.
    - intros (lti & rank & Hin & H1 & H2 & H3 & H4 & Hr & He).
      destruct (proj1 (Htable lti) (conj Hin H1)) as [t [Ht ->]].
      apply filter_In in Ht. exists t, rank. cbn [Schema.lti_tierRank] in He.
      split; [tauto|]. split; [tauto|]. split; [now apply Hru | exact He].
    - intros (t & rank & Ht & Hq & Hr & He).
      assert (Ht' : In t tiers) by (apply filter_In; auto).
      destruct (proj2 (Htable _) (ex_intro _ t (conj Ht' eq_refl))) as [Hin Hidx].
      eexists. exists rank. split; [exact Hin|]. split; [exact Hidx|].
      cbn [Schema.lti_isActiveSnapshot Schema.lti_isApprovedSnapshot
           Schema.lti_deletedAtSnapshot Schema.lti_tierRank].
      repeat (split; [reflexivity|]). split; [now apply Hru | exact He]. }
  assert (Hin_outs : In o (outletsOf db' (Schema.oi_id row))
                     <-> In o (outletsOfMerchant src merchantId)).
  { unfold outletsOf, db'. cbn [Schema.offerIndexOutlet]. apply Houts. }
  rewrite <- Hin_outs, outletsOf_In.
  unfold Resolver.loyaltyRowsOf. split.
  - intros [k Hk]. apply rowsOf_In in Hk.
    destruct Hk as (oio & p & Hoio & Hidx & Hp & Hwh & E). injection E as E _.
    apply loyaltyWhere_true in Hwh. destruct Hwh as (_ & W1 & W2 & W3 & W4 & W5).
    split; [exists oio; auto|].
    rewrite F3 in W1. rewrite F4 in W2. rewrite F6 in W4.
    apply andb_prop in W2. destruct W2 as [W2 _].
    apply andb_prop in W2. destruct W2 as [W2a W2b].
    split; [exact W1|]. split; [exact W2a|]. split.
    { apply existsb_exists in W2b. exact W2b. }
    split; [exact W4|]. apply Hadm. exists p. auto.
  - intros ((oio & Hoio & Hidx & Ho) & A1 & A2 & A3 & A4 & A5).
    pose proof (proj2 Hadm A5) as (p & Hp & Ht).
    exists 0. apply rowsOf_In. exists oio, p.
    split; [exact Hoio|]. split; [exact Hidx|]. split; [exact Hp|]. split; [|now rewrite Ho].
    apply loyaltyWhere_true. rewrite F3, F4, F5, F6.
    split; [exact F1|]. split; [exact A1|]. split; [|auto].
    rewrite A2. simpl. apply andb_true_intro. split.
    + apply existsb_exists. exact A3.
    + destruct A5 as (t & rank & Ht' & Hq & _).
      apply Nat.ltb_lt. rewrite length_map.
      assert (Hin : In t tiers) by (apply filter_In; auto).
      destruct tiers; [contradiction | simpl; lia].
Qed.

Lemma rebuilt_loyalty_rows_witness :
  let db := snd (Recompute.rebuildUserMerchantProfilesForUser Sample.sourceOffers "u1"
                   Sample.emptyIndex) in
  let res := Recompute.rebuildLoyaltyIndexByMerchant Sample.env1 Sample.sourceOffers
               "m_loyalty_1" db in
  fst res = Js.Normal tt
  /\ exists row,
       find (forLoyaltyProgram "lp_coffee") (Schema.offerIndex (snd res)) = Some row
       /\ exists k, In (Resolver.mkRow "o_loy_1" k) (Resolver.loyaltyRowsOf (snd res) "u1" row).
Proof.
  intros db res.
  destruct (rebuilt_loyalty_rows Sample.env1 Sample.sourceOffers "m_loyalty_1" db
              (Schema.mkMerchant "m_loyalty_1" "Active" "Cafe" "Coffee Club"
                 (Some Sample.lp_ok))
              Sample.lp_ok eq_refl eq_refl)
    as (H1 & row & H2 & H3).
  - constructor; [exists 1; reflexivity | constructor].
  - split; [exact H1|]. exists row. split; [exact H2|].
    apply (H3 "u1" "o_loy_1").
    split; [vm_compute; now left|]. split; [reflexivity|]. split; [reflexivity|].
    split.
    { eexists. split; [now left | reflexivity]. }
    split; [reflexivity|].
    eexists. exists 4. split; [now left|]. split; [reflexivity|].
    split; [|reflexivity].
    vm_compute. left. exists (Schema.mkUserMerchantProfile "u1" "m_loyalty_1" "Regular" 4).
    split; [right; now left | split; reflexivity].
Defined.

(** ** What the loaders return *)

Section Exact.
Import Schema.

Lemma loaderRows_single (db : Index) (userId : string) (kind : OfferKind) (now : Z)
      (oid : string) (r : Loaders.LoaderRow) :
  In r (Loaders.eligibleOfferIndexRowsForOutlets db userId [oid] kind now)
  <-> exists oi,
        offeredThrough db userId now kind oid oi
        /\ r = Loaders.mkLoaderRow oid (oi_id oi)
                 (oi_cashbackConfigurationId oi) (oi_exclusiveOfferId oi)
                 (oi_loyaltyProgramId oi).
Proof.
  rewrite loaderRows_In. unfold offeredThrough, liveAt, typeAdmits, tierAdmits. split.
  - intros (oi & oio & p & Hoi & Hoio & Hid & Hp & Hw & ->).
    apply loaderWhere_true in Hw.
    destruct Hw as (Hk & [Hin|[]] & Ha & Hap & Hd & Hb & Hdw & Hu).
    exists oi. split; [|now rewrite Hin].
    split; [exact Hk|]. split.
    { split; [exact Hoi|]. split; [exists oio; auto | auto]. }
    split; [now apply dateWindow_true|].
    destruct kind; simpl in Hu; exists p; auto.
  - intros (oi & (Hk & (Hoi & (oio & Hoio & Hid & Ho) & Ha & Hap & Hd & Hb) & Hdw & Hu) & ->).
    assert (Hp : exists p, In p (profilesFor db userId oi)
                           /\ (if OfferKind_eqb kind LOYALTY
                               then Resolver.existsEligibleTier db oi p = true
                               else Sql.isTrue (Resolver.customerTypeRule db oi p) = true)).
    { destruct kind; simpl; exact Hu. }
    destruct Hp as (p & Hp & Hrule).
    exists oi, oio, p. repeat (split; [assumption|]). split; [|now rewrite Ho].
    apply loaderWhere_true. rewrite Ho.
    split; [exact Hk|]. split; [now left|].
    repeat (split; [assumption|]). split; [now apply dateWindow_true | exact Hrule].
Qed.

Lemma offerOfRow_In {T : Type} (id : T -> string) (table : list T) (col : option string)
      (o : T) :
  NoDup (map id table) ->
  (In o (offerOfRow id table col) <-> In o table /\ id o <> "" /\ col = Some (id o)).
Proof.
  intro Hn. unfold offerOfRow.
  assert (Hn' : NoDup (map id (rev table))) by (rewrite map_rev; now apply NoDup_rev).
  destruct col as [[|a s]|]; simpl.
  - split; [contradiction|]. intros (_ & Hne & E). injection E as E. congruence.
  - destruct (find _ (rev table)) as [o'|] eqn:Hf.
    + apply find_some in Hf. destruct Hf as [Hin E]. apply String.eqb_eq in E.
      split.
      * intros [<-|[]]. rewrite <- in_rev in Hin. rewrite E.
        split; [exact Hin|]. split; [discriminate | reflexivity].
      * intros (Ho & _ & E'). injection E' as E'. left.
        apply in_rev in Ho.
        assert (Hk : id o' = id o) by congruence.
        clear - Hn' Hin Ho Hk.
        induction (rev table) as [|x l IH]; [contradiction|].
        simpl in Hn'. inversion Hn' as [|y ys Hx Hl]; subst.
        destruct Hin as [->|Hin], Ho as [->|Ho]; try reflexivity.
        -- exfalso. apply Hx. rewrite Hk. now apply in_map.
        -- exfalso. apply Hx. rewrite <- Hk. now apply in_map.
        -- now apply IH.
    + split; [contradiction|]. intros (Ho & _ & E). injection E as E.
      apply in_rev in Ho. apply (find_none _ _ Hf) in Ho.
      rewrite E, String.eqb_refl in Ho. discriminate.
  - split; [contradiction|]. intros (_ & _ & E). discriminate.
Qed.

Lemma nth_error_map_Some {A B : Type} (f : A -> B) (l : list A) (i : nat) (a : A) (b : B) :
  nth_error l i = Some a -> nth_error (map f l) i = Some b -> b = f a.
Proof.
  intros Ha Hb. rewrite nth_error_map, Ha in Hb. simpl in Hb. congruence.
Qed.

End Exact.

(** What [cashbackByOutlet] and [exclusiveByOutlet] return for an outlet id
    of the batch, when the ids of the offer tables are unique: exactly the
    offers of the table, with a non-empty id, that some index row of the
    kind carries and offers through this outlet to the user now. *)
Theorem offers_by_outlet_exact (tables : Loaders.OfferTables) (db : Schema.Index)
        (userId : string) (now : Z) (outletIds : list string) (i : nat) (oid : string) :
  NoDup (map Loaders.in_id (Loaders.cashbackConfiguration tables)) ->
  NoDup (map Loaders.ind_id (Loaders.exclusiveOffer tables)) ->
  nth_error outletIds i = Some oid ->
  (forall offers,
      nth_error (Loaders.cashbackByOutlet tables db userId now outletIds) i = Some offers ->
      forall o,
        In o offers
        <-> In o (Loaders.cashbackConfiguration tables)
            /\ Loaders.in_id o <> ""
            /\ exists oi, offeredThrough db userId now Schema.CASHBACK oid oi
                          /\ Schema.oi_cashbackConfigurationId oi = Some (Loaders.in_id o))
  /\ (forall offers,
        nth_error (Loaders.exclusiveByOutlet tables db userId now outletIds) i = Some offers ->
        forall o,
          In o offers
          <-> In o (Loaders.exclusiveOffer tables)
              /\ Loaders.ind_id o <> ""
              /\ exists oi, offeredThrough db userId now Schema.EXCLUSIVE oid oi
                            /\ Schema.oi_exclusiveOfferId oi = Some (Loaders.ind_id o)).
Proof.
  intros Hc He Hoid. split.
  - intros offers Hoffers o.
    rewrite cashbackByOutlet_each in Hoffers.
    rewrite (nth_error_map_Some _ _ _ _ _ Hoid Hoffers).
    rewrite in_flat_map. split.
    + intros (r & Hr & Ho). apply loaderRows_single in Hr. destruct Hr as (oi & Hoi & ->).
      apply (offerOfRow_In Loaders.in_id _ _ _ Hc) in Ho. cbn [Loaders.cashbackConfigurationId] in Ho.
      destruct Ho as (H1 & H2 & H3). split; [exact H1|]. split; [exact H2|]. now exists oi.
    + intros (H1 & H2 & oi & Hoi & H3).
      eexists. split; [apply loaderRows_single; exists oi; split; [exact Hoi | reflexivity]|].
      apply (offerOfRow_In Loaders.in_id _ _ _ Hc). cbn [Loaders.cashbackConfigurationId]. auto.
  - intros offers Hoffers o.
    rewrite exclusiveByOutlet_each in Hoffers.
    rewrite (nth_error_map_Some _ _ _ _ _ Hoid Hoffers).
    rewrite in_flat_map. split.
    + intros (r & Hr & Ho). apply loaderRows_single in Hr. destruct Hr as (oi & Hoi & ->).
      apply (offerOfRow_In Loaders.ind_id _ _ _ He) in Ho. cbn [Loaders.exclusiveOfferId] in Ho.
      destruct Ho as (H1 & H2 & H3). split; [exact H1|]. split; [exact H2|]. now exists oi.
    + intros (H1 & H2 & oi & Hoi & H3).
      eexists. split; [apply loaderRows_single; exists oi; split; [exact Hoi | reflexivity]|].
      apply (offerOfRow_In Loaders.ind_id _ _ _ He). cbn [Loaders.exclusiveOfferId]. auto.
Qed.

Lemma sample_tables_NoDup :
  NoDup (map Loaders.in_id (Loaders.cashbackConfiguration Sample.tables))
  /\ NoDup (map Loaders.ind_id (Loaders.exclusiveOffer Sample.tables)).
Proof.
  split; repeat (constructor; [simpl; intuition discriminate|]); constructor.
Qed.

Lemma offers_by_outlet_exact_witness :
  (In (Loaders.mkIdName "cb_all_10" "Cashback for all")
      (nth 0 (Loaders.cashbackByOutlet Sample.tables Sample.indexOffers "u1" 5000
                ["o_food_1"; "o_loy_1"]) [])
   <-> In (Loaders.mkIdName "cb_all_10" "Cashback for all")
          (Loaders.cashbackConfiguration Sample.tables)
       /\ "cb_all_10" <> ""
       /\ exists oi, offeredThrough Sample.indexOffers "u1" 5000 Schema.CASHBACK "o_food_1" oi
                     /\ Schema.oi_cashbackConfigurationId oi = Some "cb_all_10")
  /\ (In (Loaders.mkIdNameDescription "ex_vip" "VIP night" None)
         (nth 0 (Loaders.exclusiveByOutlet Sample.tables Sample.indexOffers "u1" 5000
                   ["o_food_1"; "o_loy_1"]) [])
      <-> In (Loaders.mkIdNameDescription "ex_vip" "VIP night" None)
             (Loaders.exclusiveOffer Sample.tables)
          /\ "ex_vip" <> ""
          /\ exists oi, offeredThrough Sample.indexOffers "u1" 5000 Schema.EXCLUSIVE "o_food_1" oi
                        /\ Schema.oi_exclusiveOfferId oi = Some "ex_vip").
Proof.
  destruct (offers_by_outlet_exact Sample.tables Sample.indexOffers "u1" 5000
              ["o_food_1"; "o_loy_1"] 0 "o_food_1"
              (proj1 sample_tables_NoDup) (proj2 sample_tables_NoDup) eq_refl) as [Hc He].
  split.
  - apply (Hc _ eq_refl (Loaders.mkIdName "cb_all_10" "Cashback for all")).
  - apply (He _ eq_refl (Loaders.mkIdNameDescription "ex_vip" "VIP night" None)).
Defined.

(** What [loyaltyByOutlet] returns for an outlet id of the batch: a program
    it returns is a row of the program table that an index row of kind
    LOYALTY carries and offers through this outlet to the user, and it
    returns [null] when the index offers no program through the outlet. *)
Theorem loyaltyByOutlet_sound (tables : Loaders.OfferTables) (db : Schema.Index)
        (userId : string) (now : Z) (outletIds : list string) (i : nat) (oid : string) :
  nth_error outletIds i = Some oid ->
  (forall p,
      nth_error (Loaders.loyaltyByOutlet tables db userId now outletIds) i = Some (Some p) ->
      In p (Loaders.loyaltyProgram tables)
      /\ exists oi, offeredThrough db userId now Schema.LOYALTY oid oi
                    /\ Schema.oi_loyaltyProgramId oi = Some (Loaders.in_id p))
  /\ ((forall oi, ~ offeredThrough db userId now Schema.LOYALTY oid oi) ->
      nth_error (Loaders.loyaltyByOutlet tables db userId now outletIds) i = Some None).
Proof.
  intro Hoid. rewrite loyaltyByOutlet_each. split.
  - intros p Hp. rewrite nth_error_map, Hoid in Hp. simpl in Hp. injection Hp as Hp.
    destruct (Loaders.eligibleOfferIndexRowsForOutlets db userId [oid] Schema.LOYALTY now)
      as [|first rest] eqn:Hrows; [discriminate|].
    assert (Hin : In first (Loaders.eligibleOfferIndexRowsForOutlets db userId [oid]
                              Schema.LOYALTY now)) by (rewrite Hrows; now left).
    apply loaderRows_single in Hin. destruct Hin as (oi & Hoi & ->).
    cbn [Loaders.loyaltyProgramId] in Hp. unfold offerOfRow in Hp.
    destruct (Schema.oi_loyaltyProgramId oi) as [[|a s]|] eqn:Elp; simpl in Hp; try discriminate.
    destruct (find _ (rev (Loaders.loyaltyProgram tables))) as [o|] eqn:Hf; [|discriminate].
    simpl in Hp. injection Hp as ->.
    apply find_some in Hf. destruct Hf as [Hin E]. apply String.eqb_eq in E.
    rewrite <- in_rev in Hin. split; [exact Hin|].
    exists oi. split; [exact Hoi|]. now rewrite E.
  - intro Hnone. rewrite nth_error_map, Hoid. simpl.
    destruct (Loaders.eligibleOfferIndexRowsForOutlets db userId [oid] Schema.LOYALTY now)
      as [|first rest] eqn:Hrows; [reflexivity|].
    exfalso.
    assert (Hin : In first (Loaders.eligibleOfferIndexRowsForOutlets db userId [oid]
                              Schema.LOYALTY now)) by (rewrite Hrows; now left).
    apply loaderRows_single in Hin. destruct Hin as (oi & Hoi & _).
    exact (Hnone oi Hoi).
Qed.

Lemma loyaltyByOutlet_sound_witness :
  In (Loaders.mkIdName "lp_coffee" "Coffee Club") (Loaders.loyaltyProgram Sample.tables)
  /\ exists oi, offeredThrough Sample.indexOffers "u1" 5000 Schema.LOYALTY "o_loy_1" oi
                /\ Schema.oi_loyaltyProgramId oi = Some "lp_coffee".
Proof.
  apply (proj1 (loyaltyByOutlet_sound Sample.tables Sample.indexOffers "u1" 5000
                  ["o_food_1"; "o_loy_1"] 1 "o_loy_1" eq_refl)
               (Loaders.mkIdName "lp_coffee" "Coffee Club")).
  reflexivity.
Defined.
